(** * Phantom Node: position lifecycle, signal cooldown, risk governor

    A shallow embedding of the decision core of the [python_algo] package:
    - [backtest_cli.py]  : the bar-by-bar replay loop ([run_backtest]);
    - [backtester.py]    : [VectorizedBacktester.run];
    - [strategy.py], [strategy_v10.py] : [calculate_position_size],
      [manage_position], [generate_signal];
    - [strategy_backup.py], [strategy_backup_optimized.py] :
      [calculate_position_size], [calculate_trailing_stop],
      [_generate_original_signal], the guarded indicator formulas;
    - [main.py]          : [AdaptiveRiskManager], [PerformanceTracker],
      [calc_units_usdjpy].

    Prices, sizes and durations are Python floats in the source.  They are
    modelled by exact rationals [Q], operation by operation in the order of
    the source and without rounding; comparisons are the boolean tests of
    the source.  Where the source computes in floats the properties below
    are stated as orderings, bounds, signs and equalities between values
    the code computes once and stores, which rounding to the nearest double
    preserves.  Where the source can raise (a float division by zero) the
    model says so explicitly.  Dictionaries keyed by direction are
    [gmap string]. *)

From Stdlib Require Import QArith Qabs Qminmax Qround ZArith List Lia Lqa Bool.
From stdpp Require Import base option gmap strings.
Import ListNotations.

Open Scope Q_scope.

(** ** Python numerics on [Q] *)

Module Py.

(** [x <= y], [x < y], [x == y] as the interpreter evaluates them. *)
Definition leb (x y : Q) : bool := Qle_bool x y.
Definition ltb (x y : Q) : bool := negb (Qle_bool y x).
Definition eqb (x y : Q) : bool := Qeq_bool x y.

(** Truthiness of a number: [if x:] is taken unless [x] is zero. *)
Definition truthy (x : Q) : bool := negb (Qeq_bool x 0).

(** Built-in [abs], [min], [max].  [max(a, b)] returns [b] only when
    [b > a]; [min(a, b)] returns [b] only when [b < a]. *)
Definition abs (x : Q) : Q := if ltb x 0 then - x else x.
Definition max (a b : Q) : Q := if ltb a b then b else a.
Definition min (a b : Q) : Q := if ltb b a then b else a.

(** [int(x)]: truncation towards zero. *)
Definition int (x : Q) : Z := Z.quot (Qnum x) (Zpos (Qden x)).

(** [round(x, 2)]: nearest multiple of 1/100, ties to the even one. *)
Definition round2 (x : Q) : Q :=
  let y := x * 100 in
  let f := Qfloor y in
  let r := y - inject_Z f in
  let n := if ltb r (1 # 2) then f
           else if ltb (1 # 2) r then (f + 1)%Z
           else if Z.even f then f else (f + 1)%Z in
  inject_Z n / 100.

End Py.

(** ** Shared vocabulary *)

(** The ['action'] of a signal or of a position. *)
Inductive Action : Set := HOLD | BUY | SELL.

Definition is_buy (a : Action) : bool :=
  match a with BUY => true | _ => false end.

Definition is_sell (a : Action) : bool :=
  match a with SELL => true | _ => false end.

(** [action in ['BUY', 'SELL']] *)
Definition is_entry (a : Action) : bool := is_buy a || is_sell a.

(** A candle of the replayed frame: epoch milliseconds and OHLC. *)
Record Row : Set := mkRow {
  timestamp : Z;
  open_ : Q;
  high : Q;
  low : Q;
  close : Q
}.

(** Calendar fields of a naive UTC timestamp (1970-01-01 was a Thursday;
    [weekday] counts from Monday = 0). *)
Definition date_of (ts : Z) : Z := (ts / 86400000)%Z.
Definition weekday_of (ts : Z) : Z := ((date_of ts + 3) mod 7)%Z.
Definition hour_of (ts : Z) : Z := ((ts / 3600000) mod 24)%Z.
Definition minute_of (ts : Z) : Z := ((ts / 60000) mod 60)%Z.

(** ** backtest_cli.py *)

Module BacktestCli.

Inductive ExitReason : Set := StopLoss | TakeProfit.

(** The [active_trade] dictionary. *)
Record Trade : Set := mkTrade {
  id : nat;
  action : Action;
  entry : Q;
  entryTime : Z;
  sl : Q;
  tp : Q;
  units : Z
}.

(** A trade once the exit keys have been written and it has been appended
    to [trades]. *)
Record ClosedTrade : Set := mkClosed {
  trade : Trade;
  exitPrice : Q;
  exitTime : Z;
  exitReason : ExitReason;
  pnl : Q
}.

Definition set_sl (t : Trade) (s : Q) : Trade :=
  mkTrade (id t) (action t) (entry t) (entryTime t) s (tp t) (units t).

(** Lines 109-141: the in-bar breakeven move followed by the exit test.
    Returns the trade as mutated and [(exit_price, exit_reason)] when they
    have been assigned. *)
Definition resolve_exit (t : Trade) (lo hi : Q)
  : Trade * option (Q * ExitReason) :=
  if is_buy (action t) then
    let entry_price := entry t in
    let sl_dist := entry_price - sl t in
    let t1 :=
      if Py.ltb (entry_price + sl_dist) hi then
        let new_sl := entry_price + sl_dist * (1 # 10) in
        if Py.ltb (sl t) new_sl then set_sl t new_sl else t
      else t in
    if Py.leb lo (sl t1) then (t1, Some (sl t1, StopLoss))
    else if Py.leb (tp t1) hi then (t1, Some (tp t1, TakeProfit))
    else (t1, None)
  else
    let entry_price := entry t in
    let sl_dist := sl t - entry_price in
    let t1 :=
      if Py.ltb lo (entry_price - sl_dist) then
        let new_sl := entry_price - sl_dist * (1 # 10) in
        if Py.ltb new_sl (sl t) then set_sl t new_sl else t
      else t in
    if Py.leb (sl t1) hi then (t1, Some (sl t1, StopLoss))
    else if Py.leb lo (tp t1) then (t1, Some (tp t1, TakeProfit))
    else (t1, None).

(** Lines 149-154: realised PnL of an exit, in account currency. *)
Definition realised_pnl (t : Trade) (exit_price : Q) : Q :=
  let price_diff := exit_price - entry t in
  let price_diff := if is_sell (action t) then - price_diff else price_diff in
  let pnl_jpy := price_diff * inject_Z (Z.abs (units t)) * 100000 * (1 # 100) in
  pnl_jpy / exit_price.

(** A signal as the replay loop reads it. *)
Record Signal : Set := mkSignal {
  sig_action : Action;
  sig_entry : Q;
  sig_sl : Q;
  sig_tp : Q
}.

Record Config : Set := mkConfig {
  max_daily_loss : Q;
  risk_per_trade : Q;
  target_start_dt : option Z
}.

(** [config.get] defaults of lines 18 and 179. *)
Definition default_config : Config := mkConfig 500 (1 # 100) None.

(** The local variables of the loop. *)
Record Loop : Set := mkLoop {
  equity : Q;
  active_trade : option Trade;
  trades : list ClosedTrade;
  equity_curve : list (Z * Q);
  daily_pnl : Q;
  last_date : option Z
}.

Definition init (initial_equity : Q) : Loop :=
  mkLoop initial_equity None [] [] 0 None.

(** [PhantomNodeV10.is_trading_session_active] (strategy_v10.py, 64-86). *)
Definition is_trading_session_active (ts : Z) : bool :=
  let weekday := weekday_of ts in
  let hour := hour_of ts in
  let minute := minute_of ts in
  if (weekday =? 5)%Z then false
  else if (weekday =? 6)%Z then false
  else if (weekday =? 4)%Z then
    if (21 <? hour)%Z || ((hour =? 21)%Z && (0 <=? minute)%Z) then false
    else true
  else true.

(** [calc_units_usdjpy] (lines 185-192). *)
Definition calc_units_usdjpy (balance risk_pct entry_ sl_ : Q) : Z :=
  let sl_dist := Py.abs (entry_ - sl_) in
  if Py.leb sl_dist 0 then 0%Z
  else Py.int (balance * risk_pct / sl_dist).

Section Replay.

(** [strategy.generate_signal(df.iloc[:i+1])].  [PhantomNodeV10] keeps no
    state between calls and the indicators are precomputed, so the signal is
    a function of the bar index alone. *)
Variable generate_signal : nat -> Signal.
Variable config : Config.

(** The skip test of line 70. *)
Definition skipped (row : Row) : bool :=
  match target_start_dt config with
  | Some start => (timestamp row <? start)%Z
  | None => false
  end.

(** Lines 74-76. *)
Definition daily_reset (row : Row) (st : Loop) : Loop :=
  let curr_date := date_of (timestamp row) in
  match last_date st with
  | Some d =>
      if (d =? curr_date)%Z then st
      else mkLoop (equity st) (active_trade st) (trades st) (equity_curve st)
                  0 (Some curr_date)
  | None => mkLoop (equity st) (active_trade st) (trades st) (equity_curve st)
                   0 (Some curr_date)
  end.

(** Lines 79-164.  The trailing block of lines 87-104 is guarded by a
    ['signal'] key that the dictionary built at lines 198-210 never has, so
    it is never entered. *)
Definition manage_active_trade (row : Row) (st : Loop) : Loop :=
  match active_trade st with
  | None => st
  | Some t =>
      match resolve_exit t (low row) (high row) with
      | (t1, Some (exit_price, exit_reason)) =>
          if Py.truthy exit_price then
            let p := realised_pnl t1 exit_price in
            mkLoop (equity st + p) None
                   (trades st ++
                      [mkClosed t1 exit_price (timestamp row) exit_reason p])
                   (equity_curve st) (daily_pnl st + p) (last_date st)
          else
            mkLoop (equity st) (Some t1) (trades st) (equity_curve st)
                   (daily_pnl st) (last_date st)
      | (t1, None) =>
          mkLoop (equity st) (Some t1) (trades st) (equity_curve st)
                 (daily_pnl st) (last_date st)
      end
  end.

(** Line 167: no open trade and the daily circuit breaker not tripped. *)
Definition may_open (st : Loop) : bool :=
  match active_trade st with
  | Some _ => false
  | None => Py.ltb (- max_daily_loss config) (daily_pnl st)
  end.

(** Lines 167-210. *)
Definition check_new_signal (i : nat) (row : Row) (st : Loop) : Loop :=
  if may_open st then
    if is_trading_session_active (timestamp row) then
      let signal := generate_signal i in
      if is_entry (sig_action signal) then
        let risk_pct := risk_per_trade config in
        let sl_dist := Py.abs (sig_entry signal - sig_sl signal) in
        if Py.ltb 0 sl_dist then
          let units0 := calc_units_usdjpy (equity st) risk_pct
                          (sig_entry signal) (sig_sl signal) in
          let units1 := if is_sell (sig_action signal)
                        then (- units0)%Z else units0 in
          mkLoop (equity st)
                 (Some (mkTrade (S (length (trades st))) (sig_action signal)
                          (sig_entry signal) (timestamp row)
                          (sig_sl signal) (sig_tp signal) units1))
                 (trades st) (equity_curve st) (daily_pnl st) (last_date st)
        else st
      else st
    else st
  else st.

(** Line 212. *)
Definition record_equity (row : Row) (st : Loop) : Loop :=
  mkLoop (equity st) (active_trade st) (trades st)
         (equity_curve st ++ [(timestamp row, equity st)])
         (daily_pnl st) (last_date st).

(** One iteration of the [for] loop on bar [i]. *)
Definition step (i : nat) (row : Row) (st : Loop) : Loop :=
  if skipped row then st
  else
    record_equity row
      (check_new_signal i row
         (manage_active_trade row (daily_reset row st))).

(** The loop over the bars [i, i+1, ...]. *)
Fixpoint replay (i : nat) (rows : list Row) (st : Loop) : Loop :=
  match rows with
  | [] => st
  | row :: rest => replay (S i) rest (step i row st)
  end.

End Replay.

(** Lines 215-217: the share of closed trades with a positive PnL. *)
Definition win_rate (ledger : list ClosedTrade) : Q :=
  match ledger with
  | [] => 0
  | _ =>
      inject_Z (Z.of_nat (length (List.filter (fun t => Py.ltb 0 (pnl t)) ledger)))
      / inject_Z (Z.of_nat (length ledger))
  end.

(** Lines 221-226: the scan of the equity curve for the deepest relative
    drawdown, from the running [peak] and [max_dd].  [None] stands for the
    [ZeroDivisionError] of a peak of zero. *)
Fixpoint drawdown_scan (equities : list Q) (peak max_dd : Q) : option Q :=
  match equities with
  | [] => Some max_dd
  | e :: rest =>
      let peak := if Py.ltb peak e then e else peak in
      if Py.eqb peak 0 then None
      else
        let dd := (peak - e) / peak in
        drawdown_scan rest peak (if Py.ltb max_dd dd then dd else max_dd)
  end.

(** Lines 219-226. *)
Definition max_drawdown (initial_equity : Q) (curve : list (Z * Q)) : option Q :=
  drawdown_scan (map snd curve) initial_equity 0.

End BacktestCli.

(** ** backtester.py *)

Module Backtester.

Inductive Reason : Set := StopLoss | TakeProfit.

(** The [active_trade] dictionary of [VectorizedBacktester.run]. *)
Record Trade : Set := mkTrade {
  type_ : Action;
  entry_price : Q;
  entry_date : Z;
  sl : Q;
  tp : Q;
  size : Q
}.

(** An entry of [self.trades]. *)
Record Closed : Set := mkClosed {
  trade : Trade;
  exit_price : Q;
  exit_date : Z;
  pnl : Q;
  reason : Reason;
  balance_after : Q
}.

(** [_close_trade] (lines 71-81): new balance and ledger entry. *)
Definition close_trade (balance : Q) (t : Trade) (price : Q) (date : Z)
    (r : Reason) : Q * Closed :=
  let p := if is_buy (type_ t)
           then (price - entry_price t) * size t
           else (entry_price t - price) * size t in
  (balance + p, mkClosed t price date p r (balance + p)).

(** Lines 37-51: the exit test on the current row. *)
Definition manage_active_trade (balance : Q) (t : Trade) (curr_row : Row)
  : option (Q * Closed) :=
  if is_buy (type_ t) then
    if Py.leb (low curr_row) (sl t) then
      Some (close_trade balance t (sl t) (timestamp curr_row) StopLoss)
    else if Py.leb (tp t) (high curr_row) then
      Some (close_trade balance t (tp t) (timestamp curr_row) TakeProfit)
    else None
  else
    if Py.leb (sl t) (high curr_row) then
      Some (close_trade balance t (sl t) (timestamp curr_row) StopLoss)
    else if Py.leb (low curr_row) (tp t) then
      Some (close_trade balance t (tp t) (timestamp curr_row) TakeProfit)
    else None.

End Backtester.

(** ** strategy.py and strategy_v10.py

    [calculate_position_size] and [manage_position] are the same text in
    [UsdJpyQuantStrategy] (strategy.py) and [PhantomNodeV10]
    (strategy_v10.py); the 12 hour time stop is [self.time_stop_hours] in
    the first and a literal in the second. *)

Module Strategy.

(** Attributes set by [__init__]. *)
Definition risk_per_trade : Q := 1 # 100.
Definition min_position_size : Q := 1 # 100.
Definition max_position_size : Q := 8 # 10.
Definition time_stop_hours : Z := 12.
Definition cooldown_bars : Z := 2.
Definition min_hours_between_trades : Q := 1 # 2.
Definition sl_atr_mult : Q := 3.
Definition tp_rr : Q := 4.

(** [calculate_position_size] (strategy.py 55-69, strategy_v10.py 386-400). *)
Definition calculate_position_size
    (account_balance entry_price stop_loss signal_strength : Q) : Q :=
  let risk_amount := account_balance * risk_per_trade * signal_strength in
  let risk_per_pip := Py.abs (entry_price - stop_loss) * 100 in
  if Py.eqb risk_per_pip 0 then 1 # 100
  else
    let pip_value_per_lot := 10 in
    let position_size_lots := risk_amount / (risk_per_pip * pip_value_per_lot) in
    let position_size_lots :=
      Py.max min_position_size (Py.min position_size_lots max_position_size) in
    Py.round2 position_size_lots.

(** The position dictionary.  The keys ['breakeven'], ['partial_taken'] and
    ['partial2_taken'] are only ever tested for presence; ['atr'] is read
    with a default. *)
Record Position : Set := mkPosition {
  action : Action;
  entry : Q;
  size : Q;
  entry_time : Z;
  sl : Q;
  tp : Q;
  atr : option Q;
  breakeven : bool;
  partial_taken : bool;
  partial2_taken : bool
}.

Inductive Reason : Set :=
  TimeExit | StopLossHit | TakeProfitHit | PartialAt2R | SecondPartialAt3R.

(** The second value returned by [manage_position]. *)
Inductive Event : Set :=
| Close (price pnl : Q) (reason : Reason)
| PartialClose (price pnl size_closed : Q) (reason : Reason).

(** What a call leaves behind: the dictionary passed in, as mutated in
    place; the first returned value ([None] when the position is closed, the
    same dictionary otherwise); the second returned value. *)
Record Managed : Set := mkManaged {
  dict : Position;
  returned : option Position;
  event : option Event
}.

Definition set_sl (p : Position) (s : Q) : Position :=
  mkPosition (action p) (entry p) (size p) (entry_time p) s (tp p) (atr p)
             (breakeven p) (partial_taken p) (partial2_taken p).

Definition set_breakeven (p : Position) : Position :=
  mkPosition (action p) (entry p) (size p) (entry_time p) (sl p) (tp p)
             (atr p) true (partial_taken p) (partial2_taken p).

Definition take_partial (p : Position) (new_size : Q) : Position :=
  mkPosition (action p) (entry p) new_size (entry_time p) (sl p) (tp p)
             (atr p) (breakeven p) true (partial2_taken p).

Definition take_partial2 (p : Position) (new_size : Q) : Position :=
  mkPosition (action p) (entry p) new_size (entry_time p) (sl p) (tp p)
             (atr p) (breakeven p) (partial_taken p) true.

(** Signed distance travelled, in pips (lines 411-414). *)
Definition pips_of (p : Position) (current_price : Q) : Q :=
  if is_buy (action p) then (current_price - entry p) * 100
  else (entry p - current_price) * 100.

(** [risk_pips], read from the stop as it stands when the call starts. *)
Definition risk_pips_of (p : Position) : Q := Py.abs (entry p - sl p) * 100.

(** Lines 431-437: the move to breakeven. *)
Definition breakeven_fires (p : Position) (current_price : Q) : bool :=
  negb (breakeven p) && Py.leb (risk_pips_of p) (Py.abs (pips_of p current_price)).

Definition apply_breakeven (p : Position) (current_price : Q) : Position :=
  if breakeven_fires p current_price
  then set_sl (set_breakeven p) (entry p)
  else p.

(** Lines 439-459: one trailing tier, entered once [abs(pips)] reaches
    [tier] times [risk_pips]; the stop trails by [mult] ATR. *)
Definition trail (tier mult risk_pips pips atr_ current_price : Q)
    (p : Position) : Position :=
  if Py.leb (tier * risk_pips) (Py.abs pips) then
    if is_buy (action p) then
      let new_sl := current_price - atr_ * mult in
      if Py.ltb (sl p) new_sl then set_sl p new_sl else p
    else
      let new_sl := current_price + atr_ * mult in
      if Py.ltb new_sl (sl p) then set_sl p new_sl else p
  else p.

(** Lines 428-459: breakeven, then the 2R and the 3R trailing tiers. *)
Definition update_stop (p : Position) (current_price : Q) : Position :=
  let atr_ := match atr p with Some a => a | None => 1 # 1000 end in
  let pips := pips_of p current_price in
  let risk_pips := risk_pips_of p in
  let p1 := apply_breakeven p current_price in
  let p2 := trail 2 2 risk_pips pips atr_ current_price p1 in
  trail 3 (3 # 2) risk_pips pips atr_ current_price p2.

(** [manage_position] on a position that is not [None]. *)
Definition manage_position (p : Position) (current_price : Q)
    (current_time : Z) : Managed :=
  let entry_price := entry p in
  let position_size_lots := size p in
  let pips := pips_of p current_price in
  let current_pnl := pips * position_size_lots * 10 in
  if (time_stop_hours * 3600 <? current_time - entry_time p)%Z then
    mkManaged p None (Some (Close current_price current_pnl TimeExit))
  else
    let risk_pips := risk_pips_of p in
    let p3 := update_stop p current_price in
    if (is_buy (action p3) && Py.leb current_price (sl p3))
       || (is_sell (action p3) && Py.leb (sl p3) current_price) then
      let pips := if is_buy (action p3) then (sl p3 - entry_price) * 100
                  else (entry_price - sl p3) * 100 in
      mkManaged p3 None
        (Some (Close (sl p3) (pips * position_size_lots * 10) StopLossHit))
    else if (is_buy (action p3) && Py.leb (tp p3) current_price)
            || (is_sell (action p3) && Py.leb current_price (tp p3)) then
      let pips := if is_buy (action p3) then (tp p3 - entry_price) * 100
                  else (entry_price - tp p3) * 100 in
      mkManaged p3 None
        (Some (Close (tp p3) (pips * position_size_lots * 10) TakeProfitHit))
    else if negb (partial_taken p3)
            && Py.leb (2 * risk_pips) (Py.abs pips) then
      let p4 := take_partial p3 (position_size_lots * (75 # 100)) in
      mkManaged p4 (Some p4)
        (Some (PartialClose current_price (current_pnl * (25 # 100))
                 (position_size_lots * (25 # 100)) PartialAt2R))
    else if negb (partial2_taken p3) && partial_taken p3
            && Py.leb (3 * risk_pips) (Py.abs pips) then
      let p4 := take_partial2 p3 (size p3 * (667 # 1000)) in
      mkManaged p4 (Some p4)
        (Some (PartialClose current_price (current_pnl * (333 # 1000))
                 (size p3 * (333 # 1000)) SecondPartialAt3R))
    else mkManaged p3 (Some p3) None.

(** Successive updates of one dictionary, as the backtest of
    backtest_v10.py performs them: the loop stops calling once the position
    is returned as [None]. *)
Fixpoint manage_all (p : Position) (ticks : list (Q * Z)) : list Position :=
  match ticks with
  | [] => []
  | (price, time) :: rest =>
      let r := manage_position p price time in
      dict r :: match returned r with
                | Some p' => manage_all p' rest
                | None => []
                end
  end.

(** The same run, keeping what each call returned. *)
Fixpoint manage_trace (p : Position) (ticks : list (Q * Z)) : list Managed :=
  match ticks with
  | [] => []
  | (price, time) :: rest =>
      let r := manage_position p price time in
      r :: match returned r with
           | Some p' => manage_trace p' rest
           | None => []
           end
  end.

(** The reason of the event of a call, if any. *)
Definition reason_of (r : Managed) : option Reason :=
  match event r with
  | Some (Close _ _ reason) => Some reason
  | Some (PartialClose _ _ _ reason) => Some reason
  | None => None
  end.

(** A position as the backtest opens it from a signal (backtest_v10.py
    80-88): the stop lies [atr * mult] away from the entry, below it for a
    long and above it for a short, and no flag key is present. *)
Definition open_position (a : Action) (entry_ atr_ mult rr size_ : Q)
    (time : Z) : Position :=
  let dist := atr_ * mult in
  if is_buy a then
    mkPosition a entry_ size_ time (entry_ - dist) (entry_ + dist * rr)
               (Some atr_) false false false
  else
    mkPosition a entry_ size_ time (entry_ + dist) (entry_ - dist * rr)
               (Some atr_) false false false.

(** *** [UsdJpyQuantStrategy.generate_signal] (strategy.py 119-303) *)

(** The cooldown memory of the instance. *)
Record Memory : Set := mkMemory {
  last_signal_idx : Z;
  last_signal_time : option Z
}.

Definition initial_memory : Memory := mkMemory (-1) None.

(** The last row of the frame once the indicators are computed. *)
Record Current : Set := mkCurrent {
  c_close : Q; c_atr : Q; c_atr_ma : Q;
  ema_9 : Q; ema_21 : Q; ema_50 : Q; ema_200 : Q;
  adx : Q; volume_ratio : Q; rsi : Q;
  stoch_k : Q; stoch_d : Q; macd : Q; macd_signal : Q;
  bb_lower : Q; bb_upper : Q
}.

(** What the call reads from the frame: its length, the time of its last
    row (seconds) and that row. *)
Record Frame : Set := mkFrame {
  len_df : Z;
  current_time : Z;
  current : Current
}.

Inductive Kind : Set := HighConfidence | Pullback | MediumConfidence.

Record Candidate : Set := mkCandidate {
  cand_action : Action;
  cand_entry : Q;
  cand_sl : Q;
  cand_tp : Q;
  strength : Q;
  kind : Kind
}.

Inductive HoldReason : Set :=
  InsufficientData | OutsideSession | CooldownPeriod | SizeTooSmall | NoSetup.

Inductive Signal : Set :=
| Hold (reason : HoldReason)
| Emit (a : Action) (entry_ sl_ tp_ size_ : Q) (k : Kind).

Definition action_of (s : Signal) : Action :=
  match s with
  | Hold _ => HOLD
  | Emit a _ _ _ _ _ => a
  end.

(** [is_trading_session_active] (strategy.py 41-53). *)
Definition is_trading_session_active (time : Z) : bool :=
  let hour := ((time / 3600) mod 24)%Z in
  let london := (7 <=? hour)%Z && (hour <? 16)%Z in
  let ny := (13 <=? hour)%Z && (hour <? 22)%Z in
  let tokyo := (0 <=? hour)%Z && (hour <? 9)%Z in
  london || ny || tokyo.

(** [signals.sort(key=strength, reverse=True)]: a stable sort, strongest
    first. *)
Fixpoint insert_by_strength (c : Candidate) (l : list Candidate)
  : list Candidate :=
  match l with
  | [] => [c]
  | d :: rest =>
      if Py.ltb (strength c) (strength d)
      then d :: insert_by_strength c rest
      else c :: l
  end.

Definition sort_by_strength (l : list Candidate) : list Candidate :=
  fold_right insert_by_strength [] l.

(** Lines 146-267: the candidate signals of the current row. *)
Definition candidates (c : Current) : list Candidate :=
  let uptrend := Py.ltb (ema_21 c) (ema_9 c) && Py.ltb (ema_50 c) (ema_21 c) in
  let downtrend := Py.ltb (ema_9 c) (ema_21 c) && Py.ltb (ema_21 c) (ema_50 c) in
  let major_uptrend := Py.ltb (ema_200 c) (c_close c) in
  let major_downtrend := Py.ltb (c_close c) (ema_200 c) in
  let trend_strength := Py.ltb 22 (adx c) in
  let volume_ok := Py.ltb (11 # 10) (volume_ratio c) in
  let rsi_bullish := Py.ltb 35 (rsi c) && Py.ltb (rsi c) 75 in
  let rsi_bearish := Py.ltb 25 (rsi c) && Py.ltb (rsi c) 65 in
  let stoch_bullish := Py.ltb (stoch_d c) (stoch_k c) && Py.ltb (stoch_k c) 80 in
  let stoch_bearish := Py.ltb (stoch_k c) (stoch_d c) && Py.ltb 20 (stoch_k c) in
  let macd_bullish := Py.ltb (macd_signal c) (macd c) in
  let macd_bearish := Py.ltb (macd c) (macd_signal c) in
  let good_volatility := Py.ltb (c_atr_ma c * (8 # 10)) (c_atr c) in
  let high_conf_bullish := uptrend && major_uptrend && trend_strength
      && volume_ok && rsi_bullish && stoch_bullish && good_volatility in
  let high_conf_bearish := downtrend && major_downtrend && trend_strength
      && volume_ok && rsi_bearish && stoch_bearish && good_volatility in
  let med_conf_bullish := uptrend && trend_strength && volume_ok
      && rsi_bullish && macd_bullish && good_volatility in
  let med_conf_bearish := downtrend && trend_strength && volume_ok
      && rsi_bearish && macd_bearish && good_volatility in
  let pullback_bullish := major_uptrend && Py.ltb (rsi c) 45
      && Py.ltb (stoch_k c) 35 && Py.ltb (bb_lower c) (c_close c)
      && volume_ok && good_volatility in
  let pullback_bearish := major_downtrend && Py.ltb 55 (rsi c)
      && Py.ltb 65 (stoch_k c) && Py.ltb (c_close c) (bb_upper c)
      && volume_ok && good_volatility in
  let buy dist s k :=
    mkCandidate BUY (c_close c) (c_close c - dist) (c_close c + dist * tp_rr) s k in
  let sell dist s k :=
    mkCandidate SELL (c_close c) (c_close c + dist) (c_close c - dist * tp_rr) s k in
  (if high_conf_bullish then [buy (c_atr c * sl_atr_mult) (16 # 10) HighConfidence]
   else if pullback_bullish then [buy (c_atr c * (5 # 2)) (13 # 10) Pullback]
   else if med_conf_bullish then [buy (c_atr c * sl_atr_mult) (14 # 10) MediumConfidence]
   else [])
  ++
  (if high_conf_bearish then [sell (c_atr c * sl_atr_mult) (16 # 10) HighConfidence]
   else if pullback_bearish then [sell (c_atr c * (5 # 2)) (13 # 10) Pullback]
   else if med_conf_bearish then [sell (c_atr c * sl_atr_mult) (14 # 10) MediumConfidence]
   else []).

(** [generate_signal]: the decision and the memory the call leaves. *)
Definition generate_signal (balance : Q) (df : Frame) (m : Memory)
  : Signal * Memory :=
  if (len_df df <? 100)%Z then (Hold InsufficientData, m)
  else if negb (is_trading_session_active (current_time df)) then
    (Hold OutsideSession, m)
  else
    let bar_cooldown_ok :=
      (cooldown_bars <=? len_df df - 1 - last_signal_idx m)%Z in
    let time_cooldown_ok :=
      match last_signal_time m with
      | Some t =>
          Py.leb min_hours_between_trades
                 (inject_Z (current_time df - t) / 3600)
      | None => true
      end in
    if negb (bar_cooldown_ok && time_cooldown_ok) then (Hold CooldownPeriod, m)
    else
      match sort_by_strength (candidates (current df)) with
      | signal :: _ =>
          let position_size :=
            calculate_position_size balance (cand_entry signal)
              (cand_sl signal) (strength signal) in
          if Py.ltb position_size min_position_size then (Hold SizeTooSmall, m)
          else
            (Emit (cand_action signal) (cand_entry signal) (cand_sl signal)
                  (cand_tp signal) position_size (kind signal),
             mkMemory (len_df df - 1) (Some (current_time df)))
      | [] => (Hold NoSetup, m)
      end.

End Strategy.

(** ** strategy_backup.py and strategy_backup_optimized.py *)

Module StrategyBackup.

(** The attributes read from [config] by [__init__]. *)
Record Params : Set := mkParams {
  cooldown_bars : Z;
  min_hours_between_trades : Q;
  risk_pct : Q;
  sl_atr_mult : Q;
  tp_rr : Q;
  aggressive_mode : bool;
  trailing_stop_enabled : bool;
  trailing_stop_start_rr : Q
}.

(** Defaults of strategy_backup.py. *)
Definition default_params : Params :=
  mkParams 48 12 (1 # 100) (21 # 10) 3 false true (22 # 10).

(** Defaults of strategy_backup_optimized.py. *)
Definition optimized_params : Params :=
  mkParams 16 4 (1 # 100) (21 # 10) (35 # 10) true true (18 # 10).

(** The cooldown memory of the instance. *)
Record Memory : Set := mkMemory {
  last_signal_idx : Z;
  last_signal_time : option Z
}.

Definition initial_memory : Memory := mkMemory (-1) None.

(** [calculate_position_size] of strategy_backup.py (76-91). *)
Definition calculate_position_size (risk_amount entry_ sl_ : Q) : Q :=
  if Py.eqb entry_ 0 || Py.eqb sl_ 0 then 0
  else
    let risk_pips := Py.abs (entry_ - sl_) * 100 in
    let pip_value := 88 # 100 in
    if Py.eqb risk_pips 0 then 0
    else
      let position_size := (risk_amount / risk_pips) / pip_value in
      Py.min position_size 1.

(** [calculate_position_size] of strategy_backup_optimized.py (79-88). *)
Definition calculate_position_size_optimized (risk_amount entry_ sl_ : Q) : Q :=
  if Py.eqb entry_ 0 || Py.eqb sl_ 0 then 0
  else
    let risk_pips := Py.abs (entry_ - sl_) * 100 in
    if Py.eqb risk_pips 0 then 0
    else
      let pip_value_usd := 1000 / entry_ in
      let position_size := risk_amount / (risk_pips * pip_value_usd) in
      Py.min position_size 1.

(** The keys of [position] that [calculate_trailing_stop] reads. *)
Record Position : Set := mkPosition {
  action : Action;
  sl : Q
}.

(** [calculate_trailing_stop] (strategy_backup.py 159-187,
    strategy_backup_optimized.py 151-166; the same text).  [None] stands for
    the [ZeroDivisionError] of the R-multiple when the stop sits on the
    entry price. *)
Definition calculate_trailing_stop (cfg : Params) (position : Position)
    (current_price current_atr entry_price : Q) : option Q :=
  if negb (trailing_stop_enabled cfg) then Some (sl position)
  else
    let denom := if is_buy (action position)
                 then entry_price - sl position
                 else sl position - entry_price in
    if Py.eqb denom 0 then None
    else
      let current_rr :=
        if is_buy (action position)
        then (current_price - entry_price) / denom
        else (entry_price - current_price) / denom in
      if Py.ltb current_rr (trailing_stop_start_rr cfg) then Some (sl position)
      else
        let trailing_distance := sl_atr_mult cfg * current_atr in
        if is_buy (action position) then
          Some (Py.max (current_price - trailing_distance) (sl position))
        else
          Some (Py.min (current_price + trailing_distance) (sl position)).

(** A caller that stores the returned stop back into the position; when the
    call raises, nothing is stored. *)
Definition trail_once (cfg : Params) (entry_price : Q) (position : Position)
    (tick : Q * Q) : Position :=
  match calculate_trailing_stop cfg position (fst tick) (snd tick) entry_price with
  | Some s => mkPosition (action position) s
  | None => position
  end.

(** The stops seen after each of a run of (price, ATR) ticks. *)
Fixpoint trail_all (cfg : Params) (entry_price : Q) (position : Position)
    (ticks : list (Q * Q)) : list Q :=
  match ticks with
  | [] => []
  | tick :: rest =>
      let p' := trail_once cfg entry_price position tick in
      sl p' :: trail_all cfg entry_price p' rest
  end.

(** The gates of [_generate_original_signal].  Each is a comparison between
    indicator columns of the frame; none reads or writes the instance. *)
Record Gates : Set := mkGates {
  h1_long_ok : bool; h1_short_ok : bool;
  adx_strength_ok : bool; adx_rising_ok : bool;
  atr_expansion_ok : bool; chop_ok : bool;
  cross_fresh_long : bool; cross_fresh_short : bool;
  pb_long : bool; pb_short : bool;
  mom_long : bool; mom_short : bool;
  bos_long : bool; bos_short : bool;
  (** [curr['adx14'] > 25], [curr['h1_rsi14'] > 60], [curr['h1_rsi14'] < 40]:
      read by the optimized variant only. *)
  adx_above_25 : bool; h1_rsi_above_60 : bool; h1_rsi_below_40 : bool
}.

(** What the call reads from the frame: its length, the ['time'] and the
    ['date'] of its last row (seconds), the ATR ratio, the gates, and the
    close and ATR of the last row. *)
Record Frame : Set := mkFrame {
  len_df : Z;
  time_ : Z;
  date_ : Z;
  atr_ratio : Q;
  gates : Gates;
  curr_close : Q;
  curr_atr14 : Q
}.

Inductive Diag : Set :=
  H1Filtr | ADXWait | VolGap | EMASetup | NoPB | LowMom | WaitBOS.

Inductive HoldReason : Set :=
| NeedBars
| OutsideTradingHours
| LowVolatility
| PositionSizeTooSmall
| Quant (debug_reasons : list Diag)
| FiltersNotMet.

Inductive Signal : Set :=
| Hold (reason : HoldReason)
| Emit (a : Action) (entry_ sl_ tp_ size_ : Q) (confluence_score : Z).

Definition action_of (s : Signal) : Action :=
  match s with
  | Hold _ => HOLD
  | Emit a _ _ _ _ _ => a
  end.

(** [is_good_trading_hour]. *)
Definition is_good_trading_hour (time : Z) : bool :=
  let hour := ((time / 3600) mod 24)%Z in
  let london_open := (8 <=? hour)%Z && (hour <? 16)%Z in
  let asian_session := (0 <=? hour)%Z && (hour <? 6)%Z in
  london_open || asian_session.

Definition count (b : bool) : Z := if b then 1%Z else 0%Z.

(** Lines 500-513 (and 278-284 of the optimized file): both cooldowns. *)
Definition can_trade (cfg : Params) (t current_time : Z) (m : Memory) : bool :=
  let bar_cooldown_ok := (cooldown_bars cfg <=? t - last_signal_idx m)%Z in
  let time_cooldown_ok :=
    match last_signal_time m with
    | Some last_time =>
        Py.leb (min_hours_between_trades cfg)
               (inject_Z (current_time - last_time) / 3600)
    | None => true
    end in
  bar_cooldown_ok && time_cooldown_ok.

(** Lines 602-609: the first unmet gate. *)
Definition diagnostics (g : Gates) : list Diag :=
  if negb (h1_long_ok g || h1_short_ok g) then [H1Filtr]
  else if negb (adx_strength_ok g && adx_rising_ok g) then [ADXWait]
  else if negb (atr_expansion_ok g) then [VolGap]
  else if negb (cross_fresh_long g || cross_fresh_short g) then [EMASetup]
  else if negb (pb_long g || pb_short g) then [NoPB]
  else if negb (mom_long g || mom_short g) then [LowMom]
  else if negb (bos_long g || bos_short g) then [WaitBOS]
  else [].

(** [_generate_original_signal] of strategy_backup.py (230-627): the
    decision and the memory the call leaves. *)
Definition generate_signal (cfg : Params) (df : Frame) (m : Memory)
  : Signal * Memory :=
  if (len_df df <? 400)%Z then (Hold NeedBars, m)
  else if negb (is_good_trading_hour (time_ df)) then
    (Hold OutsideTradingHours, m)
  else
    let hour := ((time_ df / 3600) mod 24)%Z in
    let vol_threshold :=
      if (13 <=? hour)%Z && (hour <=? 17)%Z then 9 # 10 else 8 # 10 in
    if Py.ltb (atr_ratio df) vol_threshold then (Hold LowVolatility, m)
    else
      let g := gates df in
      let t := (len_df df - 1)%Z in
      let long_filters_pass := h1_long_ok g && adx_strength_ok g
          && adx_rising_ok g && atr_expansion_ok g && chop_ok g in
      let short_filters_pass := h1_short_ok g && adx_strength_ok g
          && adx_rising_ok g && atr_expansion_ok g && chop_ok g in
      let raw_long_conf := (count (h1_long_ok g) + count (adx_strength_ok g)
          + count (adx_rising_ok g) + count (atr_expansion_ok g)
          + count (cross_fresh_long g) + count (pb_long g)
          + count (mom_long g) + count (bos_long g))%Z in
      let raw_short_conf := (count (h1_short_ok g) + count (adx_strength_ok g)
          + count (adx_rising_ok g) + count (atr_expansion_ok g)
          + count (cross_fresh_short g) + count (pb_short g)
          + count (mom_short g) + count (bos_short g))%Z in
      let turbo_long := aggressive_mode cfg && cross_fresh_long g
          && mom_long g && adx_strength_ok g && atr_expansion_ok g in
      let turbo_short := aggressive_mode cfg && cross_fresh_short g
          && mom_short g && adx_strength_ok g && atr_expansion_ok g in
      let current_time := date_ df in
      let ok := can_trade cfg t current_time m in
      if ok && long_filters_pass
         && ((cross_fresh_long g && pb_long g && mom_long g && bos_long g)
             || turbo_long) then
        let m' := mkMemory t (Some current_time) in
        let sl_dist := sl_atr_mult cfg * curr_atr14 df in
        let risk_amount := 10000 * risk_pct cfg in
        let position_size :=
          calculate_position_size risk_amount (curr_close df)
                                  (curr_close df - sl_dist) in
        if Py.leb position_size (1 # 100) then (Hold PositionSizeTooSmall, m')
        else
          (Emit BUY (curr_close df) (curr_close df - sl_dist)
                (curr_close df + tp_rr cfg * sl_dist) position_size
                raw_long_conf, m')
      else if ok && (short_filters_pass
                && ((cross_fresh_short g && pb_short g && mom_short g
                     && bos_short g) || turbo_short)) then
        let m' := mkMemory t (Some current_time) in
        let sl_dist := sl_atr_mult cfg * curr_atr14 df in
        let risk_amount := 10000 * risk_pct cfg in
        let position_size :=
          calculate_position_size risk_amount (curr_close df)
                                  (curr_close df + sl_dist) in
        if Py.leb position_size (1 # 100) then (Hold PositionSizeTooSmall, m')
        else
          (Emit SELL (curr_close df) (curr_close df + sl_dist)
                (curr_close df - tp_rr cfg * sl_dist) position_size
                raw_short_conf, m')
      else (Hold (Quant (diagnostics g)), m).

(** [_generate_original_signal] of strategy_backup_optimized.py (189-342).
    This variant reads the cooldown memory and never assigns it. *)
Definition generate_signal_optimized (cfg : Params) (df : Frame) (m : Memory)
  : Signal * Memory :=
  if (len_df df <? 400)%Z then (Hold NeedBars, m)
  else if negb (is_good_trading_hour (time_ df)) then
    (Hold OutsideTradingHours, m)
  else if Py.ltb (atr_ratio df) (7 # 10) then (Hold LowVolatility, m)
  else
    let g := gates df in
    let t := (len_df df - 1)%Z in
    let long_filters_pass := h1_long_ok g && adx_strength_ok g
        && adx_rising_ok g && atr_expansion_ok g && chop_ok g in
    let short_filters_pass := h1_short_ok g && adx_strength_ok g
        && adx_rising_ok g && atr_expansion_ok g && chop_ok g in
    let ok := can_trade cfg t (time_ df) m in
    let sl_dist := sl_atr_mult cfg * curr_atr14 df in
    let risk_amount := 10000 * risk_pct cfg in
    let go_long := ok && long_filters_pass
        && (cross_fresh_long g && pb_long g && mom_long g && bos_long g
            && adx_above_25 g && h1_rsi_above_60 g) in
    let go_short := ok && short_filters_pass
        && (cross_fresh_short g && pb_short g && mom_short g && bos_short g
            && adx_above_25 g && h1_rsi_below_40 g) in
    if go_long then
      let position_size :=
        calculate_position_size_optimized risk_amount (curr_close df)
                                          (curr_close df - sl_dist) in
      if Py.leb position_size (1 # 100) then (Hold PositionSizeTooSmall, m)
      else
        (Emit BUY (curr_close df) (curr_close df - sl_dist)
              (curr_close df + tp_rr cfg * sl_dist) position_size 9, m)
    else if go_short then
      let position_size :=
        calculate_position_size_optimized risk_amount (curr_close df)
                                          (curr_close df + sl_dist) in
      if Py.leb position_size (1 # 100) then (Hold PositionSizeTooSmall, m)
      else
        (Emit SELL (curr_close df) (curr_close df + sl_dist)
              (curr_close df - tp_rr cfg * sl_dist) position_size 9, m)
    else (Hold FiltersNotMet, m).

End StrategyBackup.

(** ** [calculate_indicators] (strategy_backup_optimized.py 107-147)

    The guarded formulas: RSI, +DI / -DI and the choppiness index.  Here the
    special values of a float matter, so a value is either a finite rational
    or one of the three non-finite floats.  The sign of a zero is not
    tracked: every zero is [+0.0]. *)

Module Indicators.

Inductive fval : Set := Fin (q : Q) | PInf | NInf | NaN.

Definition is_finite (v : fval) : bool :=
  match v with Fin _ => true | _ => false end.

Definition fneg (v : fval) : fval :=
  match v with
  | Fin q => Fin (- q)
  | PInf => NInf
  | NInf => PInf
  | NaN => NaN
  end.

Definition inf_of_sign (positive : bool) : fval :=
  if positive then PInf else NInf.

Definition fadd (a b : fval) : fval :=
  match a, b with
  | NaN, _ | _, NaN => NaN
  | Fin x, Fin y => Fin (x + y)
  | PInf, NInf | NInf, PInf => NaN
  | PInf, _ | _, PInf => PInf
  | NInf, _ | _, NInf => NInf
  end.

Definition fsub (a b : fval) : fval := fadd a (fneg b).

(** Sign of a non-NaN value: [Some true] positive, [Some false] negative,
    [None] zero. *)
Definition sign (v : fval) : option bool :=
  match v with
  | Fin q => if Py.ltb 0 q then Some true
             else if Py.ltb q 0 then Some false else None
  | PInf => Some true
  | NInf => Some false
  | NaN => None
  end.

Definition fmul (a b : fval) : fval :=
  match a, b with
  | NaN, _ | _, NaN => NaN
  | Fin x, Fin y => Fin (x * y)
  | _, _ =>
      match sign a, sign b with
      | Some s, Some s' => inf_of_sign (Bool.eqb s s')
      | _, _ => NaN
      end
  end.

Definition fdiv (a b : fval) : fval :=
  match a, b with
  | NaN, _ | _, NaN => NaN
  | Fin x, Fin y =>
      if Py.eqb y 0 then
        match sign a with
        | Some s => inf_of_sign s
        | None => NaN
        end
      else Fin (x / y)
  | Fin _, _ => Fin 0
  | _, Fin y =>
      match sign a with
      | Some s => inf_of_sign (if Py.ltb y 0 then negb s else s)
      | None => NaN
      end
  | _, _ => NaN
  end.

(** The guard constant [1e-10]. *)
Definition eps : Q := 1 # 10000000000.

Definition chop_len : nat := 14.
Definition adx_len : nat := 14.

Section Log.

(** The decimal logarithm of a positive number, as the math library
    returns it. *)
Variable log10 : Q -> Q.

(** [np.log10]: minus infinity at zero, NaN below. *)
Definition np_log10 (v : fval) : fval :=
  match v with
  | Fin q => if Py.ltb 0 q then Fin (log10 q)
             else if Py.eqb q 0 then NInf else NaN
  | PInf => PInf
  | NInf | NaN => NaN
  end.

(** [series.shift()]. *)
Definition shift (xs : list Q) : list (option Q) :=
  match xs with
  | [] => []
  | _ => None :: map Some (removelast xs)
  end.

(** [series.diff()]. *)
Definition diff (xs : list Q) : list (option Q) :=
  map (fun p => match snd p with
                | Some prev => Some (fst p - prev)
                | None => None
                end)
      (combine xs (shift xs)).

Definition sum (xs : list Q) : Q := fold_right Qplus 0 xs.

Definition maximum (xs : list Q) : Q :=
  match xs with
  | [] => 0
  | x :: rest => fold_left Py.max rest x
  end.

Definition minimum (xs : list Q) : Q :=
  match xs with
  | [] => 0
  | x :: rest => fold_left Py.min rest x
  end.

(** The window of [w] values ending at index [t], once [w] values exist. *)
Definition window (w : nat) (xs : list Q) (t : nat) : option (list Q) :=
  if (w <=? S t)%nat && (S t <=? length xs)%nat
  then Some (firstn w (skipn (S t - w) xs))
  else None.

(** [series.rolling(window=w).agg()] read at index [t]: NaN ([None]) until
    the window is full. *)
Definition rolling (w : nat) (agg : list Q -> Q) (xs : list Q) (t : nat)
  : option Q :=
  match window w xs t with
  | Some win => Some (agg win)
  | None => None
  end.

Definition mean (w : nat) (xs : list Q) : Q := sum xs / inject_Z (Z.of_nat w).

(** [delta.where(delta > 0, 0)] and [-delta.where(delta < 0, 0)]: the NaN of
    the first row fails the test and is replaced by 0. *)
Definition gains (closes : list Q) : list Q :=
  map (fun d => match d with
                | Some x => if Py.ltb 0 x then x else 0
                | None => 0
                end) (diff closes).

Definition losses (closes : list Q) : list Q :=
  map (fun d => match d with
                | Some x => - (if Py.ltb x 0 then x else 0)
                | None => - 0
                end) (diff closes).

Definition of_opt (x : option Q) : fval :=
  match x with Some q => Fin q | None => NaN end.

(** Lines 108-119: RSI over a window of [w] bars ([w] is 14 for ['rsi'] and
    [h1_rsi_len] for ['h1_rsi14']). *)
Definition rsi (w : nat) (rows : list Row) (t : nat) : fval :=
  let closes := map close rows in
  let gain := of_opt (rolling w (mean w) (gains closes) t) in
  let loss := of_opt (rolling w (mean w) (losses closes) t) in
  let rs := fdiv gain (fadd loss (Fin eps)) in
  fsub (Fin 100) (fdiv (Fin 100) (fadd (Fin 1) rs)).

(** Lines 122-125: the true range.  On the first row the two terms built
    from the shifted close are NaN and the row-wise [max] skips them. *)
Definition true_range (rows : list Row) : list Q :=
  map (fun p =>
         let r := fst p in
         let high_low := high r - low r in
         match snd p with
         | Some prev_close =>
             Py.max (Py.max high_low (Py.abs (high r - prev_close)))
                    (Py.abs (low r - prev_close))
         | None => high_low
         end)
      (combine rows (shift (map close rows))).

(** Lines 129-130: directional movement; the NaN comparisons of the first
    row are false. *)
Definition plus_dm (rows : list Row) : list Q :=
  map (fun p =>
         let r := fst (fst p) in
         match snd (fst p), snd p with
         | Some prev_high, Some prev_low =>
             if Py.ltb (prev_low - low r) (high r - prev_high)
                && Py.ltb 0 (high r - prev_high)
             then high r - prev_high else 0
         | _, _ => 0
         end)
      (combine (combine rows (shift (map high rows))) (shift (map low rows))).

Definition minus_dm (rows : list Row) : list Q :=
  map (fun p =>
         let r := fst (fst p) in
         match snd (fst p), snd p with
         | Some prev_high, Some prev_low =>
             if Py.ltb (high r - prev_high) (prev_low - low r)
                && Py.ltb 0 (prev_low - low r)
             then prev_low - low r else 0
         | _, _ => 0
         end)
      (combine (combine rows (shift (map high rows))) (shift (map low rows))).

(** Lines 132-134: [100 * (dm_sum / (tr_sum + 1e-10))]. *)
Definition di (dm : list Row -> list Q) (rows : list Row) (t : nat) : fval :=
  let tr_sum := of_opt (rolling adx_len sum (true_range rows) t) in
  let dm_sum := of_opt (rolling adx_len sum (dm rows) t) in
  fmul (Fin 100) (fdiv dm_sum (fadd tr_sum (Fin eps))).

Definition plus_di := di plus_dm.
Definition minus_di := di minus_dm.

(** Lines 142-147:
    [100 * np.log10(chop_sum_atr / (chop_range + 1e-10)) / np.log10(chop_len)]. *)
Definition chop14 (rows : list Row) (t : nat) : fval :=
  let chop_sum_atr := of_opt (rolling chop_len sum (true_range rows) t) in
  let chop_max_hi := of_opt (rolling chop_len maximum (map high rows) t) in
  let chop_min_lo := of_opt (rolling chop_len minimum (map low rows) t) in
  let chop_range := fsub chop_max_hi chop_min_lo in
  fdiv (fmul (Fin 100)
             (np_log10 (fdiv chop_sum_atr (fadd chop_range (Fin eps)))))
       (np_log10 (Fin (inject_Z (Z.of_nat chop_len)))).

End Log.

Definition atr_len : nat := 14.

(** Line 126: [df['tr'].rolling(window=self.atr_len).mean()] read at index
    [t]. *)
Definition atr14 (rows : list Row) (t : nat) : fval :=
  of_opt (rolling atr_len (mean atr_len) (true_range rows) t).

(** [np.abs]. *)
Definition fabs (v : fval) : fval :=
  match v with
  | Fin q => Fin (Py.abs q)
  | PInf | NInf => PInf
  | NaN => NaN
  end.

(** Line 135:
    [(np.abs(plus_di - minus_di) / (plus_di + minus_di + 1e-10)) * 100]. *)
Definition dx (rows : list Row) (t : nat) : fval :=
  fmul (fdiv (fabs (fsub (plus_di rows t) (minus_di rows t)))
             (fadd (fadd (plus_di rows t) (minus_di rows t)) (Fin eps)))
       (Fin 100).

End Indicators.

(** ** main.py: [AdaptiveRiskManager] *)

Module RiskManager.

(** An entry of [recent_trades]. *)
Record TradeResult : Set := mkTradeResult {
  result : string;
  pnl : Q;
  stamp : Q;
  account_balance : Q
}.

(** The attributes of the instance.  Times are seconds; the two
    dictionaries are keyed by direction. *)
Record State : Type := mkState {
  recent_trades : list TradeResult;
  consecutive_losses : nat;
  consecutive_wins : nat;
  daily_pnl : Q;
  max_drawdown : Q;
  account_peak : Q;
  base_cooldown : Q;
  max_cooldown : Q;
  loss_threshold : Q;
  consecutive_loss_limit : nat;
  last_trade_time : gmap string Q;
  adaptive_cooldowns : gmap string Q
}.

(** [__init__]. *)
Definition init : State :=
  mkState [] 0 0 0 0 0 5 60 (2 # 100) 3 ∅ ∅.

(** The state a call leaves and the value it returns; [None] when the call
    raised [ZeroDivisionError] part-way. *)
Record Call (A : Type) : Type := mkCall {
  after : State;
  value : option A
}.

Arguments mkCall {A} _ _.
Arguments after {A} _.
Arguments value {A} _.

Definition is_loss (t : TradeResult) : bool := String.eqb (result t) "LOSS".
Definition is_win (t : TradeResult) : bool := String.eqb (result t) "WIN".

(** [xs[-n:]] for a positive [n]. *)
Definition last_n {A : Type} (n : nat) (xs : list A) : list A :=
  skipn (length xs - n) xs.

(** [update_performance] (lines 346-372), called at time [now]. *)
Definition update_performance (s : State) (trade_result : string)
    (pnl_ balance now : Q) : Call unit :=
  let appended :=
    recent_trades s ++ [mkTradeResult trade_result pnl_ now balance] in
  let recent :=
    if (20 <? length appended)%nat then last_n 20 appended else appended in
  let losses :=
    if String.eqb trade_result "LOSS" then S (consecutive_losses s)
    else if String.eqb trade_result "WIN" then 0%nat
    else consecutive_losses s in
  let wins :=
    if String.eqb trade_result "LOSS" then 0%nat
    else if String.eqb trade_result "WIN" then S (consecutive_wins s)
    else consecutive_wins s in
  let peak :=
    if Py.ltb (account_peak s) balance then balance else account_peak s in
  let s1 :=
    mkState recent losses wins (daily_pnl s + pnl_) (max_drawdown s) peak
            (base_cooldown s) (max_cooldown s) (loss_threshold s)
            (consecutive_loss_limit s) (last_trade_time s)
            (adaptive_cooldowns s) in
  if Py.eqb peak 0 then mkCall s1 None
  else
    let current_drawdown := (peak - balance) / peak in
    mkCall
      (mkState recent losses wins (daily_pnl s + pnl_)
               (Py.max (max_drawdown s) current_drawdown) peak
               (base_cooldown s) (max_cooldown s) (loss_threshold s)
               (consecutive_loss_limit s) (last_trade_time s)
               (adaptive_cooldowns s))
      (Some tt).

(** [calculate_win_rate] (lines 374-383). *)
Definition calculate_win_rate (s : State) (window : nat) : Q :=
  let window :=
    if (length (recent_trades s) <? window)%nat
    then length (recent_trades s) else window in
  if (window =? 0)%nat then 1 # 2
  else
    let recent := last_n window (recent_trades s) in
    let wins := length (filter is_win recent) in
    inject_Z (Z.of_nat wins) / inject_Z (Z.of_nat window).

Definition total (xs : list Q) : Q := fold_right Qplus 0 xs.

(** [calculate_avg_win_loss_ratio] (lines 385-394). *)
Definition calculate_avg_win_loss_ratio (s : State) : Q :=
  let wins := map pnl (filter is_win (recent_trades s)) in
  let losses :=
    map (fun t => Py.abs (pnl t)) (filter is_loss (recent_trades s)) in
  match wins, losses with
  | [], _ | _, [] => 1
  | _, _ =>
      let avg_win := total wins / inject_Z (Z.of_nat (length wins)) in
      let avg_loss := total losses / inject_Z (Z.of_nat (length losses)) in
      if Py.ltb 0 avg_loss then avg_win / avg_loss else 1
  end.

(** Lines 400-431: the factors that lengthen the cooldown, in the order
    they are appended. *)
Definition factors (s : State) : list Q :=
  (if (3 <=? consecutive_losses s)%nat then [2]
   else if (2 <=? consecutive_losses s)%nat then [3 # 2] else [])
  ++ (if Py.ltb (5 # 100) (max_drawdown s) then [3 # 2]
      else if Py.ltb (3 # 100) (max_drawdown s) then [13 # 10] else [])
  ++ (let win_rate := calculate_win_rate s 10 in
      if Py.ltb win_rate (3 # 10) then [14 # 10]
      else if Py.ltb win_rate (4 # 10) then [12 # 10] else [])
  ++ (if Py.ltb (calculate_avg_win_loss_ratio s) 1 then [13 # 10] else [])
  ++ (if (5 <=? length (recent_trades s))%nat then
        let recent := last_n 5 (recent_trades s) in
        if (4 <=? length (filter is_loss recent))%nat then [2] else []
      else []).

(** [max(factors) if factors else 1.0]. *)
Definition multiplier (fs : list Q) : Q :=
  match fs with
  | [] => 1
  | f :: rest => fold_left Py.max rest f
  end.

(** Lines 433-441: the new cooldown from the current one. *)
Definition adapted_cooldown (s : State) (current_cooldown : Q) : Q :=
  let new_cooldown :=
    Py.min (current_cooldown * multiplier (factors s)) (max_cooldown s) in
  if (3 <=? consecutive_wins s)%nat then
    Py.max (new_cooldown * (7 # 10)) (base_cooldown s)
  else if Py.ltb (6 # 10) (calculate_win_rate s 10)
          && Py.ltb (15 # 10) (calculate_avg_win_loss_ratio s) then
    Py.max (new_cooldown * (8 # 10)) (base_cooldown s)
  else new_cooldown.

Definition set_cooldown (s : State) (direction : string) (c : Q) : State :=
  mkState (recent_trades s) (consecutive_losses s) (consecutive_wins s)
          (daily_pnl s) (max_drawdown s) (account_peak s)
          (base_cooldown s) (max_cooldown s) (loss_threshold s)
          (consecutive_loss_limit s) (last_trade_time s)
          (<[direction := c]> (adaptive_cooldowns s)).

(** [should_adapt_cooldown] (lines 396-444): the state with the new entry
    of [adaptive_cooldowns], and the value returned. *)
Definition should_adapt_cooldown (s : State) (direction : string)
  : State * Q :=
  let current_cooldown :=
    default (base_cooldown s) (adaptive_cooldowns s !! direction) in
  let new_cooldown := adapted_cooldown s current_cooldown in
  (set_cooldown s direction new_cooldown, new_cooldown).

Inductive LockReason : Set :=
| Emergency (current_drawdown : Q)
| Protection (losses : nat)
| AdaptiveCooldown (remaining win_rate : Q)
| NoReason.

(** Lines 449-454: the emergency check; [Some d] when it locks. *)
Definition emergency (s : State) (balance : option Q) : option Q :=
  match balance with
  | Some b =>
      if Py.truthy b then
        if Py.ltb 0 (account_peak s) then
          let current_drawdown := (account_peak s - b) / account_peak s in
          if Py.ltb (loss_threshold s) current_drawdown
          then Some current_drawdown else None
        else None
      else None
  | None => None
  end.

(** Lines 456-470: what follows the emergency check. *)
Definition streak_then_cooldown (s : State) (direction : string) (now : Q)
  : State * (bool * LockReason) :=
  if (consecutive_loss_limit s <=? consecutive_losses s)%nat then
    (s, (true, Protection (consecutive_losses s)))
  else
    match last_trade_time s !! direction with
    | Some last_trade =>
        let (s', cooldown_minutes) := should_adapt_cooldown s direction in
        let time_since_last := (now - last_trade) / 60 in
        if Py.ltb time_since_last cooldown_minutes then
          (s', (true, AdaptiveCooldown (cooldown_minutes - time_since_last)
                        (calculate_win_rate s' 10)))
        else (s', (false, NoReason))
    | None => (s, (false, NoReason))
    end.

(** [is_locked_out] (lines 446-470), called at time [now]. *)
Definition is_locked_out (s : State) (direction : string)
    (balance : option Q) (now : Q) : State * (bool * LockReason) :=
  match emergency s balance with
  | Some d => (s, (true, Emergency d))
  | None => streak_then_cooldown s direction now
  end.

(** [register_trade] (lines 472-474). *)
Definition register_trade (s : State) (direction : string) (now : Q) : State :=
  mkState (recent_trades s) (consecutive_losses s) (consecutive_wins s)
          (daily_pnl s) (max_drawdown s) (account_peak s)
          (base_cooldown s) (max_cooldown s) (loss_threshold s)
          (consecutive_loss_limit s)
          (<[direction := now]> (last_trade_time s))
          (adaptive_cooldowns s).

(** The calls a client can make on the instance. *)
Inductive Op : Type :=
| UpdatePerformance (trade_result : string) (pnl_ balance now : Q)
| ShouldAdaptCooldown (direction : string)
| IsLockedOut (direction : string) (balance : option Q) (now : Q)
| RegisterTrade (direction : string) (now : Q).

Definition exec (s : State) (op : Op) : State :=
  match op with
  | UpdatePerformance r p b now => after (update_performance s r p b now)
  | ShouldAdaptCooldown d => fst (should_adapt_cooldown s d)
  | IsLockedOut d b now => fst (is_locked_out s d b now)
  | RegisterTrade d now => register_trade s d now
  end.

(** The state after a sequence of calls on a fresh instance. *)
Definition run (ops : list Op) : State := fold_left exec ops init.

End RiskManager.


(** ** main.py: live position sizing and the streak tracker *)

Module Main.

(** [round(x)] of a float: the nearest integer, ties to the even one. *)
Definition round (x : Q) : Z :=
  let f := Qfloor x in
  let r := x - inject_Z f in
  if Py.ltb r (1 # 2) then f
  else if Py.ltb (1 # 2) r then (f + 1)%Z
  else if Z.even f then f else (f + 1)%Z.

(** [calc_units_usdjpy] (lines 126-141). *)
Definition calc_units_usdjpy (balance risk_pct entry_ sl_ : Q)
    (action : string) : Z :=
  let sl_dist := Py.abs (entry_ - sl_) in
  if Py.leb sl_dist 0 then 0%Z
  else
    let risk_amount := balance * risk_pct in
    let raw := risk_amount * entry_ / sl_dist in
    let max_units_by_balance := Z.min 100000 (Py.int (balance * 20)) in
    let max_units_by_risk := Z.min 50000 (Py.int (risk_amount * 1000)) in
    let units :=
      Z.max 1 (Z.min (Z.min max_units_by_balance max_units_by_risk)
                     (round raw)) in
    if String.eqb action "BUY" then units else (- units)%Z.

(** A transaction of the broker's answer, as [update_streak] reads it: its
    ['type'], [float(tx.get('pl', 0))], the date of its ['time'], and the
    clock reading when the loop reaches it. *)
Record Tx : Set := mkTx {
  tx_type : string;
  tx_pl : Q;
  tx_date : Z;
  seen_at : Q
}.

(** The attributes of [PerformanceTracker] that its methods assign.  The
    linked risk manager is an object shared with the rest of the program:
    it is passed and returned beside the tracker, [None] when the tracker
    was built without one. *)
Record Tracker : Set := mkTracker {
  consecutive_losses : nat;
  daily_losses : nat;
  risk_reduction_active : bool
}.

(** [__init__]. *)
Definition init : Tracker := mkTracker 0 0 false.

(** The loop of [update_streak] (lines 283-300) from the counts reached so
    far.  The second component is [None] when [update_performance] raised,
    which leaves the loop for the handler of line 310. *)
Fixpoint scan (rm : option RiskManager.State) (current_balance : Q)
    (today : Z) (txs : list Tx) (losses daily_loss_count : nat)
  : option RiskManager.State * option (nat * nat) :=
  match txs with
  | [] => (rm, Some (losses, daily_loss_count))
  | tx :: rest =>
      if String.eqb (tx_type tx) "ORDER_FILL" then
        let pl := tx_pl tx in
        let fed : option RiskManager.State * option unit :=
          match rm with
          | Some s =>
              if negb (Py.eqb pl 0) then
                let trade_result := if Py.ltb pl 0 then "LOSS" else "WIN" in
                let c := RiskManager.update_performance
                           s trade_result pl current_balance (seen_at tx) in
                (Some (RiskManager.after c), RiskManager.value c)
              else (rm, Some tt)
          | None => (rm, Some tt)
          end in
        match snd fed with
        | None => (fst fed, None)
        | Some _ =>
            if Py.ltb pl 0 then
              scan (fst fed) current_balance today rest (S losses)
                   (if (tx_date tx =? today)%Z then S daily_loss_count
                    else daily_loss_count)
            else if Py.ltb 0 pl then
              (fst fed, Some (losses, daily_loss_count))
            else scan (fst fed) current_balance today rest losses
                      daily_loss_count
        end
      else scan rm current_balance today rest losses daily_loss_count
  end.

(** [update_streak] (lines 267-311) on the broker's answers: the status
    code and the transactions of the first request, and the account summary
    ([None] when that request failed). *)
Definition update_streak (t : Tracker) (rm : option RiskManager.State)
    (status_code : Z) (txs : list Tx) (account_balance : option Q) (today : Z)
  : Tracker * option RiskManager.State :=
  if negb (status_code =? 200)%Z then (t, rm)
  else
    let current_balance := default 0 account_balance in
    match scan rm current_balance today txs 0 0 with
    | (rm', Some (losses, daily_loss_count)) =>
        (mkTracker losses daily_loss_count (2 <=? losses)%nat, rm')
    | (rm', None) => (t, rm')
    end.

(** [get_risk_multiplier] (lines 313-317). *)
Definition get_risk_multiplier (t : Tracker) : Q :=
  if (3 <=? consecutive_losses t)%nat then 25 # 100
  else if (2 <=? consecutive_losses t)%nat then 5 # 10
  else if risk_reduction_active t then 75 # 100
  else 1.

(** [get_threshold_adj] (lines 319-322). *)
Definition get_threshold_adj (t : Tracker) : Q :=
  if (2 <=? consecutive_losses t)%nat then 1
  else if risk_reduction_active t then 5 # 10
  else 0.

End Main.

(** ** [check_time_stop] (strategy_backup.py, strategy_backup_optimized.py)

    The function divides by the stop distance of the position.  What a
    zero divisor does depends on the operands: Python floats raise
    [ZeroDivisionError]; numpy.float64 scalars, which is what the prices of
    a signal read from the frame are (strategy_backup.py 534-536), give an
    infinity or NaN and the comparison goes on. *)

Module TimeStop.

Inductive Operands : Set := PythonFloat | NumpyFloat64.

(** The time-stop attributes read from [config] by [__init__]. *)
Record Config : Set := mkConfig {
  time_stop_enabled : bool;
  time_stop_hours : Q;
  time_stop_min_rr : Q
}.

(** Defaults of both files. *)
Definition default_config : Config := mkConfig true 8 (15 # 10).

(** The quotient of two finite prices: [None] when it raises. *)
Definition divide (kind : Operands) (x y : Q) : option Indicators.fval :=
  match kind with
  | PythonFloat =>
      if Py.eqb y 0 then None else Some (Indicators.Fin (x / y))
  | NumpyFloat64 =>
      Some (Indicators.fdiv (Indicators.Fin x) (Indicators.Fin y))
  end.

(** [current_rr >= self.time_stop_min_rr]: false on NaN. *)
Definition reaches (min_rr : Q) (current_rr : Indicators.fval) : bool :=
  match current_rr with
  | Indicators.Fin q => Py.leb min_rr q
  | Indicators.PInf => true
  | Indicators.NInf | Indicators.NaN => false
  end.

(** [check_time_stop] (strategy_backup.py 189-224,
    strategy_backup_optimized.py 168-182).  [current_price] is the
    ['current_price'] key of the position, [None] when the key is absent;
    times are seconds.  The result [None] stands for the
    [ZeroDivisionError]. *)
Definition check_time_stop (kind : Operands) (ts : Config)
    (position : StrategyBackup.Position) (current_price : option Q)
    (entry_time current_time : Z) (entry_price : Q) : option bool :=
  if negb (time_stop_enabled ts) then Some false
  else
    let time_elapsed := inject_Z (current_time - entry_time) / 3600 in
    if Py.leb (time_stop_hours ts) time_elapsed then
      let current_rr :=
        if is_buy (StrategyBackup.action position) then
          let current_price := default entry_price current_price in
          divide kind (current_price - entry_price)
                 (entry_price - StrategyBackup.sl position)
        else
          let current_price := default entry_price current_price in
          divide kind (entry_price - current_price)
                 (StrategyBackup.sl position - entry_price) in
      match current_rr with
      | None => None
      | Some current_rr =>
          if reaches (time_stop_min_rr ts) current_rr then Some true
          else Some false
      end
    else Some false.

End TimeStop.

(** ** Vocabulary of the properties, and sample inputs *)

(** The bar reaches both the stop and the target of a position. *)
Definition touches_both (a : Action) (stop target lo hi : Q) : Prop :=
  if is_buy a then lo <= stop /\ target <= hi
  else stop <= hi /\ lo <= target.

(** A long from 100 with its stop at 99 and its target at 102, and a bar
    that spans 98.5 to 102.5. *)
Definition sample_cli_long : BacktestCli.Trade :=
  BacktestCli.mkTrade 1 BUY 100 0 99 102 1000.

Definition sample_vec_long : Backtester.Trade :=
  Backtester.mkTrade BUY 100 0 99 102 10.

Definition wide_bar : Row := mkRow 900000 100 (1025 # 10) (985 # 10) 101.

(** A long of 0.1 lot from 100 with its stop at 99 and its target at 104,
    no flag set yet. *)
Definition sample_long : Strategy.Position :=
  Strategy.mkPosition BUY 100 (1 # 10) 0 99 104 (Some (33 # 100))
                      false false false.

(** [new] is at least as tight a stop as [old] for a position of action
    [a]: not lower for a long, not higher otherwise. *)
Definition tightened (a : Action) (old new : Q) : Prop :=
  if is_buy a then old <= new else new <= old.

(** The stops [stops], seen one after the other from [s], never loosen. *)
Fixpoint never_loosened (a : Action) (s : Q) (stops : list Q) : Prop :=
  match stops with
  | [] => True
  | s' :: rest => tightened a s s' /\ never_loosened a s' rest
  end.

(** The stop of a position sits on the protective side of its entry, unless
    the breakeven move has already been made.  This is how positions are
    opened ([Strategy.open_position]). *)
Definition protective (p : Strategy.Position) : Prop :=
  Strategy.breakeven p = true \/
  tightened (Strategy.action p) (Strategy.sl p) (Strategy.entry p).

(** Ticks for a long from 100: price and time for [manage_position], price
    and ATR for [calculate_trailing_stop]. *)
Definition sample_ticks : list (Q * Z) :=
  [(1005 # 10, 900%Z); (101, 1800%Z); (1025 # 10, 2700%Z); (102, 3600%Z)].

Definition sample_trail_ticks : list (Q * Q) :=
  [(101, 3 # 10); (103, 3 # 10); (1025 # 10, 5 # 10)].

Definition sample_backup_long : StrategyBackup.Position :=
  StrategyBackup.mkPosition BUY 99.

(** A configuration of strategy_backup.py that risks one basis point per
    trade, everything else at its default. *)
Definition small_risk_params : StrategyBackup.Params :=
  StrategyBackup.mkParams 48 12 (1 # 10000) (21 # 10) 3 false true (22 # 10).

(** A frame of 500 bars whose last bar, at 09:00, passes every long gate,
    with a close of 150 and an ATR of 0.6. *)
Definition all_long_gates : StrategyBackup.Gates :=
  StrategyBackup.mkGates true false true true true true
                         true false true false true false true false
                         true true false.

Definition qualifying_frame : StrategyBackup.Frame :=
  StrategyBackup.mkFrame 500 32400 32400 1 all_long_gates 150 (6 # 10).

(** The daily circuit breaker of the replay loop has tripped. *)
Definition tripped (config : BacktestCli.Config) (st : BacktestCli.Loop) : Prop :=
  BacktestCli.daily_pnl st <= - BacktestCli.max_daily_loss config.

(** A signal engine that always proposes a long from 150 with the stop at
    149 and the target at 153. *)
Definition always_long (i : nat) : BacktestCli.Signal :=
  BacktestCli.mkSignal BUY 150 149 153.

(** Monday 5 January 1970, one bar every 15 minutes from 00:00; the second
    bar trades down through 149.  Then three quiet bars of the same day and
    one of the next day. *)
Definition monday : Z := (4 * 86400000)%Z.

Definition quiet (ts : Z) : Row := mkRow ts 150 (1502 # 10) (1498 # 10) 150.

Definition tripping_bars : list Row :=
  [quiet monday; mkRow (monday + 900000) 150 (1501 # 10) (1485 # 10) 149].

Definition same_day_bars : list Row :=
  [quiet (monday + 1800000); quiet (monday + 2700000); quiet (monday + 3600000)].

Definition next_day_bar : Row := quiet (monday + 86400000).

(** While a trade is open the breaker has not tripped: trades are opened
    only with the daily PnL above the limit, and a day that starts with a
    trade open restarts from zero.  Under a limit that is not positive the
    gate of line 167 never opens, so the loop stays as it started. *)
Definition breaker_inv (config : BacktestCli.Config) (st : BacktestCli.Loop)
  : Prop :=
  (0 < BacktestCli.max_daily_loss config
   /\ (BacktestCli.active_trade st = None
       \/ - BacktestCli.max_daily_loss config < BacktestCli.daily_pnl st))
  \/ (BacktestCli.max_daily_loss config <= 0
      /\ BacktestCli.active_trade st = None
      /\ BacktestCli.daily_pnl st == 0).

(** Ingesting a run of losing trades: (pnl, balance, time) each. *)
Definition ingest_losses (s : RiskManager.State) (l : list (Q * Q * Q))
  : RiskManager.State :=
  fold_left
    (fun s x =>
       RiskManager.after
         (RiskManager.update_performance s "LOSS" (fst (fst x)) (snd (fst x))
                                         (snd x)))
    l s.

(** Three losses of 10 each on an account that stood at 1000. *)
Definition three_losses : list (Q * Q * Q) :=
  [(- (10), 1000, 60); (- (10), 1000, 120); (- (10), 1000, 180)].

(** The cooldown bounds of a state: the base is not negative nor above the
    maximum, and every stored cooldown lies between them. *)
Definition cooldowns_bounded (s : RiskManager.State) : Prop :=
  0 <= RiskManager.base_cooldown s
  /\ RiskManager.base_cooldown s <= RiskManager.max_cooldown s
  /\ map_Forall
       (fun (_ : string) (v : Q) =>
          RiskManager.base_cooldown s <= v /\ v <= RiskManager.max_cooldown s)
       (RiskManager.adaptive_cooldowns s).

(** One loss on an account that stood at 1000. *)
Definition one_loss : list (Q * Q * Q) := [(- (10), 1000, 60)].

(** Fourteen bars with every price at 150. *)
Definition flat_bars : list Row :=
  map (fun k => mkRow (monday + Z.of_nat k * 900000) 150 150 150 150)
      (seq 0 14).

(** The qualifying frame with an ATR of zero: the candidate stop is on the
    entry price. *)
Definition zero_atr_frame : StrategyBackup.Frame :=
  StrategyBackup.mkFrame 500 32400 32400 1 all_long_gates 150 0.

(** ** Vocabulary of the further properties *)

(** What the additions [equity += pnl] of the replay loop give from the
    equity [e0], made one after the other over the ledger [l]. *)
Definition booked (e0 : Q) (l : list BacktestCli.ClosedTrade) : Q :=
  fold_left (fun (equity : Q) (c : BacktestCli.ClosedTrade) =>
               equity + BacktestCli.pnl c) l e0.

(** A closed trade of the replay ledger is booked consistently: at a price
    Python reads as true, which is the stop of the recorded trade for a
    stop-loss exit and its target for a take-profit exit, with the PnL of
    that price. *)
Definition booked_consistently (c : BacktestCli.ClosedTrade) : Prop :=
  Py.truthy (BacktestCli.exitPrice c) = true
  /\ ((BacktestCli.exitReason c = BacktestCli.StopLoss
       /\ BacktestCli.exitPrice c = BacktestCli.sl (BacktestCli.trade c))
      \/ (BacktestCli.exitReason c = BacktestCli.TakeProfit
          /\ BacktestCli.exitPrice c = BacktestCli.tp (BacktestCli.trade c)))
  /\ BacktestCli.pnl c
     = BacktestCli.realised_pnl (BacktestCli.trade c) (BacktestCli.exitPrice c).

(** A trade of the replay was entered by a BUY or SELL signal on a bar
    inside the trading session. *)
Definition entered_in_session (t : BacktestCli.Trade) : Prop :=
  is_entry (BacktestCli.action t) = true
  /\ BacktestCli.is_trading_session_active (BacktestCli.entryTime t) = true.

(** The bookkeeping invariant of the replay loop. *)
Definition ledger_inv (st : BacktestCli.Loop) : Prop :=
  Forall booked_consistently (BacktestCli.trades st)
  /\ Forall entered_in_session (map BacktestCli.trade (BacktestCli.trades st))
  /\ map BacktestCli.id (map BacktestCli.trade (BacktestCli.trades st))
     = seq 1 (length (BacktestCli.trades st))
  /\ (forall t, BacktestCli.active_trade st = Some t ->
        entered_in_session t
        /\ BacktestCli.id t = S (length (BacktestCli.trades st))).


(** Every trade the loop holds, closed or open. *)
Definition all_trades (st : BacktestCli.Loop) : list BacktestCli.Trade :=
  map BacktestCli.trade (BacktestCli.trades st)
  ++ match BacktestCli.active_trade st with
     | Some t => [t]
     | None => []
     end.

(** A long from 150 with the stop at 149, sized on 10000 at 1 %. *)
Definition sample_units : Z := BacktestCli.calc_units_usdjpy 10000 (1 # 100) 150 149.

(** An equity curve that dips from 10000 to 9000 and recovers. *)
Definition sample_curve : list (Z * Q) :=
  [(0%Z, 10000); (1%Z, 9000); (2%Z, 10500); (3%Z, 10000)].

(** The stop of a position under management: on the protective side of the
    entry until the breakeven move, on the profit side (or on the entry)
    from then on. *)
Definition managed (p : Strategy.Position) : Prop :=
  if Strategy.breakeven p
  then tightened (Strategy.action p) (Strategy.entry p) (Strategy.sl p)
  else tightened (Strategy.action p) (Strategy.sl p) (Strategy.entry p).

(** Number of calls of a trace whose event carries the reason [x]. *)
Definition count_reason (x : Strategy.Reason) (trace : list Strategy.Managed)
  : nat :=
  length
    (List.filter
       (fun r =>
          match Strategy.reason_of r, x with
          | Some Strategy.PartialAt2R, Strategy.PartialAt2R => true
          | Some Strategy.SecondPartialAt3R, Strategy.SecondPartialAt3R => true
          | Some Strategy.StopLossHit, Strategy.StopLossHit => true
          | Some Strategy.TakeProfitHit, Strategy.TakeProfitHit => true
          | Some Strategy.TimeExit, Strategy.TimeExit => true
          | _, _ => false
          end)
       trace).

(** A frame of strategy.py at 09:00 whose last row is a strong uptrend. *)
Definition bullish_current : Strategy.Current :=
  Strategy.mkCurrent 150 (3 # 10) (3 # 10)
                     (1499 # 10) (1495 # 10) (149) (148)
                     30 (15 # 10) 60 50 40 (1 # 10) 0 (149) (151).

Definition bullish_frame : Strategy.Frame :=
  Strategy.mkFrame 300 32400 bullish_current.

(** The frame one bar and fifteen minutes later. *)
Definition next_frame : Strategy.Frame :=
  Strategy.mkFrame 301 33300 bullish_current.

(** The size a call closes: that of its partial close, if any. *)
Definition closed_size (r : Strategy.Managed) : Q :=
  match Strategy.event r with
  | Some (Strategy.PartialClose _ _ size_closed _) => size_closed
  | _ => 0
  end.


(** A bar whose close lies between its low and its high. *)
Definition ohlc_ordered (r : Row) : Prop :=
  low r <= close r /\ close r <= high r.

(** The row before each row of a series that follows [p]. *)
Fixpoint prevs (p : option Row) (rows : list Row) : list (option Row) :=
  match rows with
  | [] => []
  | r :: rest => p :: prevs (Some r) rest
  end.

(** Sixteen bars that climb by 0.1 a bar, each 0.2 high. *)
Definition rising_bars : list Row :=
  map (fun k =>
         let base := 150 + inject_Z (Z.of_nat k) / 10 in
         mkRow (monday + Z.of_nat k * 900000) base (base + (2 # 10)) base
               (base + (1 # 10)))
      (seq 0 16).

(** What the performance record of the risk manager keeps: at most twenty
    trades, never a winning and a losing streak at once, a peak and a
    maximum drawdown that are not negative. *)
Definition risk_inv (s : RiskManager.State) : Prop :=
  (length (RiskManager.recent_trades s) <= 20)%nat
  /\ (RiskManager.consecutive_losses s = 0%nat
      \/ RiskManager.consecutive_wins s = 0%nat)
  /\ 0 <= RiskManager.account_peak s
  /\ 0 <= RiskManager.max_drawdown s.

(** The performance fields of the risk manager, which only
    [update_performance] assigns. *)
Definition performance (s : RiskManager.State)
  : list RiskManager.TradeResult * nat * nat * Q * Q * Q :=
  (RiskManager.recent_trades s, RiskManager.consecutive_losses s,
   RiskManager.consecutive_wins s, RiskManager.daily_pnl s,
   RiskManager.max_drawdown s, RiskManager.account_peak s).

(** [n] calls of [update_streak] that all get the same answers from the
    broker. *)
Definition polls (n : nat) (status_code : Z) (txs : list Main.Tx)
    (account_balance : option Q) (today : Z)
    (start : Main.Tracker * option RiskManager.State)
  : Main.Tracker * option RiskManager.State :=
  Nat.iter n
    (fun st => Main.update_streak (fst st) (snd st) status_code txs
                 account_balance today)
    start.

(** A filled order closed at a loss. *)
Definition losing_fill (tx : Main.Tx) : Prop :=
  Main.tx_type tx = "ORDER_FILL" /\ Main.tx_pl tx < 0.

(** One fill that lost 5, dated day 4. *)
Definition one_losing_fill : list Main.Tx :=
  [Main.mkTx "ORDER_FILL" (- (5)) 4 60].

(** Two losses on an account near 1000. *)
Definition two_losses : list RiskManager.Op :=
  [RiskManager.UpdatePerformance "LOSS" (- (5)) 1005 120;
   RiskManager.UpdatePerformance "LOSS" (- (2)) 1003 180].
(** * Properties *)

(** ** Reading the boolean tests *)

Lemma leb_true (x y : Q) : Py.leb x y = true <-> x <= y.
Proof. apply Qle_bool_iff. Qed.

Lemma leb_false (x y : Q) : Py.leb x y = false <-> y < x.
Proof.
  unfold Py.leb. split; intro H.
  - apply Qnot_le_lt. intro Hle. apply Qle_bool_iff in Hle. congruence.
  - destruct (Qle_bool x y) eqn:E; [|reflexivity].
    apply Qle_bool_iff in E. lra.
Qed.

Lemma ltb_true (x y : Q) : Py.ltb x y = true <-> x < y.
Proof.
  unfold Py.ltb. rewrite negb_true_iff. apply (leb_false y x).
Qed.

Lemma ltb_false (x y : Q) : Py.ltb x y = false <-> y <= x.
Proof.
  unfold Py.ltb. rewrite negb_false_iff. apply (leb_true y x).
Qed.

Lemma eqb_true (x y : Q) : Py.eqb x y = true <-> x == y.
Proof. apply Qeq_bool_iff. Qed.

Lemma eqb_false (x y : Q) : Py.eqb x y = false <-> ~ x == y.
Proof.
  unfold Py.eqb. split; intro H.
  - intro E. apply Qeq_bool_iff in E. congruence.
  - destruct (Qeq_bool x y) eqn:E; [|reflexivity].
    apply Qeq_bool_iff in E. contradiction.
Qed.

(** Case analysis on every comparison of the goal, leaving the order facts
    in the context. *)
Ltac py_case :=
  match goal with
  | |- context [Py.leb ?x ?y] =>
      let E := fresh "E" in
      destruct (Py.leb x y) eqn:E;
      [apply leb_true in E | apply leb_false in E]
  | |- context [Py.ltb ?x ?y] =>
      let E := fresh "E" in
      destruct (Py.ltb x y) eqn:E;
      [apply ltb_true in E | apply ltb_false in E]
  | |- context [Py.eqb ?x ?y] =>
      let E := fresh "E" in
      destruct (Py.eqb x y) eqn:E;
      [apply eqb_true in E | apply eqb_false in E]
  end.

Ltac py_cases := repeat (py_case; cbn [fst snd] in *).

Lemma abs_nonneg (x : Q) : 0 <= Py.abs x.
Proof. unfold Py.abs. py_case; lra. Qed.

Lemma abs_cases (x : Q) :
  (0 <= x /\ Py.abs x = x) \/ (x < 0 /\ Py.abs x = - x).
Proof. unfold Py.abs. py_case; [right | left]; split; auto. Qed.

Lemma max_ge_l (a b : Q) : a <= Py.max a b.
Proof. unfold Py.max. py_case; lra. Qed.

Lemma max_ge_r (a b : Q) : b <= Py.max a b.
Proof. unfold Py.max. py_case; lra. Qed.

Lemma min_le_l (a b : Q) : Py.min a b <= a.
Proof. unfold Py.min. py_case; lra. Qed.

Lemma min_le_r (a b : Q) : Py.min a b <= b.
Proof. unfold Py.min. py_case; lra. Qed.

Lemma max_cases (a b : Q) : Py.max a b = a \/ Py.max a b = b.
Proof. unfold Py.max. py_case; auto. Qed.

Lemma min_cases (a b : Q) : Py.min a b = a \/ Py.min a b = b.
Proof. unfold Py.min. py_case; auto. Qed.

(** ** Stop before target inside one bar *)

(** In backtest_cli.py the stop the exit test reads is the one left by the
    in-bar breakeven move: never looser than the stop the bar started
    with. *)
Lemma cli_breakeven_tightens (t : BacktestCli.Trade) (lo hi : Q) :
  let t1 := fst (BacktestCli.resolve_exit t lo hi) in
  BacktestCli.action t1 = BacktestCli.action t /\
  BacktestCli.tp t1 = BacktestCli.tp t /\
  if is_buy (BacktestCli.action t)
  then BacktestCli.sl t <= BacktestCli.sl t1
  else BacktestCli.sl t1 <= BacktestCli.sl t.
Proof.
  unfold BacktestCli.resolve_exit.
  destruct (is_buy (BacktestCli.action t)) eqn:Hb;
    py_cases; cbn; rewrite ?Hb; repeat split; try lra.
Qed.

(** backtest_cli.py: the stop test comes first, so a bar that reaches both
    levels assigns the stop-loss exit. *)
Lemma cli_stop_before_target (t : BacktestCli.Trade) (lo hi : Q) :
  touches_both (BacktestCli.action t) (BacktestCli.sl t) (BacktestCli.tp t)
               lo hi ->
  let r := BacktestCli.resolve_exit t lo hi in
  snd r = Some (BacktestCli.sl (fst r), BacktestCli.StopLoss)
  /\ if is_buy (BacktestCli.action t)
     then BacktestCli.sl t <= BacktestCli.sl (fst r)
     else BacktestCli.sl (fst r) <= BacktestCli.sl t.
Proof.
  intros Ht.
  pose proof (cli_breakeven_tightens t lo hi) as Hm.
  cbv zeta in *. destruct Hm as (_ & _ & Hsl). split; [|exact Hsl].
  revert Hsl Ht. unfold touches_both, BacktestCli.resolve_exit.
  destruct (is_buy (BacktestCli.action t)) eqn:Hb;
    (match goal with
     | |- context [fst (if Py.leb ?a ?b then _ else _)] =>
         destruct (Py.leb a b) eqn:E
     end; cbn [fst snd]; [reflexivity|];
     apply leb_false in E;
     repeat match goal with
     | |- context [fst (if ?c then _ else _)] => destruct c; cbn [fst snd]
     end; intros; lra).
Qed.

(** backtester.py: the same precedence, on the stop as it stands. *)
Lemma vec_stop_before_target (balance : Q) (u : Backtester.Trade) (row : Row) :
  touches_both (Backtester.type_ u) (Backtester.sl u) (Backtester.tp u)
               (low row) (high row) ->
  Backtester.manage_active_trade balance u row =
    Some (Backtester.close_trade balance u (Backtester.sl u) (timestamp row)
            Backtester.StopLoss).
Proof.
  unfold touches_both, Backtester.manage_active_trade.
  destruct (is_buy (Backtester.type_ u)); intros [H1 H2];
    apply leb_true in H1; rewrite H1; reflexivity.
Qed.

(** On a bar that reaches both the stop and the target, both replay loops
    assign the stop-loss exit and never the take-profit exit.  In
    backtester.py the exit price is the stop of the position; in
    backtest_cli.py it is the stop as the in-bar breakeven move leaves it. *)
Lemma stop_before_target_in_both_loops
    (t : BacktestCli.Trade) (u : Backtester.Trade) (balance : Q) (row : Row) :
  touches_both (BacktestCli.action t) (BacktestCli.sl t) (BacktestCli.tp t)
               (low row) (high row) ->
  touches_both (Backtester.type_ u) (Backtester.sl u) (Backtester.tp u)
               (low row) (high row) ->
  (let r := BacktestCli.resolve_exit t (low row) (high row) in
   snd r = Some (BacktestCli.sl (fst r), BacktestCli.StopLoss) /\
   if is_buy (BacktestCli.action t)
   then BacktestCli.sl t <= BacktestCli.sl (fst r)
   else BacktestCli.sl (fst r) <= BacktestCli.sl t)
  /\
  Backtester.manage_active_trade balance u row =
    Some (Backtester.close_trade balance u (Backtester.sl u) (timestamp row)
            Backtester.StopLoss).
Proof.
  intros Ht Hu. split.
  - apply cli_stop_before_target. exact Ht.
  - apply vec_stop_before_target. exact Hu.
Qed.

(** The move of backtest_cli.py reads the high of the bar before the exit
    test reads its low.  So on every bar that reaches the stop and a target
    more than 1R from the entry, the stop the bar reached is gone when the
    exit test runs: the exit is assigned at entry + 0.1R for a long (entry -
    0.1R for a short), on the profit side of the entry. *)
Lemma cli_exit_at_moved_stop (t : BacktestCli.Trade) (lo hi : Q) :
  touches_both (BacktestCli.action t) (BacktestCli.sl t) (BacktestCli.tp t)
               lo hi ->
  (if is_buy (BacktestCli.action t)
   then BacktestCli.sl t < BacktestCli.entry t
        /\ BacktestCli.entry t + (BacktestCli.entry t - BacktestCli.sl t)
           < BacktestCli.tp t
   else BacktestCli.entry t < BacktestCli.sl t
        /\ BacktestCli.tp t
           < BacktestCli.entry t - (BacktestCli.sl t - BacktestCli.entry t)) ->
  snd (BacktestCli.resolve_exit t lo hi)
  = Some (if is_buy (BacktestCli.action t)
          then BacktestCli.entry t
               + (BacktestCli.entry t - BacktestCli.sl t) * (1 # 10)
          else BacktestCli.entry t
               - (BacktestCli.sl t - BacktestCli.entry t) * (1 # 10),
          BacktestCli.StopLoss)
  /\ (if is_buy (BacktestCli.action t)
      then BacktestCli.entry t
           < BacktestCli.entry t
             + (BacktestCli.entry t - BacktestCli.sl t) * (1 # 10)
      else BacktestCli.entry t
           - (BacktestCli.sl t - BacktestCli.entry t) * (1 # 10)
           < BacktestCli.entry t).
Proof.
  unfold touches_both, BacktestCli.resolve_exit.
  destruct (is_buy (BacktestCli.action t)); intros [H1 H2] [H3 H4]; cbv zeta.
  - assert (E1 : Py.ltb (BacktestCli.entry t
                         + (BacktestCli.entry t - BacktestCli.sl t)) hi = true)
      by (apply ltb_true; lra).
    assert (E2 : Py.ltb (BacktestCli.sl t)
                   (BacktestCli.entry t
                    + (BacktestCli.entry t - BacktestCli.sl t) * (1 # 10))
                 = true) by (apply ltb_true; lra).
    rewrite E1, E2. cbn [BacktestCli.set_sl BacktestCli.sl].
    assert (E3 : Py.leb lo
                   (BacktestCli.entry t
                    + (BacktestCli.entry t - BacktestCli.sl t) * (1 # 10))
                 = true) by (apply leb_true; lra).
    rewrite E3. cbn [snd]. split; [reflexivity | lra].
  - assert (E1 : Py.ltb lo (BacktestCli.entry t
                            - (BacktestCli.sl t - BacktestCli.entry t)) = true)
      by (apply ltb_true; lra).
    assert (E2 : Py.ltb (BacktestCli.entry t
                         - (BacktestCli.sl t - BacktestCli.entry t) * (1 # 10))
                   (BacktestCli.sl t) = true) by (apply ltb_true; lra).
    rewrite E1, E2. cbn [BacktestCli.set_sl BacktestCli.sl].
    assert (E3 : Py.leb (BacktestCli.entry t
                         - (BacktestCli.sl t - BacktestCli.entry t) * (1 # 10))
                   hi = true) by (apply leb_true; lra).
    rewrite E3. cbn [snd]. split; [reflexivity | lra].
Qed.

(** C1 fails on backtest_cli.py.  The long [sample_cli_long] (entry 100,
    stop 99, target 102, 1000 units) meets the bar [wide_bar], which spans
    98.5 to 102.5 and so reaches both the stop and the target.  The loop
    first moves the stop to 100.1 because the high of the bar is above
    101, then finds the low of the bar below the moved stop: the trade is
    booked as a stop-loss exit at 100.1, not at the stop 99 the bar
    reached, with a profit of about 999.  backtester.py books the same
    position on the same bar at its stop 99, with a loss of 10 on a size of
    10. *)
Theorem C1_profit_booked_as_stop_loss :
  touches_both (BacktestCli.action sample_cli_long)
               (BacktestCli.sl sample_cli_long) (BacktestCli.tp sample_cli_long)
               (low wide_bar) (high wide_bar)
  /\ (exists c : BacktestCli.ClosedTrade,
        BacktestCli.trades
          (BacktestCli.manage_active_trade wide_bar
             (BacktestCli.mkLoop 10000 (Some sample_cli_long) [] [] 0 None))
        = [c]
        /\ BacktestCli.exitReason c = BacktestCli.StopLoss
        /\ BacktestCli.exitPrice c == 1001 # 10
        /\ ~ BacktestCli.exitPrice c == BacktestCli.sl sample_cli_long
        /\ 999 < BacktestCli.pnl c /\ BacktestCli.pnl c < 1000)
  /\ (exists (balance : Q) (c : Backtester.Closed),
        Backtester.manage_active_trade 1000 sample_vec_long wide_bar
        = Some (balance, c)
        /\ Backtester.reason c = Backtester.StopLoss
        /\ Backtester.exit_price c == Backtester.sl sample_vec_long
        /\ Backtester.pnl c == - (10)).
Proof.
  split; [cbn; split; lra|]. split.
  - eexists. split; [vm_compute; reflexivity|].
    split; [reflexivity|]. split; [reflexivity|].
    split; [cbn; lra|]. split; vm_compute; reflexivity.
  - eexists. eexists. split; [vm_compute; reflexivity|].
    split; [reflexivity|]. split; reflexivity.
Qed.

(** The loop books the exit: when the price assigned to [exit_price] is
    not zero (Python reads a zero price as "no exit") the trade is closed
    and appended to the ledger as a stop-loss exit. *)
Lemma cli_stop_exit_is_booked (row : Row) (st : BacktestCli.Loop)
    (t : BacktestCli.Trade) :
  BacktestCli.active_trade st = Some t ->
  touches_both (BacktestCli.action t) (BacktestCli.sl t) (BacktestCli.tp t)
               (low row) (high row) ->
  let t1 := fst (BacktestCli.resolve_exit t (low row) (high row)) in
  ~ BacktestCli.sl t1 == 0 ->
  let st' := BacktestCli.manage_active_trade row st in
  BacktestCli.active_trade st' = None
  /\ BacktestCli.trades st'
     = BacktestCli.trades st
       ++ [BacktestCli.mkClosed t1 (BacktestCli.sl t1) (timestamp row)
             BacktestCli.StopLoss
             (BacktestCli.realised_pnl t1 (BacktestCli.sl t1))].
Proof.
  intros Ht Htouch t1 Hnz st'.
  destruct (cli_stop_before_target t (low row) (high row) Htouch) as [Hr _].
  subst st'. unfold BacktestCli.manage_active_trade. rewrite Ht.
  destruct (BacktestCli.resolve_exit t (low row) (high row)) as [u o] eqn:E.
  cbn in Hr, t1. subst t1 o.
  assert (Hy : Py.truthy (BacktestCli.sl u) = true).
  { unfold Py.truthy. apply negb_true_iff. apply (eqb_false _ 0). exact Hnz. }
  rewrite Hy. cbn. split; reflexivity.
Qed.

(** ** The breakeven rule of [manage_position] *)

(** The rule tests the distance travelled, not the profit: with the flag
    unset it fires at every loss of 1R or more. *)
Lemma breakeven_fires_at_loss (p : Strategy.Position) (price : Q) :
  Strategy.breakeven p = false ->
  Strategy.pips_of p price <= - Strategy.risk_pips_of p ->
  Strategy.breakeven_fires p price = true.
Proof.
  intros Hf Hloss. unfold Strategy.breakeven_fires. rewrite Hf. cbn.
  apply leb_true.
  pose proof (abs_nonneg (Strategy.entry p - Strategy.sl p)) as Hr.
  unfold Strategy.risk_pips_of in *.
  destruct (abs_cases (Strategy.pips_of p price)) as [[H1 H2] | [H1 H2]];
    rewrite H2; lra.
Qed.

(** With the flag unset it also fires at every profit of 1R or more, which
    is the case the rule is written for. *)
Lemma breakeven_fires_at_profit (p : Strategy.Position) (price : Q) :
  Strategy.breakeven p = false ->
  Strategy.risk_pips_of p <= Strategy.pips_of p price ->
  Strategy.breakeven_fires p price = true.
Proof.
  intros Hf Hwin. unfold Strategy.breakeven_fires. rewrite Hf. cbn.
  apply leb_true.
  destruct (abs_cases (Strategy.pips_of p price)) as [[H1 H2] | [H1 H2]];
    rewrite H2; [lra|].
  pose proof (abs_nonneg (Strategy.entry p - Strategy.sl p)) as Hr.
  unfold Strategy.risk_pips_of in *. lra.
Qed.

(** C2 fails on the code.  The long [sample_long] (entry 100, stop 99) is
    managed at price 99, a loss of exactly 1R: the breakeven rule fires, the
    stop is moved to the entry, and the position is closed at 100 as a
    stop-loss exit with a PnL of zero. *)
Theorem C2_breakeven_fires_at_a_loss :
  Strategy.pips_of sample_long 99 == - (100)
  /\ Strategy.breakeven_fires sample_long 99 = true
  /\ Strategy.sl (Strategy.dict (Strategy.manage_position sample_long 99 900))
     = Strategy.entry sample_long
  /\ Strategy.returned (Strategy.manage_position sample_long 99 900) = None
  /\ (exists price pnl,
        Strategy.event (Strategy.manage_position sample_long 99 900)
        = Some (Strategy.Close price pnl Strategy.StopLossHit)
        /\ price == 100 /\ pnl == 0).
Proof.
  split; [reflexivity|].
  split; [reflexivity|].
  split; [reflexivity|].
  split; [reflexivity|].
  eexists; eexists. split; [vm_compute; reflexivity|].
  split; reflexivity.
Qed.

(** ** Stops never loosen *)

Lemma tightened_refl (a : Action) (s : Q) : tightened a s s.
Proof. unfold tightened. destruct (is_buy a); lra. Qed.

Lemma tightened_trans (a : Action) (x y z : Q) :
  tightened a x y -> tightened a y z -> tightened a x z.
Proof. unfold tightened. destruct (is_buy a); lra. Qed.

Lemma risk_pips_nonneg (p : Strategy.Position) :
  0 <= Strategy.risk_pips_of p.
Proof.
  unfold Strategy.risk_pips_of.
  pose proof (abs_nonneg (Strategy.entry p - Strategy.sl p)). lra.
Qed.

(** A trailing tier keeps everything but the stop, and only tightens it. *)
Lemma trail_tightens (tier mult risk pips atr_ price : Q)
    (p : Strategy.Position) :
  let p' := Strategy.trail tier mult risk pips atr_ price p in
  Strategy.action p' = Strategy.action p
  /\ Strategy.entry p' = Strategy.entry p
  /\ Strategy.breakeven p' = Strategy.breakeven p
  /\ tightened (Strategy.action p) (Strategy.sl p) (Strategy.sl p').
Proof.
  unfold Strategy.trail, tightened.
  destruct (is_buy (Strategy.action p)) eqn:Hb;
    py_cases; cbn; rewrite ?Hb; repeat split; lra.
Qed.

(** A tier that is not reached leaves the position alone. *)
Lemma trail_idle (tier mult risk pips atr_ price : Q)
    (p : Strategy.Position) :
  Py.abs pips < tier * risk ->
  Strategy.trail tier mult risk pips atr_ price p = p.
Proof.
  intro H. unfold Strategy.trail.
  apply leb_false in H. rewrite H. reflexivity.
Qed.

(** Lines 428-459 on a protective position: the stop only tightens and the
    position stays protective. *)
Lemma update_stop_tightens (p : Strategy.Position) (price : Q) :
  protective p ->
  let p' := Strategy.update_stop p price in
  Strategy.action p' = Strategy.action p
  /\ tightened (Strategy.action p) (Strategy.sl p) (Strategy.sl p')
  /\ protective p'.
Proof.
  intros Hp. unfold Strategy.update_stop.
  set (atr_ := match Strategy.atr p with Some a => a | None => 1 # 1000 end).
  set (pips := Strategy.pips_of p price).
  set (risk := Strategy.risk_pips_of p).
  set (p1 := Strategy.apply_breakeven p price).
  assert (H1 : Strategy.action p1 = Strategy.action p
               /\ Strategy.entry p1 = Strategy.entry p
               /\ tightened (Strategy.action p) (Strategy.sl p) (Strategy.sl p1)
               /\ (Strategy.breakeven p1 = true
                   \/ (p1 = p /\ Py.abs pips < risk))).
  { unfold p1, Strategy.apply_breakeven, Strategy.breakeven_fires.
    destruct (Strategy.breakeven p) eqn:Hf; cbn.
    - repeat split; auto using tightened_refl.
    - fold risk pips. py_case; cbn.
      + repeat split; auto.
        destruct Hp as [Hp | Hp]; [congruence | exact Hp].
      + repeat split; auto using tightened_refl. }
  destruct H1 as (Ha1 & He1 & Ht1 & Hflag).
  set (p2 := Strategy.trail 2 2 risk pips atr_ price p1).
  destruct (trail_tightens 2 2 risk pips atr_ price p1)
    as (Ha2 & He2 & Hf2 & Ht2).
  fold p2 in Ha2, He2, Hf2, Ht2.
  destruct (trail_tightens 3 (3 # 2) risk pips atr_ price p2)
    as (Ha3 & He3 & Hf3 & Ht3).
  cbv zeta. fold p2.
  split; [congruence|]. split.
  - rewrite Ha1 in Ht2. rewrite Ha2, Ha1 in Ht3.
    eauto using tightened_trans.
  - destruct Hflag as [Hflag | [Heq Hlt]].
    + left. congruence.
    + pose proof (risk_pips_nonneg p) as Hr. fold risk in Hr.
      assert (E2 : p2 = p1) by (apply trail_idle; lra).
      rewrite E2, (trail_idle 3 (3 # 2)) by lra.
      rewrite Heq. exact Hp.
Qed.

(** One call of [manage_position]: the dictionary it leaves has a stop at
    least as tight, is protective again, and is the dictionary it returns
    when the position stays open. *)
Lemma manage_position_tightens (p : Strategy.Position) (price : Q) (time : Z) :
  protective p ->
  let r := Strategy.manage_position p price time in
  Strategy.action (Strategy.dict r) = Strategy.action p
  /\ tightened (Strategy.action p) (Strategy.sl p) (Strategy.sl (Strategy.dict r))
  /\ protective (Strategy.dict r)
  /\ (forall p', Strategy.returned r = Some p' -> p' = Strategy.dict r).
Proof.
  intros Hp.
  destruct (update_stop_tightens p price Hp) as (Ha & Ht & Hp').
  unfold Strategy.manage_position.
  repeat match goal with
  | |- context [if ?c then _ else _] => destruct c
  end; cbn -[Strategy.update_stop];
    repeat split; auto using tightened_refl; try congruence.
Qed.

Lemma manage_all_never_loosened (ticks : list (Q * Z)) :
  forall p : Strategy.Position,
    protective p ->
    never_loosened (Strategy.action p) (Strategy.sl p)
                   (map Strategy.sl (Strategy.manage_all p ticks)).
Proof.
  induction ticks as [|[price time] rest IH]; intros p Hp; cbn; [exact I|].
  destruct (manage_position_tightens p price time Hp) as (Ha & Ht & Hp' & Hret).
  split; [exact Ht|].
  destruct (Strategy.returned (Strategy.manage_position p price time))
    as [p'|] eqn:Hr; cbn; [|exact I].
  rewrite (Hret p' eq_refl) in *.
  rewrite <- Ha. apply IH. exact Hp'.
Qed.

(** [calculate_trailing_stop] never returns a looser stop. *)
Lemma calculate_trailing_stop_tightens (cfg : StrategyBackup.Params)
    (q : StrategyBackup.Position) (price atr_ entry_ s : Q) :
  StrategyBackup.calculate_trailing_stop cfg q price atr_ entry_ = Some s ->
  tightened (StrategyBackup.action q) (StrategyBackup.sl q) s.
Proof.
  unfold StrategyBackup.calculate_trailing_stop, tightened.
  destruct (StrategyBackup.trailing_stop_enabled cfg); cbn.
  - match goal with
    | |- context [Py.eqb ?d 0] => destruct (Py.eqb d 0)
    end; [discriminate|]. py_case.
    + intros [= <-]. destruct (is_buy (StrategyBackup.action q)); lra.
    + destruct (is_buy (StrategyBackup.action q)); intros [= <-].
      * apply max_ge_r.
      * apply min_le_r.
  - intros [= <-]. destruct (is_buy (StrategyBackup.action q)); lra.
Qed.

Lemma trail_all_never_loosened (cfg : StrategyBackup.Params) (entry_ : Q)
    (ticks : list (Q * Q)) :
  forall q : StrategyBackup.Position,
    never_loosened (StrategyBackup.action q) (StrategyBackup.sl q)
                   (StrategyBackup.trail_all cfg entry_ q ticks).
Proof.
  induction ticks as [|tick rest IH]; intros q; cbn; [exact I|].
  assert (H : StrategyBackup.action (StrategyBackup.trail_once cfg entry_ q tick)
              = StrategyBackup.action q
              /\ tightened (StrategyBackup.action q) (StrategyBackup.sl q)
                   (StrategyBackup.sl (StrategyBackup.trail_once cfg entry_ q tick))).
  { unfold StrategyBackup.trail_once.
    destruct (StrategyBackup.calculate_trailing_stop cfg q (fst tick)
                (snd tick) entry_) as [s|] eqn:E; cbn.
    - split; [reflexivity|].
      eapply calculate_trailing_stop_tightens; eassumption.
    - split; [reflexivity | apply tightened_refl]. }
  destruct H as [Ha Ht]. split; [exact Ht|].
  rewrite <- Ha. apply IH.
Qed.

(** Positions are opened protective whenever the stop distance
    [atr * mult] is not negative. *)
Lemma open_position_protective (a : Action) (entry_ atr_ mult rr size_ : Q)
    (time : Z) :
  0 <= atr_ * mult ->
  protective (Strategy.open_position a entry_ atr_ mult rr size_ time).
Proof.
  intro H. right. unfold Strategy.open_position, tightened.
  destruct (is_buy a) eqn:Hb; cbn; rewrite Hb; lra.
Qed.

(** C3: over any run of successive [manage_position] calls on an open
    position, and over any run of [calculate_trailing_stop] updates, the
    stop of a long never decreases and the stop of a short never increases.
    An open position is one whose stop was placed on the protective side of
    the entry, which is how positions are opened and what every call
    preserves. *)
Theorem C3_stop_never_loosened
    (p : Strategy.Position) (ticks : list (Q * Z))
    (cfg : StrategyBackup.Params) (entry_ : Q) (q : StrategyBackup.Position)
    (ticks' : list (Q * Q)) :
  protective p ->
  never_loosened (Strategy.action p) (Strategy.sl p)
                 (map Strategy.sl (Strategy.manage_all p ticks))
  /\ never_loosened (StrategyBackup.action q) (StrategyBackup.sl q)
                    (StrategyBackup.trail_all cfg entry_ q ticks').
Proof.
  intro Hp. split.
  - apply manage_all_never_loosened. exact Hp.
  - apply trail_all_never_loosened.
Qed.

Lemma C3_stop_never_loosened_witness :
  never_loosened BUY 99
    (map Strategy.sl (Strategy.manage_all sample_long sample_ticks))
  /\ never_loosened BUY 99
       (StrategyBackup.trail_all StrategyBackup.optimized_params 100
          sample_backup_long sample_trail_ticks).
Proof.
  apply (C3_stop_never_loosened sample_long sample_ticks
           StrategyBackup.optimized_params 100 sample_backup_long
           sample_trail_ticks).
  right. cbn. lra.
Defined.

(** ** The cooldown memory of the signal engine *)

Lemma insert_by_strength_in (x c : Strategy.Candidate)
    (l : list Strategy.Candidate) :
  In x (Strategy.insert_by_strength c l) -> x = c \/ In x l.
Proof.
  induction l as [|d rest IH]; cbn.
  - intros [H | []]; auto.
  - destruct (Py.ltb (Strategy.strength c) (Strategy.strength d)); cbn.
    + intros [H | H]; auto. destruct (IH H); auto.
    + intros [H | [H | H]]; auto.
Qed.

Lemma sort_by_strength_in (x : Strategy.Candidate)
    (l : list Strategy.Candidate) :
  In x (Strategy.sort_by_strength l) -> In x l.
Proof.
  induction l as [|c rest IH]; cbn; [auto|].
  intro H. apply insert_by_strength_in in H. destruct H; auto.
Qed.

(** Every candidate is a BUY or a SELL. *)
Lemma candidates_are_entries (c : Strategy.Current) (x : Strategy.Candidate) :
  In x (Strategy.candidates c) -> Strategy.cand_action x <> HOLD.
Proof.
  unfold Strategy.candidates. cbv zeta. intro H.
  apply in_app_or in H. destruct H as [H | H];
    repeat match type of H with
    | In _ (if ?b then _ else _) => destruct b
    end; cbn in H; try contradiction;
    destruct H as [H | []]; subst x; cbn; discriminate.
Qed.

(** In strategy.py the memory is written after the size check: a HOLD leaves
    it as it was, and a BUY or SELL stores the index and the time of the
    last bar. *)
Lemma strategy_memory_frame (balance : Q) (df : Strategy.Frame)
    (m : Strategy.Memory) :
  let r := Strategy.generate_signal balance df m in
  (Strategy.action_of (fst r) = HOLD -> snd r = m)
  /\ (Strategy.action_of (fst r) <> HOLD ->
      snd r = Strategy.mkMemory (Strategy.len_df df - 1)
                                (Some (Strategy.current_time df))).
Proof.
  unfold Strategy.generate_signal.
  destruct (Strategy.len_df df <? 100)%Z; [cbn; split; congruence|].
  destruct (negb (Strategy.is_trading_session_active (Strategy.current_time df)));
    [cbn; split; congruence|].
  match goal with
  | |- context [if negb ?c then _ else _] => destruct c
  end; cbn [negb]; [|cbn; split; congruence].
  destruct (Strategy.sort_by_strength (Strategy.candidates (Strategy.current df)))
    as [|signal rest] eqn:Hs; [cbn; split; congruence|].
  assert (Hin : In signal (Strategy.candidates (Strategy.current df))).
  { apply sort_by_strength_in. rewrite Hs. left. reflexivity. }
  apply candidates_are_entries in Hin.
  match goal with
  | |- context [if ?c then _ else _] => destruct c
  end; cbn; split; congruence.
Qed.

(** In strategy_backup.py a call that returns HOLD for any reason other than
    the size check leaves the memory as it was. *)
Lemma backup_memory_frame_other_holds (cfg : StrategyBackup.Params)
    (df : StrategyBackup.Frame) (m : StrategyBackup.Memory)
    (reason : StrategyBackup.HoldReason) :
  fst (StrategyBackup.generate_signal cfg df m) = StrategyBackup.Hold reason ->
  reason <> StrategyBackup.PositionSizeTooSmall ->
  snd (StrategyBackup.generate_signal cfg df m) = m.
Proof.
  unfold StrategyBackup.generate_signal.
  repeat match goal with
  | |- context [if ?c then _ else _] => destruct c
  end; cbn; intros H Hr; try reflexivity; congruence.
Qed.

(** In strategy_backup.py the HOLD of the size check always comes with the
    memory already moved to the last bar. *)
Lemma backup_size_hold_overwrites (cfg : StrategyBackup.Params)
    (df : StrategyBackup.Frame) (m : StrategyBackup.Memory) :
  fst (StrategyBackup.generate_signal cfg df m)
  = StrategyBackup.Hold StrategyBackup.PositionSizeTooSmall ->
  snd (StrategyBackup.generate_signal cfg df m)
  = StrategyBackup.mkMemory (StrategyBackup.len_df df - 1)
                            (Some (StrategyBackup.date_ df)).
Proof.
  unfold StrategyBackup.generate_signal.
  repeat match goal with
  | |- context [if ?c then _ else _] => destruct c
  end; cbn; intros H; try reflexivity; discriminate.
Qed.

(** strategy_backup_optimized.py reads the memory and never writes it. *)
Lemma optimized_never_writes_memory (cfg : StrategyBackup.Params)
    (df : StrategyBackup.Frame) (m : StrategyBackup.Memory) :
  snd (StrategyBackup.generate_signal_optimized cfg df m) = m.
Proof.
  unfold StrategyBackup.generate_signal_optimized.
  repeat match goal with
  | |- context [if ?c then _ else _] => destruct c
  end; reflexivity.
Qed.

(** C4 fails on strategy_backup.py.  The memory is assigned before the size
    is computed (lines 516-517 and 559-560), so a call that ends in the HOLD
    of the size check has already overwritten it.  Here the frame passes
    every long gate, the size comes out below 0.01 lot, the call returns
    HOLD, and the memory has moved from (-1, None) to the last bar. *)
Theorem C4_hold_overwrites_cooldown_memory :
  StrategyBackup.generate_signal small_risk_params qualifying_frame
                                 StrategyBackup.initial_memory
  = (StrategyBackup.Hold StrategyBackup.PositionSizeTooSmall,
     StrategyBackup.mkMemory 499 (Some 32400%Z))
  /\ StrategyBackup.action_of
       (fst (StrategyBackup.generate_signal small_risk_params qualifying_frame
               StrategyBackup.initial_memory)) = HOLD
  /\ snd (StrategyBackup.generate_signal small_risk_params qualifying_frame
            StrategyBackup.initial_memory)
     <> StrategyBackup.initial_memory.
Proof.
  split; [vm_compute; reflexivity|].
  split; [vm_compute; reflexivity|].
  vm_compute. discriminate.
Qed.

(** ** The daily circuit breaker of the replay loop *)

Section CircuitBreaker.

Variable generate_signal : nat -> BacktestCli.Signal.
Variable config : BacktestCli.Config.

Lemma step_keeps_breaker_inv (i : nat) (row : Row) (st : BacktestCli.Loop) :
  breaker_inv config st ->
  breaker_inv config (BacktestCli.step generate_signal config i row st).
Proof.
  intros Hinv. unfold BacktestCli.step.
  destruct (BacktestCli.skipped config row); [exact Hinv|].
  assert (H1 : breaker_inv config (BacktestCli.daily_reset row st)).
  { unfold BacktestCli.daily_reset, breaker_inv in *.
    destruct (BacktestCli.last_date st) as [d|];
      [destruct (d =? date_of (timestamp row))%Z|]; cbn; auto;
      destruct Hinv as [[Hmax [Hn | Hgt]] | (Hmax & Hn & Hz)];
      try (left; split; [exact Hmax|]; auto; right; lra);
      right; repeat split; auto; lra. }
  set (st1 := BacktestCli.daily_reset row st) in *.
  assert (H2 : breaker_inv config (BacktestCli.manage_active_trade row st1)).
  { unfold BacktestCli.manage_active_trade.
    destruct (BacktestCli.active_trade st1) as [t|] eqn:Ht; [|exact H1].
    unfold breaker_inv in *. rewrite Ht in H1.
    destruct H1 as [[Hmax [Hn | Hgt]] | (_ & Hn & _)]; try discriminate.
    left. split; [exact Hmax|].
    destruct (BacktestCli.resolve_exit t (low row) (high row)) as [t1 [[p r]|]];
      [destruct (Py.truthy p)|]; cbn; auto. }
  set (st2 := BacktestCli.manage_active_trade row st1) in *.
  assert (H3 : breaker_inv config
                 (BacktestCli.check_new_signal generate_signal config i row st2)).
  { unfold BacktestCli.check_new_signal.
    destruct (BacktestCli.may_open config st2) eqn:Hopen; [|exact H2].
    assert (Hgate : - BacktestCli.max_daily_loss config
                    < BacktestCli.daily_pnl st2).
    { unfold BacktestCli.may_open in Hopen.
      destruct (BacktestCli.active_trade st2); [discriminate|].
      apply ltb_true in Hopen. exact Hopen. }
    assert (Hmax : 0 < BacktestCli.max_daily_loss config).
    { destruct H2 as [[Hmax _] | (Hmax & _ & Hz)]; [exact Hmax | lra]. }
    repeat match goal with
    | |- context [if ?c then _ else _] => destruct c
    end; try exact H2;
      left; (split; [exact Hmax|]); right; exact Hgate. }
  unfold BacktestCli.record_equity, breaker_inv in *. cbn. exact H3.
Qed.

Lemma replay_keeps_breaker_inv (rows : list Row) :
  forall (i : nat) (st : BacktestCli.Loop),
    breaker_inv config st ->
    breaker_inv config (BacktestCli.replay generate_signal config i rows st).
Proof.
  induction rows as [|row rest IH]; intros i st Hinv; cbn; [exact Hinv|].
  apply IH. apply step_keeps_breaker_inv. exact Hinv.
Qed.

(** A tripped state of the loop has no trade open. *)
Lemma tripped_has_no_trade (st : BacktestCli.Loop) :
  breaker_inv config st -> tripped config st ->
  BacktestCli.active_trade st = None.
Proof.
  unfold breaker_inv, tripped.
  intros [[_ [Hn | Hgt]] | (_ & Hn & _)] Htrip; auto. lra.
Qed.

(** A bar of the tripped day changes nothing but the equity curve. *)
Lemma step_while_tripped (i : nat) (row : Row) (st : BacktestCli.Loop) (d : Z) :
  BacktestCli.active_trade st = None ->
  tripped config st ->
  BacktestCli.last_date st = Some d ->
  date_of (timestamp row) = d ->
  let st' := BacktestCli.step generate_signal config i row st in
  BacktestCli.active_trade st' = None
  /\ BacktestCli.trades st' = BacktestCli.trades st
  /\ BacktestCli.daily_pnl st' = BacktestCli.daily_pnl st
  /\ BacktestCli.last_date st' = Some d.
Proof.
  intros Hnone Htrip Hd Hrow. unfold BacktestCli.step.
  destruct (BacktestCli.skipped config row); [auto|].
  assert (E1 : BacktestCli.daily_reset row st = st).
  { unfold BacktestCli.daily_reset. rewrite Hd, Hrow, Z.eqb_refl. reflexivity. }
  rewrite E1.
  assert (E2 : BacktestCli.manage_active_trade row st = st).
  { unfold BacktestCli.manage_active_trade. rewrite Hnone. reflexivity. }
  rewrite E2.
  assert (E3 : BacktestCli.check_new_signal generate_signal config i row st = st).
  { unfold BacktestCli.check_new_signal, BacktestCli.may_open.
    rewrite Hnone.
    assert (Hg : Py.ltb (- BacktestCli.max_daily_loss config)
                        (BacktestCli.daily_pnl st) = false).
    { apply ltb_false. exact Htrip. }
    rewrite Hg. reflexivity. }
  rewrite E3. cbn. auto.
Qed.

Lemma replay_while_tripped (rows : list Row) :
  forall (i : nat) (st : BacktestCli.Loop) (d : Z),
    BacktestCli.active_trade st = None ->
    tripped config st ->
    BacktestCli.last_date st = Some d ->
    Forall (fun row => date_of (timestamp row) = d) rows ->
    let st' := BacktestCli.replay generate_signal config i rows st in
    BacktestCli.active_trade st' = None
    /\ BacktestCli.trades st' = BacktestCli.trades st
    /\ BacktestCli.daily_pnl st' = BacktestCli.daily_pnl st
    /\ BacktestCli.last_date st' = Some d.
Proof.
  induction rows as [|row rest IH]; intros i st d Hnone Htrip Hd Hall; cbn;
    [auto|].
  apply Forall_cons_iff in Hall. destruct Hall as [Hrow Hrest].
  destruct (step_while_tripped i row st d Hnone Htrip Hd Hrow)
    as (Hn & Ht & Hp & Hl).
  assert (Htrip' : tripped config
                     (BacktestCli.step generate_signal config i row st)).
  { unfold tripped in *. rewrite Hp. exact Htrip. }
  destruct (IH (S i) (BacktestCli.step generate_signal config i row st) d
              Hn Htrip' Hl Hrest)
    as (Hn' & Ht' & Hp' & Hl').
  repeat split; congruence.
Qed.

(** The first bar of another day finds the gate of line 167 open again:
    the reset has put the daily PnL back to zero. *)
Lemma rollover_reopens (row : Row) (st : BacktestCli.Loop) (d : Z) :
  0 < BacktestCli.max_daily_loss config ->
  BacktestCli.active_trade st = None ->
  BacktestCli.last_date st = Some d ->
  date_of (timestamp row) <> d ->
  BacktestCli.daily_pnl (BacktestCli.daily_reset row st) = 0
  /\ BacktestCli.may_open config
       (BacktestCli.manage_active_trade row (BacktestCli.daily_reset row st))
     = true.
Proof.
  intros Hmax Hnone Hd Hrow.
  unfold BacktestCli.daily_reset. rewrite Hd.
  destruct (d =? date_of (timestamp row))%Z eqn:E.
  - apply Z.eqb_eq in E. congruence.
  - unfold BacktestCli.manage_active_trade, BacktestCli.may_open. cbn.
    rewrite Hnone. cbn. split; [reflexivity|]. apply ltb_true. lra.
Qed.

End CircuitBreaker.

(** C5: replay any bars from the start of the loop (bar index [warmup]).
    If the daily realised PnL then stands at or below [- max_daily_loss],
    no position is opened on any later bar of that day: after every such bar
    there is no open trade, the ledger is the same and the breaker is still
    tripped.  The first bar of another day resets the daily PnL to zero and,
    the limit being positive, finds the gate open again. *)
Theorem C5_daily_circuit_breaker
    (generate_signal : nat -> BacktestCli.Signal) (config : BacktestCli.Config)
    (initial_equity : Q) (warmup : nat) (before rest : list Row) (d : Z) :
  let st := BacktestCli.replay generate_signal config warmup before
              (BacktestCli.init initial_equity) in
  tripped config st ->
  BacktestCli.last_date st = Some d ->
  Forall (fun row => date_of (timestamp row) = d) rest ->
  (forall n : nat,
     let st' := BacktestCli.replay generate_signal config
                  (warmup + length before) (firstn n rest) st in
     BacktestCli.active_trade st' = None
     /\ BacktestCli.trades st' = BacktestCli.trades st
     /\ tripped config st')
  /\ (forall row : Row,
        0 < BacktestCli.max_daily_loss config ->
        date_of (timestamp row) <> d ->
        let st' := BacktestCli.replay generate_signal config
                     (warmup + length before) rest st in
        BacktestCli.daily_pnl (BacktestCli.daily_reset row st') = 0
        /\ BacktestCli.may_open config
             (BacktestCli.manage_active_trade row
                (BacktestCli.daily_reset row st')) = true).
Proof.
  intros st Htrip Hd Hall.
  assert (Hinit : breaker_inv config (BacktestCli.init initial_equity)).
  { unfold breaker_inv. cbn.
    destruct (Qlt_le_dec 0 (BacktestCli.max_daily_loss config)) as [Hpos | Hneg].
    - left. split; [exact Hpos|]. left. reflexivity.
    - right. split; [exact Hneg|]. split; reflexivity. }
  assert (Hnone : BacktestCli.active_trade st = None).
  { apply (tripped_has_no_trade config); [|exact Htrip].
    apply replay_keeps_breaker_inv. exact Hinit. }
  split.
  - intros n st'.
    assert (Hn : Forall (fun row => date_of (timestamp row) = d) (firstn n rest)).
    { apply Forall_take. exact Hall. }
    destruct (replay_while_tripped generate_signal config (firstn n rest)
                (warmup + length before) st d Hnone Htrip Hd Hn)
      as (H1 & H2 & H3 & _).
    repeat split; auto. unfold tripped in *. subst st'. rewrite H3. exact Htrip.
  - intros row Hmax Hrow st'.
    destruct (replay_while_tripped generate_signal config rest
                (warmup + length before) st d Hnone Htrip Hd Hall)
      as (H1 & _ & _ & H4).
    apply (rollover_reopens config row st' d); assumption.
Qed.

Lemma C5_daily_circuit_breaker_witness :
  tripped BacktestCli.default_config
    (BacktestCli.replay always_long BacktestCli.default_config 500
       tripping_bars (BacktestCli.init 10000))
  /\ (forall n : nat,
        BacktestCli.active_trade
          (BacktestCli.replay always_long BacktestCli.default_config
             (500 + length tripping_bars) (firstn n same_day_bars)
             (BacktestCli.replay always_long BacktestCli.default_config 500
                tripping_bars (BacktestCli.init 10000))) = None)
  /\ BacktestCli.active_trade
       (BacktestCli.replay always_long BacktestCli.default_config 500
          (tripping_bars ++ same_day_bars ++ [next_day_bar])
          (BacktestCli.init 10000)) <> None.
Proof.
  assert (Htrip : tripped BacktestCli.default_config
            (BacktestCli.replay always_long BacktestCli.default_config 500
               tripping_bars (BacktestCli.init 10000)))
    by (vm_compute; discriminate).
  split; [exact Htrip|]. split.
  - intro n.
    destruct (C5_daily_circuit_breaker always_long BacktestCli.default_config
                10000 500 tripping_bars same_day_bars 4) as [H _].
    + exact Htrip.
    + vm_compute. reflexivity.
    + repeat constructor.
    + apply H.
  - vm_compute. discriminate.
Defined.

(** ** The risk governor *)

Lemma fold_left_max_ge (rest : list Q) :
  forall f : Q, f <= fold_left Py.max rest f.
Proof.
  induction rest as [|g rest IH]; intro f; cbn; [lra|].
  pose proof (IH (Py.max f g)). pose proof (max_ge_l f g). lra.
Qed.

(** Every factor lengthens the cooldown. *)
Lemma factors_at_least_one (s : RiskManager.State) :
  Forall (fun f => 1 <= f) (RiskManager.factors s).
Proof.
  unfold RiskManager.factors. cbv zeta.
  repeat match goal with
  | |- context [if ?c then _ else _] => destruct c
  end; cbn; repeat constructor; lra.
Qed.

Lemma multiplier_at_least_one (fs : list Q) :
  Forall (fun f => 1 <= f) fs -> 1 <= RiskManager.multiplier fs.
Proof.
  intros H. destruct H as [|f rest Hf Hrest]; cbn; [lra|].
  pose proof (fold_left_max_ge rest f). lra.
Qed.

(** Lines 433-441 keep a cooldown inside the bounds. *)
Lemma adapted_cooldown_bounded (s : RiskManager.State) (current : Q) :
  0 <= RiskManager.base_cooldown s ->
  RiskManager.base_cooldown s <= RiskManager.max_cooldown s ->
  RiskManager.base_cooldown s <= current ->
  current <= RiskManager.max_cooldown s ->
  RiskManager.base_cooldown s <= RiskManager.adapted_cooldown s current
  /\ RiskManager.adapted_cooldown s current <= RiskManager.max_cooldown s.
Proof.
  intros Hb Hbm Hlo Hhi.
  pose proof (multiplier_at_least_one _ (factors_at_least_one s)) as Hm.
  unfold RiskManager.adapted_cooldown.
  set (k := RiskManager.multiplier (RiskManager.factors s)) in *.
  set (b := RiskManager.base_cooldown s) in *.
  set (m := RiskManager.max_cooldown s) in *.
  assert (Hprod : b <= current * k) by nra.
  assert (Hnew : b <= Py.min (current * k) m /\ Py.min (current * k) m <= m).
  { split; [|apply min_le_r].
    destruct (min_cases (current * k) m) as [E | E]; rewrite E; lra. }
  destruct Hnew as [Hn1 Hn2].
  set (new := Py.min (current * k) m) in *.
  repeat match goal with
  | |- context [if ?c then _ else _] => destruct c
  end.
  - split; [apply max_ge_r|].
    destruct (max_cases (new * (7 # 10)) b) as [E | E]; rewrite E; lra.
  - split; [apply max_ge_r|].
    destruct (max_cases (new * (8 # 10)) b) as [E | E]; rewrite E; lra.
  - split; assumption.
Qed.

Lemma should_adapt_cooldown_bounded (s : RiskManager.State) (d : string) :
  cooldowns_bounded s ->
  cooldowns_bounded (fst (RiskManager.should_adapt_cooldown s d))
  /\ RiskManager.base_cooldown s <= snd (RiskManager.should_adapt_cooldown s d)
  /\ snd (RiskManager.should_adapt_cooldown s d) <= RiskManager.max_cooldown s.
Proof.
  intros (Hb & Hbm & Hall).
  unfold RiskManager.should_adapt_cooldown. cbn [fst snd].
  assert (Hcur : RiskManager.base_cooldown s
                 <= default (RiskManager.base_cooldown s)
                      (RiskManager.adaptive_cooldowns s !! d)
                 /\ default (RiskManager.base_cooldown s)
                      (RiskManager.adaptive_cooldowns s !! d)
                    <= RiskManager.max_cooldown s).
  { destruct (RiskManager.adaptive_cooldowns s !! d) as [v|] eqn:E; cbn.
    - exact (Hall d v E).
    - split; lra. }
  destruct Hcur as [Hc1 Hc2].
  destruct (adapted_cooldown_bounded s _ Hb Hbm Hc1 Hc2) as [Ha1 Ha2].
  split; [|split; assumption].
  unfold cooldowns_bounded, RiskManager.set_cooldown. cbn.
  split; [assumption|]. split; [assumption|].
  apply map_Forall_insert_2; [split; assumption | exact Hall].
Qed.

Lemma exec_keeps_bounds (s : RiskManager.State) (op : RiskManager.Op) :
  cooldowns_bounded s -> cooldowns_bounded (RiskManager.exec s op).
Proof.
  intros Hs. destruct op as [r p b now | d | d b now | d now]; cbn.
  - unfold RiskManager.update_performance.
    destruct (Py.eqb _ 0); cbn; exact Hs.
  - apply should_adapt_cooldown_bounded. exact Hs.
  - unfold RiskManager.is_locked_out, RiskManager.streak_then_cooldown.
    destruct (RiskManager.emergency s b); [exact Hs|].
    destruct (_ <=? _)%nat; [exact Hs|].
    destruct (RiskManager.last_trade_time s !! d); [|exact Hs].
    pose proof (should_adapt_cooldown_bounded s d Hs) as [H _].
    destruct (RiskManager.should_adapt_cooldown s d) as [s' c].
    cbn in H. destruct (Py.ltb _ c); exact H.
  - exact Hs.
Qed.

Lemma exec_keeps_limits (s : RiskManager.State) (op : RiskManager.Op) :
  RiskManager.base_cooldown (RiskManager.exec s op) = RiskManager.base_cooldown s
  /\ RiskManager.max_cooldown (RiskManager.exec s op) = RiskManager.max_cooldown s.
Proof.
  destruct op as [r p b now | d | d b now | d now]; cbn.
  - unfold RiskManager.update_performance. destruct (Py.eqb _ 0); cbn; auto.
  - auto.
  - unfold RiskManager.is_locked_out, RiskManager.streak_then_cooldown.
    destruct (RiskManager.emergency s b); [auto|].
    destruct (_ <=? _)%nat; [auto|].
    destruct (RiskManager.last_trade_time s !! d); [|auto].
    cbn. destruct (Py.ltb _ _); cbn; auto.
  - auto.
Qed.

Lemma fold_exec_keeps (ops : list RiskManager.Op) :
  forall s : RiskManager.State,
    cooldowns_bounded s ->
    cooldowns_bounded (fold_left RiskManager.exec ops s)
    /\ RiskManager.base_cooldown (fold_left RiskManager.exec ops s)
       = RiskManager.base_cooldown s
    /\ RiskManager.max_cooldown (fold_left RiskManager.exec ops s)
       = RiskManager.max_cooldown s.
Proof.
  induction ops as [|op rest IH]; intros s Hs; cbn; [auto|].
  destruct (IH (RiskManager.exec s op) (exec_keeps_bounds s op Hs))
    as (H1 & H2 & H3).
  destruct (exec_keeps_limits s op) as [H4 H5].
  split; [exact H1|]. split; congruence.
Qed.

(** C7: in every state reached from a fresh instance by any sequence of
    calls, the bounds are 5 and 60 minutes, every stored adaptive cooldown
    lies between them, and so does the value [should_adapt_cooldown] returns
    and stores, for every direction. *)
Theorem C7_adaptive_cooldown_within_bounds
    (ops : list RiskManager.Op) (direction : string) :
  let s := RiskManager.run ops in
  let r := RiskManager.should_adapt_cooldown s direction in
  RiskManager.base_cooldown s = 5
  /\ RiskManager.max_cooldown s = 60
  /\ (forall (d : string) (v : Q),
        RiskManager.adaptive_cooldowns s !! d = Some v -> 5 <= v /\ v <= 60)
  /\ 5 <= snd r /\ snd r <= 60
  /\ RiskManager.adaptive_cooldowns (fst r) !! direction = Some (snd r).
Proof.
  intros s r.
  assert (Hinit : cooldowns_bounded RiskManager.init).
  { unfold cooldowns_bounded. cbn.
    split; [lra|]. split; [lra|]. apply map_Forall_empty. }
  destruct (fold_exec_keeps ops RiskManager.init Hinit) as (Hs & Hb & Hm).
  fold (RiskManager.run ops) in Hs, Hb, Hm. fold s in Hs, Hb, Hm.
  cbn in Hb, Hm.
  destruct (should_adapt_cooldown_bounded s direction Hs) as (_ & H1 & H2).
  fold r in H1, H2.
  destruct Hs as (_ & _ & Hall).
  rewrite Hb, Hm in *.
  split; [reflexivity|]. split; [reflexivity|].
  split; [intros d v E; exact (Hall d v E)|].
  split; [exact H1|]. split; [exact H2|].
  subst r. unfold RiskManager.should_adapt_cooldown, RiskManager.set_cooldown.
  cbn. apply lookup_insert_eq.
Qed.

(** A loss adds one to the streak and leaves the limit alone, whether or
    not the drawdown line raises. *)
Lemma update_performance_loss (s : RiskManager.State) (p b now : Q) :
  let s' := RiskManager.after (RiskManager.update_performance s "LOSS" p b now) in
  RiskManager.consecutive_losses s' = S (RiskManager.consecutive_losses s)
  /\ RiskManager.consecutive_loss_limit s' = RiskManager.consecutive_loss_limit s.
Proof.
  unfold RiskManager.update_performance. cbn.
  destruct (Py.eqb _ 0); cbn; auto.
Qed.

Lemma ingest_losses_streak (l : list (Q * Q * Q)) :
  forall s : RiskManager.State,
    RiskManager.consecutive_losses (ingest_losses s l)
    = (RiskManager.consecutive_losses s + length l)%nat
    /\ RiskManager.consecutive_loss_limit (ingest_losses s l)
       = RiskManager.consecutive_loss_limit s.
Proof.
  induction l as [|x rest IH]; intro s; cbn; [split; [lia | reflexivity]|].
  destruct (update_performance_loss s (fst (fst x)) (snd (fst x)) (snd x))
    as [H1 H2].
  destruct (IH (RiskManager.after
                  (RiskManager.update_performance s "LOSS" (fst (fst x))
                     (snd (fst x)) (snd x)))) as [H3 H4].
  unfold ingest_losses in *. cbn. rewrite H3, H4, H1, H2. split; [lia | reflexivity].
Qed.

(** The verdict once the streak has reached the limit: locked, with the
    reason the precedence selects. *)
Lemma locked_by_streak (s : RiskManager.State) (direction : string)
    (balance : option Q) (now : Q) :
  (RiskManager.consecutive_loss_limit s <= RiskManager.consecutive_losses s)%nat ->
  RiskManager.is_locked_out s direction balance now
  = (s, (true,
         match RiskManager.emergency s balance with
         | Some d => RiskManager.Emergency d
         | None => RiskManager.Protection (RiskManager.consecutive_losses s)
         end)).
Proof.
  intro H. unfold RiskManager.is_locked_out, RiskManager.streak_then_cooldown.
  destruct (RiskManager.emergency s balance); [reflexivity|].
  apply Nat.leb_le in H. rewrite H. reflexivity.
Qed.

(** C6, as the code has it.  After a run of losing trades at least as long
    as the streak limit (three on a fresh instance), every call of
    [is_locked_out] returns locked, for any direction, balance and time, and
    leaves the state as it was.  The reason is the streak protection unless
    the emergency drawdown check, which comes first, fires; the adaptive
    cooldown is consulted only when neither of the two locks. *)
Theorem C6_locked_after_loss_streak
    (s0 : RiskManager.State) (losses : list (Q * Q * Q))
    (direction : string) (balance : option Q) (now : Q) :
  (RiskManager.consecutive_loss_limit s0 <= length losses)%nat ->
  let s := ingest_losses s0 losses in
  RiskManager.is_locked_out s direction balance now
  = (s, (true,
         match RiskManager.emergency s balance with
         | Some d => RiskManager.Emergency d
         | None => RiskManager.Protection (RiskManager.consecutive_losses s)
         end))
  /\ (forall (s1 : RiskManager.State) (d : Q),
        RiskManager.emergency s1 balance = Some d ->
        RiskManager.is_locked_out s1 direction balance now
        = (s1, (true, RiskManager.Emergency d)))
  /\ (forall s1 : RiskManager.State,
        RiskManager.emergency s1 balance = None ->
        RiskManager.is_locked_out s1 direction balance now
        = RiskManager.streak_then_cooldown s1 direction now).
Proof.
  intros Hlen s. split; [|split].
  - apply locked_by_streak.
    destruct (ingest_losses_streak losses s0) as [H1 H2]. fold s in H1, H2.
    rewrite H1, H2. lia.
  - intros s1 d E. unfold RiskManager.is_locked_out. rewrite E. reflexivity.
  - intros s1 E. unfold RiskManager.is_locked_out. rewrite E. reflexivity.
Qed.

Lemma C6_locked_after_loss_streak_witness :
  RiskManager.is_locked_out (ingest_losses RiskManager.init three_losses)
                            "BUY" None 86400
  = (ingest_losses RiskManager.init three_losses,
     (true, RiskManager.Protection 3)).
Proof.
  destruct (C6_locked_after_loss_streak RiskManager.init three_losses
              "BUY" None 86400) as [H _].
  - cbn. lia.
  - exact H.
Defined.

(** C6 as stated fails: after three losses on an account that peaked at
    1000, a call that passes a balance of 900 is locked with the emergency
    drawdown reason, not with the streak protection reason. *)
Lemma C6_emergency_reason_after_three_losses :
  RiskManager.consecutive_losses (ingest_losses RiskManager.init three_losses)
  = 3%nat
  /\ exists d : Q,
       snd (RiskManager.is_locked_out
              (ingest_losses RiskManager.init three_losses)
              "BUY" (Some 900) 86400)
       = (true, RiskManager.Emergency d)
       /\ d == 1 # 10
       /\ RiskManager.Emergency d <> RiskManager.Protection 3.
Proof.
  split; [reflexivity|].
  eexists. split; [vm_compute; reflexivity|].
  split; [reflexivity | discriminate].
Qed.

(** C10: a call that passes no balance, or a balance of zero, skips the
    emergency drawdown check whatever the peak is.  The verdict is the one
    of the streak limit and the adaptive cooldown alone, and its reason is
    never the emergency one. *)
Theorem C10_zero_balance_skips_emergency
    (s : RiskManager.State) (direction : string) (balance : option Q) (now : Q) :
  (forall b : Q, balance = Some b -> b == 0) ->
  RiskManager.emergency s balance = None
  /\ RiskManager.is_locked_out s direction balance now
     = RiskManager.streak_then_cooldown s direction now
  /\ (forall d : Q,
        snd (snd (RiskManager.is_locked_out s direction balance now))
        <> RiskManager.Emergency d).
Proof.
  intro Hz.
  assert (E : RiskManager.emergency s balance = None).
  { unfold RiskManager.emergency. destruct balance as [b|]; [|reflexivity].
    assert (Hb : Py.truthy b = false).
    { unfold Py.truthy. apply negb_false_iff. apply Qeq_bool_iff. auto. }
    rewrite Hb. reflexivity. }
  split; [exact E|].
  unfold RiskManager.is_locked_out. rewrite E. split; [reflexivity|].
  intro d. unfold RiskManager.streak_then_cooldown.
  destruct (_ <=? _)%nat; cbn; [discriminate|].
  destruct (RiskManager.last_trade_time s !! direction); cbn; [|discriminate].
  destruct (Py.ltb _ _); cbn; discriminate.
Qed.

Lemma C10_zero_balance_skips_emergency_witness :
  RiskManager.account_peak (ingest_losses RiskManager.init one_loss) == 1000
  /\ RiskManager.is_locked_out (ingest_losses RiskManager.init one_loss)
                               "BUY" (Some 0) 86400
     = (ingest_losses RiskManager.init one_loss, (false, RiskManager.NoReason)).
Proof.
  split; [reflexivity|].
  destruct (C10_zero_balance_skips_emergency
              (ingest_losses RiskManager.init one_loss) "BUY" (Some 0) 86400)
    as (_ & H & _).
  - intros b [= <-]. reflexivity.
  - rewrite H. vm_compute. reflexivity.
Defined.

(** ** A stop on the entry price *)

Lemma abs_of_zero (x : Q) : x == 0 -> Py.abs x * 100 == 0.
Proof.
  intro H. destruct (abs_cases x) as [[_ E] | [_ E]]; rewrite E; lra.
Qed.

(** strategy_backup.py and strategy_backup_optimized.py size a candidate
    whose stop is on the entry at 0. *)
Lemma backup_size_zero (risk_amount e stop : Q) :
  e == stop ->
  StrategyBackup.calculate_position_size risk_amount e stop = 0
  /\ StrategyBackup.calculate_position_size_optimized risk_amount e stop = 0.
Proof.
  intro H.
  assert (Hz : Py.eqb (Py.abs (e - stop) * 100) 0 = true).
  { apply eqb_true. apply abs_of_zero. lra. }
  unfold StrategyBackup.calculate_position_size,
    StrategyBackup.calculate_position_size_optimized.
  rewrite Hz. destruct (Py.eqb e 0 || Py.eqb stop 0); auto.
Qed.

(** A size of 0 fails the test of lines 529 and 572 (295 and 317 in the
    optimized file), so a candidate whose stop distance is zero comes back
    as HOLD from both variants. *)
Lemma backup_rejects_zero_distance (cfg : StrategyBackup.Params)
    (df : StrategyBackup.Frame) (m : StrategyBackup.Memory) :
  StrategyBackup.sl_atr_mult cfg * StrategyBackup.curr_atr14 df == 0 ->
  StrategyBackup.action_of (fst (StrategyBackup.generate_signal cfg df m)) = HOLD
  /\ StrategyBackup.action_of
       (fst (StrategyBackup.generate_signal_optimized cfg df m)) = HOLD.
Proof.
  intro Hd.
  set (c := StrategyBackup.curr_close df).
  set (dist := StrategyBackup.sl_atr_mult cfg * StrategyBackup.curr_atr14 df) in *.
  set (risk := 10000 * StrategyBackup.risk_pct cfg).
  assert (Hl : c == c - dist) by lra.
  assert (Hs : c == c + dist) by lra.
  destruct (backup_size_zero risk c (c - dist) Hl) as [L1 L2].
  destruct (backup_size_zero risk c (c + dist) Hs) as [S1 S2].
  split.
  - unfold StrategyBackup.generate_signal. cbv zeta.
    fold c dist risk. rewrite L1, S1.
    change (Py.leb 0 (1 # 100)) with true. cbv iota.
    repeat match goal with
    | |- context [if ?b then _ else _] => destruct b
    end; reflexivity.
  - unfold StrategyBackup.generate_signal_optimized. cbv zeta.
    fold c dist risk. rewrite L2, S2.
    change (Py.leb 0 (1 # 100)) with true. cbv iota.
    repeat match goal with
    | |- context [if ?b then _ else _] => destruct b
    end; reflexivity.
Qed.

(** With the stop on the entry price, [calculate_position_size] of
    strategy.py and strategy_v10.py takes its first return: the minimum
    lot. *)
Lemma strategy_size_at_zero_distance (balance strength e stop : Q) :
  e == stop ->
  Strategy.calculate_position_size balance e stop strength = 1 # 100.
Proof.
  intro He. unfold Strategy.calculate_position_size.
  assert (Hz : Py.eqb (Py.abs (e - stop) * 100) 0 = true).
  { apply eqb_true. apply abs_of_zero. lra. }
  rewrite Hz. reflexivity.
Qed.

(** C8 fails on strategy.py and strategy_v10.py.  For a candidate entered at
    150 with its stop at 150, [calculate_position_size] returns the minimum
    lot 0.01 and not 0.  The two tests that are there to reject a size too
    small let it through: [position_size < self.min_position_size] of
    strategy.py and [position_size > 0] of backtest_v10.py.  On the same
    prices the two backup variants return 0, and on a frame whose ATR is
    zero, so that the stop is on the entry, both return HOLD. *)
Theorem C8_minimum_lot_not_zero :
  Strategy.calculate_position_size 10000 150 150 1 = 1 # 100
  /\ ~ Strategy.calculate_position_size 10000 150 150 1 == 0
  /\ Py.ltb (Strategy.calculate_position_size 10000 150 150 1)
            Strategy.min_position_size = false
  /\ Py.ltb 0 (Strategy.calculate_position_size 10000 150 150 1) = true
  /\ StrategyBackup.calculate_position_size 100 150 150 = 0
  /\ StrategyBackup.calculate_position_size_optimized 100 150 150 = 0
  /\ StrategyBackup.action_of
       (fst (StrategyBackup.generate_signal StrategyBackup.default_params
               zero_atr_frame StrategyBackup.initial_memory)) = HOLD
  /\ StrategyBackup.action_of
       (fst (StrategyBackup.generate_signal_optimized
               StrategyBackup.optimized_params zero_atr_frame
               StrategyBackup.initial_memory)) = HOLD.
Proof.
  split; [reflexivity|]. split; [vm_compute; discriminate|].
  split; [reflexivity|]. split; [reflexivity|].
  split; [reflexivity|]. split; [reflexivity|].
  split; vm_compute; reflexivity.
Qed.

(** ** Degenerate windows of the indicators *)

(** C9 fails on the code for the choppiness index.  Over fourteen bars with
    every price at 150 the true-range sum is 0: the guarded quotient is
    [0 / 1e-10 = 0] and [np.log10] of it is minus infinity, so the value
    written to ['chop14'] is infinite whatever the logarithm of 14 is. *)
Theorem C9_choppiness_of_flat_window (log10 : Q -> Q) :
  Indicators.rolling Indicators.chop_len Indicators.sum
    (Indicators.true_range flat_bars) 13 = Some 0
  /\ Indicators.chop14 log10 flat_bars 13
     = Indicators.fdiv Indicators.NInf (Indicators.Fin (log10 14))
  /\ Indicators.is_finite (Indicators.chop14 log10 flat_bars 13) = false.
Proof.
  assert (E : Indicators.chop14 log10 flat_bars 13
              = Indicators.fdiv Indicators.NInf (Indicators.Fin (log10 14))).
  { vm_compute. reflexivity. }
  split; [vm_compute; reflexivity|]. split; [exact E|].
  rewrite E. cbn. destruct (Py.ltb (log10 14) 0); reflexivity.
Qed.

(** The guards do their work for RSI and for +DI / -DI: once the window is
    full the denominators are positive and the values are finite. *)

Lemma length_shift (xs : list Q) :
  length (Indicators.shift xs) = length xs.
Proof.
  destruct xs as [|x rest]; [reflexivity|].
  unfold Indicators.shift. cbn [length]. rewrite length_map.
  rewrite removelast_firstn_len, length_take. cbn [length]. lia.
Qed.

Lemma length_diff (xs : list Q) : length (Indicators.diff xs) = length xs.
Proof.
  unfold Indicators.diff. rewrite length_map, length_combine, length_shift. lia.
Qed.

Lemma sum_nonneg (xs : list Q) :
  Forall (fun x => 0 <= x) xs -> 0 <= Indicators.sum xs.
Proof.
  induction 1 as [|x rest Hx Hrest IH]; cbn; [lra|].
  unfold Indicators.sum in IH. lra.
Qed.

Lemma mean_nonneg (w : nat) (xs : list Q) :
  Forall (fun x => 0 <= x) xs -> 0 <= Indicators.mean w xs.
Proof.
  intro H. unfold Indicators.mean, Qdiv.
  apply Qmult_le_0_compat; [apply sum_nonneg; exact H|].
  apply Qinv_le_0_compat. unfold Qle. cbn. lia.
Qed.

(** A full window exists and is made of values of the series. *)
Lemma window_full (P : Q -> Prop) (w : nat) (xs : list Q) (t : nat) :
  (w <= S t)%nat -> (S t <= length xs)%nat -> Forall P xs ->
  exists win, Indicators.window w xs t = Some win /\ Forall P win.
Proof.
  intros H1 H2 Hall. unfold Indicators.window.
  apply Nat.leb_le in H1. apply Nat.leb_le in H2. rewrite H1, H2. cbn.
  eexists. split; [reflexivity|].
  apply Forall_take, Forall_drop. exact Hall.
Qed.

Lemma gains_nonneg (closes : list Q) :
  Forall (fun x => 0 <= x) (Indicators.gains closes).
Proof.
  unfold Indicators.gains. apply List.Forall_forall. intros y Hy.
  apply in_map_iff in Hy. destruct Hy as ([d|] & <- & _); [|lra].
  py_case; lra.
Qed.

Lemma losses_nonneg (closes : list Q) :
  Forall (fun x => 0 <= x) (Indicators.losses closes).
Proof.
  unfold Indicators.losses. apply List.Forall_forall. intros y Hy.
  apply in_map_iff in Hy. destruct Hy as ([d|] & <- & _); [|lra].
  py_case; lra.
Qed.

Lemma guarded_nonzero (x : Q) : 0 <= x -> Py.eqb (x + Indicators.eps) 0 = false.
Proof.
  intro H. apply eqb_false. unfold Indicators.eps. lra.
Qed.

Lemma rsi_finite (w : nat) (rows : list Row) (t : nat) :
  (w <= S t)%nat -> (S t <= length rows)%nat ->
  Indicators.is_finite (Indicators.rsi w rows t) = true.
Proof.
  intros H1 H2. unfold Indicators.rsi, Indicators.rolling. cbv zeta.
  set (closes := map close rows).
  assert (Hlen : length closes = length rows) by apply length_map.
  destruct (window_full (fun x => 0 <= x) w (Indicators.gains closes) t H1)
    as (gw & Eg & Hg); [| apply gains_nonneg |].
  { unfold Indicators.gains. rewrite length_map, length_diff. lia. }
  destruct (window_full (fun x => 0 <= x) w (Indicators.losses closes) t H1)
    as (lw & El & Hl); [| apply losses_nonneg |].
  { unfold Indicators.losses. rewrite length_map, length_diff. lia. }
  rewrite Eg, El. cbn [Indicators.of_opt Indicators.fadd].
  pose proof (mean_nonneg w gw Hg) as Hgain.
  pose proof (mean_nonneg w lw Hl) as Hloss.
  set (gain := Indicators.mean w gw) in *.
  set (loss := Indicators.mean w lw) in *.
  cbn [Indicators.fdiv]. rewrite (guarded_nonzero loss Hloss).
  cbn [Indicators.fadd Indicators.fdiv].
  assert (Hrs : 0 <= gain / (loss + Indicators.eps)).
  { unfold Qdiv. apply Qmult_le_0_compat; [exact Hgain|].
    apply Qinv_le_0_compat. unfold Indicators.eps. lra. }
  assert (Hone : Py.eqb (1 + gain / (loss + Indicators.eps)) 0 = false).
  { apply eqb_false. lra. }
  rewrite Hone. reflexivity.
Qed.

Lemma length_true_range (rows : list Row) :
  length (Indicators.true_range rows) = length rows.
Proof.
  unfold Indicators.true_range.
  rewrite length_map, length_combine, length_shift, length_map. lia.
Qed.

(** On bars whose low does not exceed their high the true range is not
    negative. *)
Lemma true_range_nonneg (rows : list Row) :
  Forall (fun r => low r <= high r) rows ->
  Forall (fun x => 0 <= x) (Indicators.true_range rows).
Proof.
  intro Hwf. unfold Indicators.true_range. apply List.Forall_forall. intros y Hy.
  apply in_map_iff in Hy. destruct Hy as ([r [pc|]] & <- & Hin); cbn.
  - pose proof (abs_nonneg (low r - pc)) as Ha.
    pose proof (max_ge_r (Py.max (high r - low r) (Py.abs (high r - pc)))
                         (Py.abs (low r - pc))). lra.
  - apply in_combine_l in Hin. rewrite List.Forall_forall in Hwf.
    specialize (Hwf r Hin). cbn in Hwf. lra.
Qed.

Lemma di_finite (dm : list Row -> list Q) (rows : list Row) (t : nat) :
  (forall rs, length (dm rs) = length rs) ->
  Forall (fun r => low r <= high r) rows ->
  (Indicators.adx_len <= S t)%nat -> (S t <= length rows)%nat ->
  Indicators.is_finite (Indicators.di dm rows t) = true.
Proof.
  intros Hdm Hwf H1 H2. unfold Indicators.di, Indicators.rolling. cbv zeta.
  destruct (window_full (fun x => 0 <= x) Indicators.adx_len
              (Indicators.true_range rows) t H1) as (tw & Et & Ht);
    [rewrite length_true_range; exact H2 | apply true_range_nonneg; exact Hwf |].
  destruct (window_full (fun _ => True) Indicators.adx_len (dm rows) t H1)
    as (dw & Ed & _);
    [rewrite Hdm; exact H2 | apply List.Forall_forall; auto |].
  rewrite Et, Ed. cbn [Indicators.of_opt Indicators.fadd Indicators.fdiv].
  rewrite (guarded_nonzero _ (sum_nonneg tw Ht)). reflexivity.
Qed.

Lemma length_plus_dm (rows : list Row) :
  length (Indicators.plus_dm rows) = length rows.
Proof.
  unfold Indicators.plus_dm.
  rewrite length_map, !length_combine, !length_shift, !length_map. lia.
Qed.

Lemma length_minus_dm (rows : list Row) :
  length (Indicators.minus_dm rows) = length rows.
Proof.
  unfold Indicators.minus_dm.
  rewrite length_map, !length_combine, !length_shift, !length_map. lia.
Qed.

Lemma plus_minus_di_finite (rows : list Row) (t : nat) :
  Forall (fun r => low r <= high r) rows ->
  (Indicators.adx_len <= S t)%nat -> (S t <= length rows)%nat ->
  Indicators.is_finite (Indicators.plus_di rows t) = true
  /\ Indicators.is_finite (Indicators.minus_di rows t) = true.
Proof.
  intros Hwf H1 H2. split.
  - apply di_finite; auto using length_plus_dm.
  - apply di_finite; auto using length_minus_dm.
Qed.

Lemma fold_left_min_le (rest : list Q) :
  forall f : Q, fold_left Py.min rest f <= f.
Proof.
  induction rest as [|g rest IH]; intro f; cbn; [lra|].
  pose proof (IH (Py.min f g)). pose proof (min_le_l f g). lra.
Qed.

(** Over a window of bars whose low does not exceed their high, the highest
    high is not below the lowest low. *)
Lemma range_nonneg (win : list Row) :
  Forall (fun r => low r <= high r) win ->
  Indicators.minimum (map low win) <= Indicators.maximum (map high win).
Proof.
  intros H. destruct H as [|r rest Hr _]; cbn; [lra|].
  pose proof (fold_left_max_ge (map high rest) (high r)).
  pose proof (fold_left_min_le (map low rest) (low r)). lra.
Qed.

(** The choppiness index is finite whenever the true ranges of the window
    do not all vanish: the flat window is the only way to the infinity. *)
Lemma chop14_finite (log10 : Q -> Q) (rows : list Row) (t : nat) (s : Q) :
  ~ log10 14 == 0 ->
  Forall (fun r => low r <= high r) rows ->
  (Indicators.chop_len <= S t)%nat -> (S t <= length rows)%nat ->
  Indicators.rolling Indicators.chop_len Indicators.sum
    (Indicators.true_range rows) t = Some s ->
  0 < s ->
  Indicators.is_finite (Indicators.chop14 log10 rows t) = true.
Proof.
  intros Hlog Hwf H1 H2 Hs Hpos.
  unfold Indicators.chop14. cbv zeta. rewrite Hs.
  unfold Indicators.rolling, Indicators.window.
  rewrite !length_map.
  assert (E1 : (Indicators.chop_len <=? S t)%nat = true) by (apply Nat.leb_le; exact H1).
  assert (E2 : (S t <=? length rows)%nat = true) by (apply Nat.leb_le; exact H2).
  rewrite E1, E2. cbn [andb Indicators.of_opt Indicators.fsub Indicators.fneg
                       Indicators.fadd].
  set (k := (S t - Indicators.chop_len)%nat).
  rewrite !skipn_map, !firstn_map.
  set (win := firstn Indicators.chop_len (skipn k rows)).
  assert (Hwin : Forall (fun r => low r <= high r) win).
  { apply Forall_take, Forall_drop. exact Hwf. }
  pose proof (range_nonneg win Hwin) as Hrange.
  set (hi := Indicators.maximum (map high win)) in *.
  set (lo := Indicators.minimum (map low win)) in *.
  assert (Hden : 0 < hi + - lo + Indicators.eps) by (unfold Indicators.eps; lra).
  assert (Ez : Py.eqb (hi + - lo + Indicators.eps) 0 = false).
  { apply eqb_false. lra. }
  cbn [Indicators.fdiv]. rewrite Ez.
  assert (Hq : 0 < s / (hi + - lo + Indicators.eps)).
  { unfold Qdiv. apply Qmult_lt_0_compat; [exact Hpos|].
    apply Qinv_lt_0_compat. exact Hden. }
  unfold Indicators.np_log10.
  apply ltb_true in Hq. rewrite Hq.
  cbn [Indicators.fmul].
  change (Py.ltb 0 (inject_Z (Z.of_nat Indicators.chop_len))) with true.
  cbv iota. cbn [Indicators.fdiv].
  change (inject_Z (Z.of_nat Indicators.chop_len)) with (14 : Q).
  apply eqb_false in Hlog. rewrite Hlog. reflexivity.
Qed.

(** * Further properties of the code *)

(** ** The replay loop of backtest_cli.py *)

Section ReplayBookkeeping.

Variable generate_signal : nat -> BacktestCli.Signal.
Variable config : BacktestCli.Config.




(** What [resolve_exit] leaves of the trade, and what it assigns. *)
Lemma resolve_exit_shape (t : BacktestCli.Trade) (lo hi : Q) :
  let r := BacktestCli.resolve_exit t lo hi in
  BacktestCli.id (fst r) = BacktestCli.id t
  /\ BacktestCli.action (fst r) = BacktestCli.action t
  /\ BacktestCli.entryTime (fst r) = BacktestCli.entryTime t
  /\ (forall p reason, snd r = Some (p, reason) ->
        (reason = BacktestCli.StopLoss /\ p = BacktestCli.sl (fst r))
        \/ (reason = BacktestCli.TakeProfit /\ p = BacktestCli.tp (fst r))).
Proof.
  unfold BacktestCli.resolve_exit.
  repeat match goal with
  | |- context [if ?c then _ else _] => destruct c
  end; cbn; repeat split; intros p reason [= <- <-]; auto.
Qed.

(** Each bar keeps the equity equal to what the additions of the ledger's
    PnL, made one after the other from the starting equity, give. *)
Lemma step_keeps_equity (e0 : Q) (i : nat) (row : Row) (st : BacktestCli.Loop) :
  BacktestCli.equity st = booked e0 (BacktestCli.trades st) ->
  let st' := BacktestCli.step generate_signal config i row st in
  BacktestCli.equity st' = booked e0 (BacktestCli.trades st').
Proof.
  intros H. unfold BacktestCli.step.
  destruct (BacktestCli.skipped config row); [exact H|].
  unfold BacktestCli.record_equity. cbn.
  assert (H1 : BacktestCli.equity (BacktestCli.daily_reset row st)
               = booked e0 (BacktestCli.trades (BacktestCli.daily_reset row st))).
  { unfold BacktestCli.daily_reset.
    destruct (BacktestCli.last_date st) as [d|];
      [destruct (d =? date_of (timestamp row))%Z|]; cbn; exact H. }
  set (st1 := BacktestCli.daily_reset row st) in *.
  assert (H2 : BacktestCli.equity (BacktestCli.manage_active_trade row st1)
               = booked e0 (BacktestCli.trades
                              (BacktestCli.manage_active_trade row st1))).
  { unfold BacktestCli.manage_active_trade.
    destruct (BacktestCli.active_trade st1) as [t|]; [|exact H1].
    destruct (BacktestCli.resolve_exit t (low row) (high row)) as [t1 [[p r]|]];
      [destruct (Py.truthy p)|]; cbn; try exact H1.
    unfold booked. rewrite fold_left_app. cbn. fold (booked e0 (BacktestCli.trades st1)).
    rewrite H1. reflexivity. }
  set (st2 := BacktestCli.manage_active_trade row st1) in *.
  unfold BacktestCli.check_new_signal.
  repeat match goal with
  | |- context [if ?c then _ else _] => destruct c
  end; cbn; exact H2.
Qed.

Lemma replay_keeps_equity (e0 : Q) (rows : list Row) :
  forall (i : nat) (st : BacktestCli.Loop),
    BacktestCli.equity st = booked e0 (BacktestCli.trades st) ->
    let st' := BacktestCli.replay generate_signal config i rows st in
    BacktestCli.equity st' = booked e0 (BacktestCli.trades st').
Proof.
  induction rows as [|row rest IH]; intros i st H; cbn; [exact H|].
  apply IH. apply step_keeps_equity. exact H.
Qed.

Lemma seq_snoc (start len : nat) :
  seq start (S len) = seq start len ++ [(start + len)%nat].
Proof. rewrite seq_S. reflexivity. Qed.

Lemma step_keeps_ledger_inv (i : nat) (row : Row) (st : BacktestCli.Loop) :
  ledger_inv st ->
  ledger_inv (BacktestCli.step generate_signal config i row st).
Proof.
  intros Hinv. unfold BacktestCli.step.
  destruct (BacktestCli.skipped config row); [exact Hinv|].
  assert (H1 : ledger_inv (BacktestCli.daily_reset row st)).
  { unfold BacktestCli.daily_reset.
    destruct (BacktestCli.last_date st) as [d|];
      [destruct (d =? date_of (timestamp row))%Z|]; exact Hinv. }
  set (st1 := BacktestCli.daily_reset row st) in *.
  assert (H2 : ledger_inv (BacktestCli.manage_active_trade row st1)).
  { unfold BacktestCli.manage_active_trade.
    destruct (BacktestCli.active_trade st1) as [t|] eqn:Ht; [|exact H1].
    destruct H1 as (Hb & Hs & Hid & Hact).
    destruct (Hact t Ht) as [[Hentry Hsess] Htid].
    pose proof (resolve_exit_shape t (low row) (high row)) as Hshape.
    cbv zeta in Hshape.
    destruct (BacktestCli.resolve_exit t (low row) (high row)) as [t1 o].
    cbn [fst snd] in Hshape. destruct Hshape as (Ei & Ea & Et & Hres).
    assert (Ht1 : entered_in_session t1).
    { unfold entered_in_session. rewrite Ea, Et. split; assumption. }
    destruct o as [[p r]|].
    - destruct (Py.truthy p) eqn:Hp.
      + unfold ledger_inv. cbn.
        split; [|split; [|split]].
        * apply Forall_app. split; [exact Hb|].
          constructor; [|constructor].
          unfold booked_consistently. cbn.
          split; [exact Hp|]. split; [|reflexivity].
          destruct (Hres p r eq_refl) as [[-> ->] | [-> ->]]; auto.
        * rewrite map_app. apply Forall_app. split; [exact Hs|].
          constructor; [exact Ht1 | constructor].
        * rewrite !map_app, length_app. cbn [map length].
          rewrite Nat.add_1_r, seq_snoc, Hid. cbn. congruence.
        * intros t' [=].
      + unfold ledger_inv. cbn.
        split; [assumption|]. split; [assumption|]. split; [assumption|].
        intros t' [= <-]. split; [exact Ht1 | congruence].
    - unfold ledger_inv. cbn.
      split; [assumption|]. split; [assumption|]. split; [assumption|].
      intros t' [= <-]. split; [exact Ht1 | congruence]. }
  set (st2 := BacktestCli.manage_active_trade row st1) in *.
  assert (H3 : ledger_inv
                 (BacktestCli.check_new_signal generate_signal config i row st2)).
  { unfold BacktestCli.check_new_signal.
    destruct (BacktestCli.may_open config st2) eqn:Hopen; [|exact H2].
    destruct (BacktestCli.is_trading_session_active (timestamp row)) eqn:Hsess;
      [|exact H2].
    destruct (is_entry (BacktestCli.sig_action (generate_signal i))) eqn:Hentry;
      [|exact H2].
    destruct (Py.ltb 0 _); [|exact H2].
    destruct H2 as (Hb & Hs & Hid & Hact).
    unfold ledger_inv. cbn.
    split; [assumption|]. split; [assumption|]. split; [assumption|].
    intros t' [= <-]. unfold entered_in_session. cbn. auto. }
  destruct H3 as (Hb & Hs & Hid & Hact).
  unfold BacktestCli.record_equity, ledger_inv. cbn.
  split; [assumption|]. split; [assumption|]. split; assumption.
Qed.

Lemma replay_keeps_ledger_inv (rows : list Row) :
  forall (i : nat) (st : BacktestCli.Loop),
    ledger_inv st ->
    ledger_inv (BacktestCli.replay generate_signal config i rows st).
Proof.
  induction rows as [|row rest IH]; intros i st H; cbn; [exact H|].
  apply IH. apply step_keeps_ledger_inv. exact H.
Qed.

Lemma init_ledger_inv (e0 : Q) : ledger_inv (BacktestCli.init e0).
Proof.
  unfold ledger_inv. cbn.
  split; [constructor|]. split; [constructor|]. split; [reflexivity|].
  intros t [=].
Qed.

End ReplayBookkeeping.


(** X2.  At the end of any replay the equity is what the loop's own
    additions give: the initial equity with the PnL of each closed trade of
    the ledger added to it, one after the other in ledger order.  Nothing
    else moves it. *)
Theorem X2_equity_is_start_plus_ledger
    (generate_signal : nat -> BacktestCli.Signal) (config : BacktestCli.Config)
    (initial_equity : Q) (warmup : nat) (rows : list Row) :
  let st := BacktestCli.replay generate_signal config warmup rows
              (BacktestCli.init initial_equity) in
  BacktestCli.equity st
  = fold_left (fun (equity : Q) (c : BacktestCli.ClosedTrade) =>
                 equity + BacktestCli.pnl c)
              (BacktestCli.trades st) initial_equity.
Proof.
  apply (replay_keeps_equity generate_signal config initial_equity).
  reflexivity.
Qed.

(** X3.  Every entry of the ledger is booked at a non-zero price, which is
    the stop of the recorded trade when the reason is the stop loss and its
    target when the reason is the take profit, and carries the PnL computed
    from that price. *)
Theorem X3_ledger_booked_consistently
    (generate_signal : nat -> BacktestCli.Signal) (config : BacktestCli.Config)
    (initial_equity : Q) (warmup : nat) (rows : list Row) :
  Forall booked_consistently
    (BacktestCli.trades
       (BacktestCli.replay generate_signal config warmup rows
          (BacktestCli.init initial_equity))).
Proof.
  apply (replay_keeps_ledger_inv generate_signal config rows warmup
           (BacktestCli.init initial_equity) (init_ledger_inv initial_equity)).
Qed.

(** X4.  Trade ids are handed out without gaps: the ledger carries the ids
    1, 2, ..., n in order, and a trade still open carries n + 1. *)
Theorem X4_trade_ids_sequential
    (generate_signal : nat -> BacktestCli.Signal) (config : BacktestCli.Config)
    (initial_equity : Q) (warmup : nat) (rows : list Row) :
  let st := BacktestCli.replay generate_signal config warmup rows
              (BacktestCli.init initial_equity) in
  map BacktestCli.id (all_trades st) = seq 1 (length (all_trades st)).
Proof.
  intro st.
  destruct (replay_keeps_ledger_inv generate_signal config rows warmup
              (BacktestCli.init initial_equity) (init_ledger_inv initial_equity))
    as (_ & _ & Hid & Hact).
  fold st in Hid, Hact. unfold all_trades.
  rewrite map_app, length_app, length_map.
  destruct (BacktestCli.active_trade st) as [t|].
  - destruct (Hact t eq_refl) as [_ Ht]. cbn [map length].
    rewrite Nat.add_1_r, seq_snoc, Hid, Ht. reflexivity.
  - cbn. rewrite app_nil_r, Nat.add_0_r. exact Hid.
Qed.

(** The session test says what it means. *)
Lemma session_active_spec (ts : Z) :
  BacktestCli.is_trading_session_active ts = true ->
  weekday_of ts <> 5%Z /\ weekday_of ts <> 6%Z
  /\ (weekday_of ts = 4%Z -> (hour_of ts < 21)%Z).
Proof.
  unfold BacktestCli.is_trading_session_active.
  destruct (weekday_of ts =? 5)%Z eqn:E5; [discriminate|].
  destruct (weekday_of ts =? 6)%Z eqn:E6; [discriminate|].
  apply Z.eqb_neq in E5. apply Z.eqb_neq in E6.
  destruct (weekday_of ts =? 4)%Z eqn:E4.
  - destruct (21 <? hour_of ts)%Z eqn:H1; [discriminate|].
    destruct (hour_of ts =? 21)%Z eqn:H2.
    + assert (Hm : (0 <=? minute_of ts)%Z = true).
      { apply Z.leb_le. unfold minute_of. apply Z.mod_pos_bound. lia. }
      rewrite Hm. discriminate.
    + intros _. apply Z.ltb_ge in H1. apply Z.eqb_neq in H2.
      repeat split; auto. lia.
  - intros _. apply Z.eqb_neq in E4. repeat split; auto. congruence.
Qed.

(** X5.  Every trade the replay ever opens, closed or still open, comes from
    a BUY or SELL signal and was entered on a bar inside the trading
    session: never on a Saturday or a Sunday, and on a Friday only before
    21:00 UTC. *)
Theorem X5_entries_inside_session
    (generate_signal : nat -> BacktestCli.Signal) (config : BacktestCli.Config)
    (initial_equity : Q) (warmup : nat) (rows : list Row) :
  Forall
    (fun t =>
       is_entry (BacktestCli.action t) = true
       /\ weekday_of (BacktestCli.entryTime t) <> 5%Z
       /\ weekday_of (BacktestCli.entryTime t) <> 6%Z
       /\ (weekday_of (BacktestCli.entryTime t) = 4%Z ->
           (hour_of (BacktestCli.entryTime t) < 21)%Z))
    (all_trades
       (BacktestCli.replay generate_signal config warmup rows
          (BacktestCli.init initial_equity))).
Proof.
  destruct (replay_keeps_ledger_inv generate_signal config rows warmup
              (BacktestCli.init initial_equity) (init_ledger_inv initial_equity))
    as (_ & Hs & _ & Hact).
  set (st := BacktestCli.replay generate_signal config warmup rows
               (BacktestCli.init initial_equity)) in *.
  assert (Hall : Forall entered_in_session (all_trades st)).
  { unfold all_trades. apply Forall_app. split; [exact Hs|].
    destruct (BacktestCli.active_trade st) as [t|]; [|constructor].
    constructor; [exact (proj1 (Hact t eq_refl)) | constructor]. }
  eapply Forall_impl; [exact Hall|].
  intros t [He Hsess]. split; [exact He|].
  apply session_active_spec. exact Hsess.
Qed.

(** [int(x)] of a non-negative [x] is its integer part. *)
Lemma int_bounds (x : Q) :
  0 <= x ->
  (0 <= Py.int x)%Z
  /\ inject_Z (Py.int x) <= x /\ x < inject_Z (Py.int x) + 1.
Proof.
  destruct x as [n d]. unfold Qle, Qlt, Py.int. cbn. intro H.
  assert (Hn : (0 <= n)%Z) by lia.
  rewrite Z.quot_div_nonneg by lia.
  pose proof (Z.div_pos n (Z.pos d) Hn ltac:(lia)) as Hq.
  pose proof (Z.mul_div_le n (Z.pos d) ltac:(lia)) as Hle.
  pose proof (Z.mul_succ_div_gt n (Z.pos d) ltac:(lia)) as Hgt.
  repeat split; try lia; nia.
Qed.

Lemma int_nonpos (x : Q) : x <= 0 -> (Py.int x <= 0)%Z.
Proof.
  destruct x as [n d]. unfold Qle, Py.int. cbn. intro H.
  assert (Hn : (0 <= - n)%Z) by lia.
  pose proof (Z.quot_pos (- n) (Z.pos d) Hn ltac:(lia)) as Hq.
  rewrite Z.quot_opp_l in Hq by lia. lia.
Qed.

(** X6.  [calc_units_usdjpy] of the replay returns 0 units when the stop
    sits on the entry price, without dividing; otherwise the units have the
    sign of the risk amount: not negative when [balance * risk_pct] is not
    negative, not positive when it is not positive. *)
Theorem X6_units_sign_and_zero_guard (balance risk_pct entry_ stop : Q) :
  let units := BacktestCli.calc_units_usdjpy balance risk_pct entry_ stop in
  (entry_ == stop -> units = 0%Z)
  /\ (0 <= balance * risk_pct -> (0 <= units)%Z)
  /\ (balance * risk_pct <= 0 -> (units <= 0)%Z).
Proof.
  intro units. unfold units, BacktestCli.calc_units_usdjpy. cbv zeta.
  pose proof (abs_nonneg (entry_ - stop)) as Ha.
  destruct (Py.leb (Py.abs (entry_ - stop)) 0) eqn:Ez.
  - split; [reflexivity|]. split; intros _; lia.
  - apply leb_false in Ez. split; [|split].
    + intro E. exfalso.
      destruct (abs_cases (entry_ - stop)) as [[S1 E'] | [S1 E']];
        rewrite E' in Ez; lra.
    + intro Hr.
      assert (Hq : 0 <= balance * risk_pct / Py.abs (entry_ - stop)).
      { unfold Qdiv. apply Qmult_le_0_compat; [exact Hr|].
        apply Qinv_le_0_compat. lra. }
      exact (proj1 (int_bounds _ Hq)).
    + intro Hr. apply int_nonpos.
      assert (Hq : 0 <= (- (balance * risk_pct)) / Py.abs (entry_ - stop)).
      { unfold Qdiv. apply Qmult_le_0_compat; [lra|].
        apply Qinv_le_0_compat. lra. }
      assert (E : (- (balance * risk_pct)) / Py.abs (entry_ - stop)
                  == - (balance * risk_pct / Py.abs (entry_ - stop)))
        by (field; lra).
      lra.
Qed.

Lemma X6_units_sign_and_zero_guard_witness :
  BacktestCli.calc_units_usdjpy 10000 (1 # 100) 150 150 = 0%Z
  /\ (0 <= sample_units)%Z.
Proof.
  destruct (X6_units_sign_and_zero_guard 10000 (1 # 100) 150 150)
    as (H1 & _ & _).
  destruct (X6_units_sign_and_zero_guard 10000 (1 # 100) 150 149)
    as (_ & H2 & _).
  split; [apply H1; reflexivity | apply H2; lra].
Defined.

(** ** The statistics of backtest_cli.py *)

Lemma ratio_in_unit_interval (a b : nat) :
  (a <= b)%nat -> (0 < b)%nat ->
  0 <= inject_Z (Z.of_nat a) / inject_Z (Z.of_nat b)
  /\ inject_Z (Z.of_nat a) / inject_Z (Z.of_nat b) <= 1.
Proof.
  intros Hab Hb.
  assert (Hpos : 0 < inject_Z (Z.of_nat b)).
  { unfold Qlt. cbn. lia. }
  assert (Ha : 0 <= inject_Z (Z.of_nat a)).
  { unfold Qle. cbn. lia. }
  assert (Hle : inject_Z (Z.of_nat a) <= inject_Z (Z.of_nat b)).
  { unfold Qle. cbn. lia. }
  split.
  - apply Qle_shift_div_l; [exact Hpos | lra].
  - apply Qle_shift_div_r; [exact Hpos | lra].
Qed.

(** X7.  The win rate reported by the replay lies between 0 and 1, and is 0
    for an empty ledger (no division by zero). *)
Theorem X7_win_rate_in_unit_interval (ledger : list BacktestCli.ClosedTrade) :
  0 <= BacktestCli.win_rate ledger /\ BacktestCli.win_rate ledger <= 1
  /\ BacktestCli.win_rate [] = 0.
Proof.
  split; [|split; [|reflexivity]];
    (destruct ledger as [|c rest]; [cbn; lra|];
     unfold BacktestCli.win_rate;
     apply ratio_in_unit_interval; [apply List.filter_length_le | cbn; lia]).
Qed.

Lemma drawdown_scan_bounds (equities : list Q) :
  forall peak max_dd : Q,
    0 < peak -> 0 <= max_dd ->
    exists dd,
      BacktestCli.drawdown_scan equities peak max_dd = Some dd
      /\ max_dd <= dd
      /\ (Forall (fun e => 0 <= e) equities -> max_dd <= 1 -> dd <= 1).
Proof.
  induction equities as [|e rest IH]; intros peak max_dd Hp Hm; cbn.
  - exists max_dd. repeat split; auto; lra.
  - set (peak' := if Py.ltb peak e then e else peak).
    assert (Hp' : 0 < peak' /\ e <= peak').
    { unfold peak'. py_case; split; lra. }
    destruct Hp' as [Hp' He].
    assert (Ez : Py.eqb peak' 0 = false) by (apply eqb_false; lra).
    rewrite Ez.
    set (dd := (peak' - e) / peak').
    assert (Hdd : 0 <= dd).
    { unfold dd. apply Qle_shift_div_l; [exact Hp' | lra]. }
    set (m' := if Py.ltb max_dd dd then dd else max_dd).
    assert (Hm' : max_dd <= m' /\ dd <= m' /\ (m' = dd \/ m' = max_dd)).
    { unfold m'. py_case; repeat split; auto; lra. }
    destruct Hm' as (Hm1 & Hm2 & Hm3).
    destruct (IH peak' m' Hp' ltac:(lra)) as (r & Er & Hr1 & Hr2).
    exists r. split; [exact Er|]. split; [lra|].
    intros Hall Hone. apply Forall_cons_iff in Hall. destruct Hall as [He0 Hrest].
    apply Hr2; [exact Hrest|].
    assert (Hdd1 : dd <= 1).
    { unfold dd. apply Qle_shift_div_r; [exact Hp' | lra]. }
    destruct Hm3 as [-> | ->]; assumption.
Qed.

(** X8.  With a positive initial equity the drawdown scan never divides by
    zero, and the maximum drawdown it reports is not negative; when no
    equity point is negative it is at most 1. *)
Theorem X8_max_drawdown_bounds (initial_equity : Q) (curve : list (Z * Q)) :
  0 < initial_equity ->
  exists dd,
    BacktestCli.max_drawdown initial_equity curve = Some dd
    /\ 0 <= dd
    /\ (Forall (fun p => 0 <= snd p) curve -> dd <= 1).
Proof.
  intro Hpos. unfold BacktestCli.max_drawdown.
  destruct (drawdown_scan_bounds (map snd curve) initial_equity 0 Hpos ltac:(lra))
    as (dd & E & H1 & H2).
  exists dd. split; [exact E|]. split; [exact H1|].
  intro Hall. apply H2; [|lra].
  apply List.Forall_forall. intros e He. apply in_map_iff in He.
  destruct He as (p & <- & Hin). rewrite List.Forall_forall in Hall. auto.
Qed.

Lemma X8_max_drawdown_bounds_witness :
  exists dd,
    BacktestCli.max_drawdown 10000 sample_curve = Some dd /\ 0 <= dd.
Proof.
  destruct (X8_max_drawdown_bounds 10000 sample_curve) as (dd & E & H & _).
  - lra.
  - exists dd. split; [exact E | exact H].
Defined.

(** With an initial equity of zero and a curve that never rises above it,
    the same scan divides by zero. *)
Lemma max_drawdown_zero_equity_raises :
  BacktestCli.max_drawdown 0 [(0%Z, 0)] = None.
Proof. reflexivity. Qed.

(** ** [manage_position] (strategy.py, strategy_v10.py) *)

Lemma apply_breakeven_managed (p : Strategy.Position) (price : Q) :
  managed p ->
  let p1 := Strategy.apply_breakeven p price in
  managed p1
  /\ Strategy.action p1 = Strategy.action p
  /\ Strategy.entry p1 = Strategy.entry p
  /\ (Strategy.breakeven p1 = false ->
      p1 = p /\ Py.abs (Strategy.pips_of p price) < Strategy.risk_pips_of p).
Proof.
  intro Hm. unfold Strategy.apply_breakeven, Strategy.breakeven_fires.
  destruct (Strategy.breakeven p) eqn:Hf; cbn.
  - rewrite Hf. repeat split; auto. discriminate.
  - py_case; cbn.
    + repeat split; try discriminate.
      unfold managed. cbn. apply tightened_refl.
    + rewrite Hf. repeat split; auto.
Qed.

Lemma trail_managed (tier mult risk pips atr_ price : Q) (p : Strategy.Position) :
  managed p -> Strategy.breakeven p = true ->
  managed (Strategy.trail tier mult risk pips atr_ price p).
Proof.
  intros Hm Hf.
  destruct (trail_tightens tier mult risk pips atr_ price p)
    as (Ha & He & Hb & Ht).
  unfold managed in *. rewrite Hb, Hf, Ha, He in *.
  eapply tightened_trans; eassumption.
Qed.

(** Lines 428-459 keep a position managed. *)
Lemma update_stop_managed (p : Strategy.Position) (price : Q) :
  managed p ->
  let p' := Strategy.update_stop p price in
  managed p'
  /\ Strategy.action p' = Strategy.action p
  /\ Strategy.entry p' = Strategy.entry p
  /\ Strategy.size p' = Strategy.size p
  /\ (Strategy.breakeven p' = false ->
      p' = p /\ Py.abs (Strategy.pips_of p price) < Strategy.risk_pips_of p).
Proof.
  intro Hm. unfold Strategy.update_stop.
  set (atr_ := match Strategy.atr p with Some a => a | None => 1 # 1000 end).
  set (pips := Strategy.pips_of p price).
  set (risk := Strategy.risk_pips_of p).
  destruct (apply_breakeven_managed p price Hm) as (Hm1 & Ha1 & He1 & Hidle).
  set (p1 := Strategy.apply_breakeven p price) in *.
  assert (Hs1 : Strategy.size p1 = Strategy.size p).
  { unfold p1, Strategy.apply_breakeven.
    destruct (Strategy.breakeven_fires p price); reflexivity. }
  pose proof (risk_pips_nonneg p) as Hr. fold risk in Hr.
  destruct (Strategy.breakeven p1) eqn:Hf1.
  - pose proof (trail_managed 2 2 risk pips atr_ price p1 Hm1 Hf1) as Hm2.
    destruct (trail_tightens 2 2 risk pips atr_ price p1) as (Ha2 & He2 & Hb2 & _).
    set (p2 := Strategy.trail 2 2 risk pips atr_ price p1) in *.
    assert (Hf2 : Strategy.breakeven p2 = true) by congruence.
    pose proof (trail_managed 3 (3 # 2) risk pips atr_ price p2 Hm2 Hf2) as Hm3.
    destruct (trail_tightens 3 (3 # 2) risk pips atr_ price p2)
      as (Ha3 & He3 & Hb3 & _).
    assert (Hsz : forall t m q, Strategy.size (Strategy.trail t m risk pips atr_ price q)
                                = Strategy.size q).
    { intros t m q. unfold Strategy.trail.
      repeat match goal with
      | |- context [if ?c then _ else _] => destruct c
      end; reflexivity. }
    cbv zeta. fold p2.
    split; [exact Hm3|]. split; [congruence|]. split; [congruence|].
    split; [rewrite Hsz; unfold p2; rewrite Hsz; exact Hs1|].
    intro Hf. congruence.
  - destruct (Hidle eq_refl) as [E Hlt]. fold pips risk in Hlt.
    cbv zeta. fold p1. rewrite (trail_idle 2 2) by lra.
    rewrite (trail_idle 3 (3 # 2)) by lra.
    split; [exact Hm1|]. split; [exact Ha1|]. split; [exact He1|].
    split; [exact Hs1|]. intros _. split; [exact E | exact Hlt].
Qed.

(** X9.  On a position under management with a non-negative size, a
    stop-loss exit of [manage_position] never realises a loss: the stop is
    only ever hit after the breakeven move (which also fires when the price
    reaches the initial stop), so the exit price is on the entry or on its
    profit side. *)
Theorem X9_stop_loss_exit_never_loses
    (p : Strategy.Position) (current_price : Q) (current_time : Z)
    (price pnl : Q) :
  managed p ->
  0 <= Strategy.size p ->
  Strategy.event (Strategy.manage_position p current_price current_time)
  = Some (Strategy.Close price pnl Strategy.StopLossHit) ->
  0 <= pnl
  /\ Strategy.breakeven
       (Strategy.dict (Strategy.manage_position p current_price current_time))
     = true
  /\ tightened (Strategy.action p) (Strategy.entry p) price.
Proof.
  intros Hm Hsize.
  destruct (update_stop_managed p current_price Hm)
    as (Hm3 & Ha3 & He3 & _ & Hidle).
  unfold Strategy.manage_position.
  set (p3 := Strategy.update_stop p current_price) in *.
  destruct (_ <? _)%Z; [cbn; discriminate|].
  match goal with
  | |- context [if ?c then _ else _] => destruct c eqn:Hstop
  end.
  2:{ repeat match goal with
      | |- context [if ?c then _ else _] => destruct c
      end; cbn; discriminate. }
  cbn [Strategy.event Strategy.dict]. intros [= <- <-].
  assert (Hf : Strategy.breakeven p3 = true).
  { destruct (Strategy.breakeven p3) eqn:Hf; [reflexivity|exfalso].
    destruct (Hidle eq_refl) as [E Hlt].
    rewrite E in Hstop. unfold managed in Hm.
    rewrite E in Hf. rewrite Hf in Hm.
    unfold Strategy.risk_pips_of, Strategy.pips_of, tightened in *.
    apply orb_true_iff in Hstop.
    destruct Hstop as [H | H]; apply andb_true_iff in H;
      destruct H as [Hdir Hle]; apply leb_true in Hle.
    - rewrite Hdir in *.
      destruct (abs_cases (Strategy.entry p - Strategy.sl p)) as [[S1 E1] | [S1 E1]];
        destruct (abs_cases ((current_price - Strategy.entry p) * 100))
          as [[S2 E2] | [S2 E2]]; rewrite E1, E2 in Hlt; lra.
    - assert (Hb : is_buy (Strategy.action p) = false)
        by (destruct (Strategy.action p); auto; discriminate).
      rewrite Hb in *.
      destruct (abs_cases (Strategy.entry p - Strategy.sl p)) as [[S1 E1] | [S1 E1]];
        destruct (abs_cases ((Strategy.entry p - current_price) * 100))
          as [[S2 E2] | [S2 E2]]; rewrite E1, E2 in Hlt; lra. }
  unfold managed in Hm3. rewrite Hf, Ha3, He3 in Hm3.
  split; [|split; [exact Hf | exact Hm3]].
  rewrite Ha3. unfold tightened in Hm3.
  destruct (is_buy (Strategy.action p)); nra.
Qed.

Lemma X9_stop_loss_exit_never_loses_witness :
  exists price pnl : Q,
    Strategy.event (Strategy.manage_position sample_long 99 900)
    = Some (Strategy.Close price pnl Strategy.StopLossHit)
    /\ 0 <= pnl.
Proof.
  eexists. eexists. split; [vm_compute; reflexivity|].
  refine (proj1 (X9_stop_loss_exit_never_loses sample_long 99 900 _ _ _ _ _)).
  - cbn. lra.
  - cbn. lra.
  - vm_compute. reflexivity.
Defined.

(** Lines 428-459 touch the stop and the breakeven flag only. *)
Lemma update_stop_keeps (p : Strategy.Position) (price : Q) :
  let p' := Strategy.update_stop p price in
  Strategy.size p' = Strategy.size p
  /\ Strategy.partial_taken p' = Strategy.partial_taken p
  /\ Strategy.partial2_taken p' = Strategy.partial2_taken p.
Proof.
  unfold Strategy.update_stop, Strategy.trail, Strategy.apply_breakeven.
  repeat match goal with
  | |- context [if ?c then _ else _] => destruct c
  end; cbn; auto.
Qed.

(** One call and the two partial-close flags. *)
Lemma manage_position_partials (p : Strategy.Position) (price : Q) (time : Z) :
  let r := Strategy.manage_position p price time in
  (forall p', Strategy.returned r = Some p' -> p' = Strategy.dict r)
  /\ (Strategy.partial_taken p = true ->
      Strategy.partial_taken (Strategy.dict r) = true
      /\ Strategy.reason_of r <> Some Strategy.PartialAt2R)
  /\ (Strategy.partial2_taken p = true ->
      Strategy.partial2_taken (Strategy.dict r) = true
      /\ Strategy.reason_of r <> Some Strategy.SecondPartialAt3R)
  /\ (Strategy.reason_of r = Some Strategy.PartialAt2R ->
      Strategy.partial_taken (Strategy.dict r) = true)
  /\ (Strategy.reason_of r = Some Strategy.SecondPartialAt3R ->
      Strategy.partial_taken p = true
      /\ Strategy.partial2_taken (Strategy.dict r) = true).
Proof.
  destruct (update_stop_keeps p price) as (_ & H1 & H2).
  unfold Strategy.manage_position.
  set (p3 := Strategy.update_stop p price) in *.
  assert (Hleaf : forall r : Strategy.Managed,
            (Strategy.returned r = None
             \/ Strategy.returned r = Some (Strategy.dict r)) ->
            (Strategy.partial_taken p = true ->
             Strategy.partial_taken (Strategy.dict r) = true
             /\ Strategy.reason_of r <> Some Strategy.PartialAt2R) ->
            (Strategy.partial2_taken p = true ->
             Strategy.partial2_taken (Strategy.dict r) = true
             /\ Strategy.reason_of r <> Some Strategy.SecondPartialAt3R) ->
            (Strategy.reason_of r = Some Strategy.PartialAt2R ->
             Strategy.partial_taken (Strategy.dict r) = true) ->
            (Strategy.reason_of r = Some Strategy.SecondPartialAt3R ->
             Strategy.partial_taken p = true
             /\ Strategy.partial2_taken (Strategy.dict r) = true) ->
            (forall p', Strategy.returned r = Some p' -> p' = Strategy.dict r)
            /\ (Strategy.partial_taken p = true ->
                Strategy.partial_taken (Strategy.dict r) = true
                /\ Strategy.reason_of r <> Some Strategy.PartialAt2R)
            /\ (Strategy.partial2_taken p = true ->
                Strategy.partial2_taken (Strategy.dict r) = true
                /\ Strategy.reason_of r <> Some Strategy.SecondPartialAt3R)
            /\ (Strategy.reason_of r = Some Strategy.PartialAt2R ->
                Strategy.partial_taken (Strategy.dict r) = true)
            /\ (Strategy.reason_of r = Some Strategy.SecondPartialAt3R ->
                Strategy.partial_taken p = true
                /\ Strategy.partial2_taken (Strategy.dict r) = true)).
  { intros r Hret Ha Hb Hc Hd.
    split; [|split; [exact Ha|split; [exact Hb|split; [exact Hc|exact Hd]]]].
    intros p' Hp'. destruct Hret as [Hn | Hs]; congruence. }
  cbv zeta.
  destruct (_ <? _)%Z.
  { apply Hleaf; cbn; auto; try discriminate; intro Hx; split;
      auto; discriminate. }
  destruct (_ || _).
  { apply Hleaf; cbn; auto; try discriminate; intro Hx; split;
      try congruence; discriminate. }
  destruct (_ || _).
  { apply Hleaf; cbn; auto; try discriminate; intro Hx; split;
      try congruence; discriminate. }
  destruct (Strategy.partial_taken p3) eqn:Hp1; cbn [negb andb].
  - destruct (Strategy.partial2_taken p3) eqn:Hp2; cbn [negb andb].
    + apply Hleaf; cbn; auto; try discriminate; intro Hx; split;
        try congruence; discriminate.
    + destruct (Py.leb _ _).
      * apply Hleaf; cbn; auto; try discriminate; intro Hx; split;
          try congruence; try discriminate.
      * apply Hleaf; cbn; auto; try discriminate; intro Hx; split;
          try congruence; discriminate.
  - destruct (Py.leb _ _); cbn [negb andb].
    + apply Hleaf; cbn; auto; try discriminate; intro Hx; split;
        try congruence; try discriminate.
    + rewrite andb_false_r. cbn [andb].
      apply Hleaf; cbn; auto; try discriminate; intro Hx; split;
        try congruence; discriminate.
Qed.

Lemma count_partial_2r (ticks : list (Q * Z)) :
  forall p : Strategy.Position,
    (count_reason Strategy.PartialAt2R (Strategy.manage_trace p ticks)
     <= if Strategy.partial_taken p then 0 else 1)%nat.
Proof.
  induction ticks as [|[price time] rest IH]; intro p;
    [destruct (Strategy.partial_taken p); cbn; lia|].
  cbn [Strategy.manage_trace].
  destruct (manage_position_partials p price time) as (Hret & Hkeep & _ & Hset & _).
  set (r := Strategy.manage_position p price time) in *.
  unfold count_reason in *. cbn [List.filter].
  assert (Hrest : (length
            (List.filter
               (fun r0 => match Strategy.reason_of r0, Strategy.PartialAt2R with
                          | Some Strategy.PartialAt2R, Strategy.PartialAt2R => true
                          | Some Strategy.SecondPartialAt3R, Strategy.SecondPartialAt3R => true
                          | Some Strategy.StopLossHit, Strategy.StopLossHit => true
                          | Some Strategy.TakeProfitHit, Strategy.TakeProfitHit => true
                          | Some Strategy.TimeExit, Strategy.TimeExit => true
                          | _, _ => false
                          end)
               match Strategy.returned r with
               | Some p' => Strategy.manage_trace p' rest
               | None => []
               end)
          <= if Strategy.partial_taken (Strategy.dict r) then 0 else 1)%nat).
  { destruct (Strategy.returned r) as [p'|] eqn:Er.
    - rewrite (Hret p' eq_refl). apply IH.
    - cbn. destruct (Strategy.partial_taken (Strategy.dict r)); lia. }
  destruct (Strategy.partial_taken p) eqn:Hp.
  - destruct (Hkeep eq_refl) as [Hd Hne]. rewrite Hd in Hrest.
    destruct (Strategy.reason_of r) as [[]|]; try congruence; cbn [length]; lia.
  - destruct (Strategy.reason_of r) as [[]|] eqn:Hr; cbn [length];
      try (destruct (Strategy.partial_taken (Strategy.dict r)); lia).
    rewrite (Hset eq_refl) in Hrest. lia.
Qed.

Lemma count_partial_3r (ticks : list (Q * Z)) :
  forall p : Strategy.Position,
    (count_reason Strategy.SecondPartialAt3R (Strategy.manage_trace p ticks)
     <= if Strategy.partial2_taken p then 0 else 1)%nat.
Proof.
  induction ticks as [|[price time] rest IH]; intro p;
    [destruct (Strategy.partial2_taken p); cbn; lia|].
  cbn [Strategy.manage_trace].
  destruct (manage_position_partials p price time) as (Hret & _ & Hkeep & _ & Hset).
  set (r := Strategy.manage_position p price time) in *.
  unfold count_reason in *. cbn [List.filter].
  assert (Hrest : (length
            (List.filter
               (fun r0 => match Strategy.reason_of r0, Strategy.SecondPartialAt3R with
                          | Some Strategy.PartialAt2R, Strategy.PartialAt2R => true
                          | Some Strategy.SecondPartialAt3R, Strategy.SecondPartialAt3R => true
                          | Some Strategy.StopLossHit, Strategy.StopLossHit => true
                          | Some Strategy.TakeProfitHit, Strategy.TakeProfitHit => true
                          | Some Strategy.TimeExit, Strategy.TimeExit => true
                          | _, _ => false
                          end)
               match Strategy.returned r with
               | Some p' => Strategy.manage_trace p' rest
               | None => []
               end)
          <= if Strategy.partial2_taken (Strategy.dict r) then 0 else 1)%nat).
  { destruct (Strategy.returned r) as [p'|] eqn:Er.
    - rewrite (Hret p' eq_refl). apply IH.
    - cbn. destruct (Strategy.partial2_taken (Strategy.dict r)); lia. }
  destruct (Strategy.partial2_taken p) eqn:Hp.
  - destruct (Hkeep eq_refl) as [Hd Hne]. rewrite Hd in Hrest.
    destruct (Strategy.reason_of r) as [[]|]; try congruence; cbn [length]; lia.
  - destruct (Strategy.reason_of r) as [[]|] eqn:Hr; cbn [length];
      try (destruct (Strategy.partial2_taken (Strategy.dict r)); lia).
    rewrite (proj2 (Hset eq_refl)) in Hrest. lia.
Qed.

(** X10.  Over any run of successive [manage_position] calls on one
    position, the partial close at 2R happens at most once and the second
    partial at 3R at most once; the second partial is only ever taken on a
    position whose first partial has been taken on an earlier call. *)
Theorem X10_partials_at_most_once
    (p : Strategy.Position) (ticks : list (Q * Z)) (price : Q) (time : Z) :
  (count_reason Strategy.PartialAt2R (Strategy.manage_trace p ticks) <= 1)%nat
  /\ (count_reason Strategy.SecondPartialAt3R (Strategy.manage_trace p ticks)
      <= 1)%nat
  /\ (Strategy.reason_of (Strategy.manage_position p price time)
      = Some Strategy.SecondPartialAt3R ->
      Strategy.partial_taken p = true).
Proof.
  split; [|split].
  - pose proof (count_partial_2r ticks p).
    destruct (Strategy.partial_taken p); lia.
  - pose proof (count_partial_3r ticks p).
    destruct (Strategy.partial2_taken p); lia.
  - intro H.
    destruct (manage_position_partials p price time) as (_ & _ & _ & _ & Hs).
    exact (proj1 (Hs H)).
Qed.

(** X11.  A call of [manage_position] never enlarges a position.  For a
    size that is not negative, the size the dictionary keeps and the size a
    partial close reports are both between 0 and the size the call started
    with, and a call without a partial close leaves the size alone. *)
Theorem X11_partial_close_only_shrinks
    (p : Strategy.Position) (price : Q) (time : Z) :
  0 <= Strategy.size p ->
  let r := Strategy.manage_position p price time in
  (0 <= Strategy.size (Strategy.dict r)
   /\ Strategy.size (Strategy.dict r) <= Strategy.size p)
  /\ (0 <= closed_size r /\ closed_size r <= Strategy.size p)
  /\ ((forall price' pnl size' reason,
         Strategy.event r
         <> Some (Strategy.PartialClose price' pnl size' reason)) ->
      Strategy.size (Strategy.dict r) = Strategy.size p).
Proof.
  intro Hsz.
  destruct (update_stop_keeps p price) as (Hs & _ & _).
  unfold Strategy.manage_position, closed_size.
  set (p3 := Strategy.update_stop p price) in *.
  cbv zeta.
  repeat match goal with
  | |- context [if ?c then _ else _] => destruct c
  end; cbn; rewrite ?Hs;
    (split; [split; lra|]; split; [split; lra|]);
    intro Hno; try reflexivity; exfalso; eapply Hno; reflexivity.
Qed.

Lemma X11_partial_close_only_shrinks_witness :
  Strategy.size (Strategy.dict (Strategy.manage_position sample_long 102 900))
  <= Strategy.size sample_long.
Proof.
  refine (proj2 (proj1 (X11_partial_close_only_shrinks sample_long 102 900 _))).
  vm_compute. discriminate.
Defined.

(** ** [calculate_position_size] (strategy.py, strategy_v10.py) *)

Lemma inject_Z_div_100_le (a b : Z) :
  (a <= b)%Z -> inject_Z a / 100 <= inject_Z b / 100.
Proof.
  intro H. apply Qmult_le_compat_r; [|unfold Qle; cbn; lia].
  rewrite <- Zle_Qle. exact H.
Qed.

(** [round(x, 2)] stays between two multiples of 0.01 that enclose [x]. *)
Lemma round2_between (a b : Z) (x : Q) :
  inject_Z a / 100 <= x -> x <= inject_Z b / 100 ->
  inject_Z a / 100 <= Py.round2 x /\ Py.round2 x <= inject_Z b / 100.
Proof.
  intros Ha Hb. unfold Py.round2.
  set (y := x * 100).
  assert (Hya : inject_Z a <= y).
  { unfold y.
    assert (H100 : inject_Z a / 100 * 100 == inject_Z a) by (field).
    rewrite <- H100. apply Qmult_le_compat_r; [exact Ha | lra]. }
  assert (Hyb : y <= inject_Z b).
  { unfold y.
    assert (H100 : inject_Z b / 100 * 100 == inject_Z b) by (field).
    rewrite <- H100. apply Qmult_le_compat_r; [exact Hb | lra]. }
  set (f := Qfloor y).
  assert (Hfa : (a <= f)%Z).
  { unfold f. rewrite <- (Qfloor_Z a). apply Qfloor_resp_le. exact Hya. }
  assert (Hfb : (f <= b)%Z).
  { unfold f. rewrite <- (Qfloor_Z b). apply Qfloor_resp_le. exact Hyb. }
  assert (Hfl : inject_Z f <= y) by apply Qfloor_le.
  assert (Hup : forall r, 1 # 2 <= y - inject_Z f -> r = (f + 1)%Z -> (r <= b)%Z).
  { intros r Hr ->.
    destruct (Z.eq_dec f b) as [E | N]; [|lia].
    exfalso. rewrite E in Hr. lra. }
  assert (Hn : forall n, (n = f \/ (n = (f + 1)%Z /\ 1 # 2 <= y - inject_Z f)) ->
               inject_Z a / 100 <= inject_Z n / 100
               /\ inject_Z n / 100 <= inject_Z b / 100).
  { intros n [-> | [-> Hr]]; split; apply inject_Z_div_100_le; try lia.
    apply (Hup (f + 1)%Z Hr eq_refl). }
  apply Hn.
  py_case; [left; reflexivity|].
  py_case; [right; split; [reflexivity | lra]|].
  destruct (Z.even f); [left; reflexivity | right; split; [reflexivity | lra]].
Qed.

Lemma position_size_bounds
    (account_balance entry_price stop_loss signal_strength : Q) :
  Strategy.min_position_size
  <= Strategy.calculate_position_size account_balance entry_price stop_loss
       signal_strength
  /\ Strategy.calculate_position_size account_balance entry_price stop_loss
       signal_strength
     <= Strategy.max_position_size.
Proof.
  unfold Strategy.calculate_position_size, Strategy.min_position_size,
    Strategy.max_position_size.
  destruct (Py.eqb _ 0); [split; lra|].
  set (v := account_balance * Strategy.risk_per_trade * signal_strength
            / (Py.abs (entry_price - stop_loss) * 100 * 10)).
  assert (Hc : inject_Z 1 / 100 <= Py.max (1 # 100) (Py.min v (8 # 10))
               /\ Py.max (1 # 100) (Py.min v (8 # 10)) <= inject_Z 80 / 100).
  { split.
    - pose proof (max_ge_l (1 # 100) (Py.min v (8 # 10))).
      assert (E : inject_Z 1 / 100 == 1 # 100) by reflexivity. lra.
    - pose proof (min_le_r v (8 # 10)).
      assert (E : inject_Z 80 / 100 == 8 # 10) by reflexivity.
      destruct (max_cases (1 # 100) (Py.min v (8 # 10))) as [-> | ->]; lra. }
  destruct (round2_between 1 80 _ (proj1 Hc) (proj2 Hc)) as [H1 H2].
  assert (E1 : inject_Z 1 / 100 == 1 # 100) by reflexivity.
  assert (E2 : inject_Z 80 / 100 == 8 # 10) by reflexivity.
  split; lra.
Qed.

(** X12.  [calculate_position_size] of strategy.py and strategy_v10.py
    always returns a size between the minimum lot 0.01 and the cap 0.8,
    whatever the balance, the prices and the strength are (a zero stop
    distance included). *)
Theorem X12_position_size_within_caps
    (account_balance entry_price stop_loss signal_strength : Q) :
  Strategy.min_position_size
  <= Strategy.calculate_position_size account_balance entry_price stop_loss
       signal_strength
  /\ Strategy.calculate_position_size account_balance entry_price stop_loss
       signal_strength
     <= Strategy.max_position_size.
Proof.
  apply position_size_bounds.
Qed.

(** ** [generate_signal] of strategy.py *)

(** Every candidate is entered at the close.  When the ATR of the row is
    not negative, its stop is on one side of the entry (or on it) and its
    target on the other. *)
Lemma candidates_shape (c : Strategy.Current) (x : Strategy.Candidate) :
  In x (Strategy.candidates c) ->
  Strategy.cand_entry x = Strategy.c_close c
  /\ (0 <= Strategy.c_atr c ->
      if is_buy (Strategy.cand_action x)
      then Strategy.cand_sl x <= Strategy.cand_entry x
           /\ Strategy.cand_entry x <= Strategy.cand_tp x
      else Strategy.cand_tp x <= Strategy.cand_entry x
           /\ Strategy.cand_entry x <= Strategy.cand_sl x).
Proof.
  unfold Strategy.candidates. cbv zeta. intro H.
  apply in_app_or in H. destruct H as [H | H];
    repeat match type of H with
    | In _ (if ?b then _ else _) => destruct b
    end; cbn in H; try contradiction;
    destruct H as [H | []]; subst x; cbn; (split; [reflexivity|]);
    unfold Strategy.sl_atr_mult, Strategy.tp_rr; intro Ha; split; lra.
Qed.

(** X13.  Every BUY or SELL that [generate_signal] of strategy.py returns
    comes from a frame of at least 100 bars inside the session, is entered
    at the close, and has a size between 0.01 and 0.8 lot.  When the ATR of
    the last row is not negative, the stop is not above the entry and the
    target not below it for a BUY, and the other way round for a SELL. *)
Theorem X13_emitted_signal_shape
    (balance : Q) (df : Strategy.Frame) (m : Strategy.Memory)
    (a : Action) (entry_ sl_ tp_ size_ : Q) (k : Strategy.Kind) :
  fst (Strategy.generate_signal balance df m)
  = Strategy.Emit a entry_ sl_ tp_ size_ k ->
  (a = BUY \/ a = SELL)
  /\ (100 <= Strategy.len_df df)%Z
  /\ Strategy.is_trading_session_active (Strategy.current_time df) = true
  /\ entry_ = Strategy.c_close (Strategy.current df)
  /\ (0 <= Strategy.c_atr (Strategy.current df) ->
      (a = BUY -> sl_ <= entry_ /\ entry_ <= tp_)
      /\ (a = SELL -> tp_ <= entry_ /\ entry_ <= sl_))
  /\ 1 # 100 <= size_ /\ size_ <= 8 # 10.
Proof.
  unfold Strategy.generate_signal.
  destruct (Strategy.len_df df <? 100)%Z eqn:Hlen; [cbn; discriminate|].
  apply Z.ltb_ge in Hlen.
  destruct (Strategy.is_trading_session_active (Strategy.current_time df))
    eqn:Hsess; [|cbn; discriminate]. cbn [negb].
  match goal with
  | |- context [if negb ?c then _ else _] => destruct c
  end; cbn [negb]; [|cbn; discriminate].
  destruct (Strategy.sort_by_strength (Strategy.candidates (Strategy.current df)))
    as [|signal rest] eqn:Hs; [cbn; discriminate|].
  assert (Hin : In signal (Strategy.candidates (Strategy.current df))).
  { apply sort_by_strength_in. rewrite Hs. left. reflexivity. }
  pose proof (candidates_are_entries _ _ Hin) as Hact.
  destruct (candidates_shape _ _ Hin) as [He Hside].
  destruct (Py.ltb _ Strategy.min_position_size); [cbn; discriminate|].
  cbn [fst]. intros [= <- <- <- <- <- <-].
  pose proof (position_size_bounds balance (Strategy.cand_entry signal)
                (Strategy.cand_sl signal) (Strategy.strength signal)) as [B1 B2].
  unfold Strategy.min_position_size, Strategy.max_position_size in *.
  split; [destruct (Strategy.cand_action signal); auto; congruence|].
  split; [exact Hlen|]. split; [reflexivity|]. split; [exact He|].
  split; [|split; assumption].
  intro Ha. specialize (Hside Ha).
  split; intro Ea; rewrite Ea in Hside; exact Hside.
Qed.

Lemma X13_emitted_signal_shape_witness :
  exists sl_ tp_ size_ : Q,
    fst (Strategy.generate_signal 10000 bullish_frame Strategy.initial_memory)
    = Strategy.Emit BUY 150 sl_ tp_ size_ Strategy.HighConfidence
    /\ 1 # 100 <= size_.
Proof.
  eexists. eexists. eexists. split; [vm_compute; reflexivity|].
  refine (proj1 (proj2 (proj2 (proj2 (proj2 (proj2
            (X13_emitted_signal_shape 10000 bullish_frame
               Strategy.initial_memory BUY 150 _ _ _ _ _))))))).
  vm_compute. reflexivity.
Defined.

Lemma hours_below_half (z : Z) :
  (z < 1800)%Z -> Py.leb (1 # 2) (inject_Z z / 3600) = false.
Proof.
  intro H. apply leb_false. apply Qlt_shift_div_r; [lra|].
  assert (E : (1 # 2) * 3600 == inject_Z 1800) by reflexivity.
  rewrite E. rewrite <- Zlt_Qlt. exact H.
Qed.

(** X14.  After [generate_signal] of strategy.py has returned a BUY or a
    SELL, a call on a frame that is fewer than 2 bars longer, or whose last
    bar is less than half an hour later, returns HOLD and leaves the
    cooldown memory as the emission set it. *)
Theorem X14_cooldown_after_emission
    (balance balance' : Q) (df df' : Strategy.Frame) (m : Strategy.Memory) :
  Strategy.action_of (fst (Strategy.generate_signal balance df m)) <> HOLD ->
  (Strategy.len_df df' - Strategy.len_df df < 2)%Z
  \/ (Strategy.current_time df' - Strategy.current_time df < 1800)%Z ->
  let m' := snd (Strategy.generate_signal balance df m) in
  Strategy.action_of (fst (Strategy.generate_signal balance' df' m')) = HOLD
  /\ snd (Strategy.generate_signal balance' df' m') = m'.
Proof.
  intros Hemit Hsoon m'.
  destruct (strategy_memory_frame balance df m) as [_ Hset].
  cbv zeta in Hset. specialize (Hset Hemit).
  assert (Hhold : Strategy.action_of
                    (fst (Strategy.generate_signal balance' df' m')) = HOLD).
  { subst m'. rewrite Hset. unfold Strategy.generate_signal.
    destruct (Strategy.len_df df' <? 100)%Z; [reflexivity|].
    destruct (negb (Strategy.is_trading_session_active
                      (Strategy.current_time df'))); [reflexivity|].
    cbn [Strategy.last_signal_idx Strategy.last_signal_time].
    assert (Hc : (Strategy.cooldown_bars
                    <=? Strategy.len_df df' - 1 - (Strategy.len_df df - 1))%Z
                 && Py.leb Strategy.min_hours_between_trades
                      (inject_Z (Strategy.current_time df'
                                 - Strategy.current_time df) / 3600) = false).
    { destruct Hsoon as [Hb | Ht].
      - assert (E : (Strategy.cooldown_bars
                       <=? Strategy.len_df df' - 1 - (Strategy.len_df df - 1))%Z
                    = false).
        { apply Z.leb_gt. unfold Strategy.cooldown_bars. lia. }
        rewrite E. reflexivity.
      - unfold Strategy.min_hours_between_trades.
        rewrite (hours_below_half _ Ht). apply andb_false_r. }
    rewrite Hc. reflexivity. }
  split; [exact Hhold|].
  destruct (strategy_memory_frame balance' df' m') as [Hkeep _].
  apply Hkeep. exact Hhold.
Qed.

Lemma X14_cooldown_after_emission_witness :
  Strategy.action_of
    (fst (Strategy.generate_signal 10000 next_frame
            (snd (Strategy.generate_signal 10000 bullish_frame
                    Strategy.initial_memory)))) = HOLD.
Proof.
  refine (proj1 (X14_cooldown_after_emission 10000 10000 bullish_frame
                   next_frame Strategy.initial_memory _ _)).
  - vm_compute. discriminate.
  - left. vm_compute. reflexivity.
Defined.

(** ** strategy_backup.py and strategy_backup_optimized.py *)

(** X15.  With a non-negative risk amount and a positive entry price,
    [calculate_position_size] of both backup variants returns a size between
    0 and the cap of 1 lot. *)
Theorem X15_backup_size_within_cap (risk_amount entry_ stop : Q) :
  0 <= risk_amount -> 0 < entry_ ->
  (0 <= StrategyBackup.calculate_position_size risk_amount entry_ stop
   /\ StrategyBackup.calculate_position_size risk_amount entry_ stop <= 1)
  /\ (0 <= StrategyBackup.calculate_position_size_optimized risk_amount entry_ stop
      /\ StrategyBackup.calculate_position_size_optimized risk_amount entry_ stop
         <= 1).
Proof.
  intros Hr He.
  assert (Hmin : forall v, 0 <= v -> 0 <= Py.min v 1 /\ Py.min v 1 <= 1).
  { intros v Hv. split; [|apply min_le_r].
    destruct (min_cases v 1) as [-> | ->]; lra. }
  unfold StrategyBackup.calculate_position_size,
    StrategyBackup.calculate_position_size_optimized.
  destruct (Py.eqb entry_ 0 || Py.eqb stop 0); [repeat split; lra|].
  destruct (Py.eqb (Py.abs (entry_ - stop) * 100) 0) eqn:Ez;
    [repeat split; lra|].
  apply eqb_false in Ez.
  pose proof (abs_nonneg (entry_ - stop)) as Ha.
  assert (Hp : 0 < Py.abs (entry_ - stop) * 100).
  { destruct (Qlt_le_dec 0 (Py.abs (entry_ - stop) * 100)) as [H | H];
      [exact H|]. exfalso. apply Ez. lra. }
  split; apply Hmin.
  - unfold Qdiv. apply Qmult_le_0_compat; [|apply Qinv_le_0_compat; lra].
    apply Qmult_le_0_compat; [exact Hr|]. apply Qinv_le_0_compat. lra.
  - unfold Qdiv. apply Qmult_le_0_compat; [exact Hr|].
    apply Qinv_le_0_compat. apply Qmult_le_0_compat; [lra|].
    apply Qmult_le_0_compat; [lra|]. apply Qinv_le_0_compat. lra.
Qed.

Lemma X15_backup_size_within_cap_witness :
  StrategyBackup.calculate_position_size 100 150 (14874 # 100) <= 1
  /\ 0 <= StrategyBackup.calculate_position_size_optimized 100 150 (14874 # 100).
Proof.
  destruct (X15_backup_size_within_cap 100 150 (14874 # 100))
    as [[_ H1] [H2 _]].
  - lra.
  - lra.
  - split; [exact H1 | exact H2].
Defined.

(** The size of strategy_backup.py is capped at 1 lot. *)
Lemma backup_size_capped (risk_amount entry_ stop : Q) :
  StrategyBackup.calculate_position_size risk_amount entry_ stop <= 1.
Proof.
  unfold StrategyBackup.calculate_position_size.
  repeat match goal with
  | |- context [if ?c then _ else _] => destruct c
  end; try lra. apply min_le_r.
Qed.

Lemma count_bounds (b : bool) :
  (0 <= StrategyBackup.count b <= 1)%Z.
Proof. destruct b; cbn; lia. Qed.

(** A size above 0.01 lot is not the 0 of the guards of strategy_backup.py:
    the stop is off the entry. *)
Lemma backup_size_off_entry (risk_amount entry_ stop : Q) :
  1 # 100 < StrategyBackup.calculate_position_size risk_amount entry_ stop ->
  ~ stop == entry_.
Proof.
  unfold StrategyBackup.calculate_position_size.
  destruct (Py.eqb entry_ 0 || Py.eqb stop 0); [intro H; lra|].
  destruct (Py.eqb (Py.abs (entry_ - stop) * 100) 0) eqn:Ez; [intro H; lra|].
  intros _ E. apply eqb_false in Ez. apply Ez. apply abs_of_zero. lra.
Qed.

(** X16.  Every BUY or SELL returned by [_generate_original_signal] of
    strategy_backup.py comes from a frame of at least 400 bars in a good
    trading hour with both cooldowns elapsed, is entered at the close with
    its stop off the entry, has a size above 0.01 and at most 1 lot, and a
    confluence score between 6 and 8.  When the ATR, [sl_atr_mult] and
    [tp_rr] are not negative, the stop is below the entry and the target
    not below it for a BUY, and the other way round for a SELL. *)
Theorem X16_backup_emitted_signal_shape
    (cfg : StrategyBackup.Params) (df : StrategyBackup.Frame)
    (m : StrategyBackup.Memory)
    (a : Action) (entry_ sl_ tp_ size_ : Q) (score : Z) :
  fst (StrategyBackup.generate_signal cfg df m)
  = StrategyBackup.Emit a entry_ sl_ tp_ size_ score ->
  (a = BUY \/ a = SELL)
  /\ (400 <= StrategyBackup.len_df df)%Z
  /\ StrategyBackup.is_good_trading_hour (StrategyBackup.time_ df) = true
  /\ StrategyBackup.can_trade cfg (StrategyBackup.len_df df - 1)
       (StrategyBackup.date_ df) m = true
  /\ entry_ = StrategyBackup.curr_close df
  /\ ~ sl_ == entry_
  /\ (0 <= StrategyBackup.curr_atr14 df ->
      0 <= StrategyBackup.sl_atr_mult cfg -> 0 <= StrategyBackup.tp_rr cfg ->
      (a = BUY -> sl_ < entry_ /\ entry_ <= tp_)
      /\ (a = SELL -> entry_ < sl_ /\ tp_ <= entry_))
  /\ 1 # 100 < size_ /\ size_ <= 1
  /\ (6 <= score <= 8)%Z.
Proof.
  unfold StrategyBackup.generate_signal.
  destruct (StrategyBackup.len_df df <? 400)%Z eqn:Hlen; [cbn; discriminate|].
  apply Z.ltb_ge in Hlen.
  destruct (StrategyBackup.is_good_trading_hour (StrategyBackup.time_ df))
    eqn:Hhour; [|cbn; discriminate]. cbn [negb].
  destruct (Py.ltb (StrategyBackup.atr_ratio df) _); [cbn; discriminate|].
  cbv zeta.
  set (g := StrategyBackup.gates df).
  pose proof (count_bounds (StrategyBackup.pb_long g)).
  pose proof (count_bounds (StrategyBackup.bos_long g)).
  pose proof (count_bounds (StrategyBackup.pb_short g)).
  pose proof (count_bounds (StrategyBackup.bos_short g)).
  destruct (StrategyBackup.can_trade cfg _ _ m) eqn:Hcan; cbn [andb];
    [|cbn; discriminate].
  match goal with
  | |- context [if ?c then _ else _] => destruct c eqn:Hlong
  end.
  - match goal with
    | |- context [Py.leb ?sz (1 # 100)] =>
        destruct (Py.leb sz (1 # 100)) eqn:Hsz; [cbn; discriminate|];
        assert (Hcap : sz <= 1) by apply backup_size_capped
    end.
    apply leb_false in Hsz. cbn [fst]. intros [= <- <- <- <- <- <-].
    pose proof (backup_size_off_entry _ _ _ Hsz) as Hoff.
    assert (Hside :
      0 <= StrategyBackup.curr_atr14 df ->
      0 <= StrategyBackup.sl_atr_mult cfg -> 0 <= StrategyBackup.tp_rr cfg ->
      (BUY = BUY ->
       StrategyBackup.curr_close df
       - StrategyBackup.sl_atr_mult cfg * StrategyBackup.curr_atr14 df
       < StrategyBackup.curr_close df
       /\ StrategyBackup.curr_close df
          <= StrategyBackup.curr_close df
             + StrategyBackup.tp_rr cfg
               * (StrategyBackup.sl_atr_mult cfg * StrategyBackup.curr_atr14 df))
      /\ (BUY = SELL ->
          StrategyBackup.curr_close df
          < StrategyBackup.curr_close df
            - StrategyBackup.sl_atr_mult cfg * StrategyBackup.curr_atr14 df
          /\ StrategyBackup.curr_close df
             + StrategyBackup.tp_rr cfg
               * (StrategyBackup.sl_atr_mult cfg * StrategyBackup.curr_atr14 df)
             <= StrategyBackup.curr_close df)).
    { intros A1 A2 A3.
      pose proof (Qmult_le_0_compat _ _ A2 A1) as Hd.
      pose proof (Qmult_le_0_compat _ _ A3 Hd) as Ht.
      split; [intros _ | discriminate].
      split; [|lra].
      destruct (Qlt_le_dec 0 (StrategyBackup.sl_atr_mult cfg
                              * StrategyBackup.curr_atr14 df)) as [Hp | Hn];
        [lra|]. exfalso. apply Hoff. lra. }
    split; [left; reflexivity|]. split; [exact Hlen|]. split; [reflexivity|].
    split; [reflexivity|]. split; [reflexivity|]. split; [exact Hoff|]. split; [exact Hside|].
    split; [exact Hsz|]. split; [exact Hcap|].
    apply andb_true_iff in Hlong. destruct Hlong as [Hf He].
    repeat (apply andb_true_iff in Hf; destruct Hf as [Hf ?]).
    apply orb_true_iff in He. destruct He as [He | He];
      repeat (apply andb_true_iff in He; destruct He as [He ?]);
      repeat match goal with
      | H : _ g = true |- _ => rewrite H
      end; cbn [StrategyBackup.count]; lia.
  - match goal with
    | |- context [if ?c then _ else _] => destruct c eqn:Hshort
    end; [|cbn; discriminate].
    match goal with
    | |- context [Py.leb ?sz (1 # 100)] =>
        destruct (Py.leb sz (1 # 100)) eqn:Hsz; [cbn; discriminate|];
        assert (Hcap : sz <= 1) by apply backup_size_capped
    end.
    apply leb_false in Hsz. cbn [fst]. intros [= <- <- <- <- <- <-].
    pose proof (backup_size_off_entry _ _ _ Hsz) as Hoff.
    assert (Hside :
      0 <= StrategyBackup.curr_atr14 df ->
      0 <= StrategyBackup.sl_atr_mult cfg -> 0 <= StrategyBackup.tp_rr cfg ->
      (SELL = BUY ->
       StrategyBackup.curr_close df
       + StrategyBackup.sl_atr_mult cfg * StrategyBackup.curr_atr14 df
       < StrategyBackup.curr_close df
       /\ StrategyBackup.curr_close df
          <= StrategyBackup.curr_close df
             - StrategyBackup.tp_rr cfg
               * (StrategyBackup.sl_atr_mult cfg * StrategyBackup.curr_atr14 df))
      /\ (SELL = SELL ->
          StrategyBackup.curr_close df
          < StrategyBackup.curr_close df
            + StrategyBackup.sl_atr_mult cfg * StrategyBackup.curr_atr14 df
          /\ StrategyBackup.curr_close df
             - StrategyBackup.tp_rr cfg
               * (StrategyBackup.sl_atr_mult cfg * StrategyBackup.curr_atr14 df)
             <= StrategyBackup.curr_close df)).
    { intros A1 A2 A3.
      pose proof (Qmult_le_0_compat _ _ A2 A1) as Hd.
      pose proof (Qmult_le_0_compat _ _ A3 Hd) as Ht.
      split; [discriminate | intros _].
      split; [|lra].
      destruct (Qlt_le_dec 0 (StrategyBackup.sl_atr_mult cfg
                              * StrategyBackup.curr_atr14 df)) as [Hp | Hn];
        [lra|]. exfalso. apply Hoff. lra. }
    split; [right; reflexivity|]. split; [exact Hlen|]. split; [reflexivity|].
    split; [reflexivity|]. split; [reflexivity|]. split; [exact Hoff|]. split; [exact Hside|].
    split; [exact Hsz|]. split; [exact Hcap|].
    apply andb_true_iff in Hshort. destruct Hshort as [Hf He].
    repeat (apply andb_true_iff in Hf; destruct Hf as [Hf ?]).
    apply orb_true_iff in He. destruct He as [He | He];
      repeat (apply andb_true_iff in He; destruct He as [He ?]);
      repeat match goal with
      | H : _ g = true |- _ => rewrite H
      end; cbn [StrategyBackup.count]; lia.
Qed.

Lemma X16_backup_emitted_signal_shape_witness :
  exists (sl_ tp_ size_ : Q) (score : Z),
    fst (StrategyBackup.generate_signal StrategyBackup.default_params
           qualifying_frame StrategyBackup.initial_memory)
    = StrategyBackup.Emit BUY 150 sl_ tp_ size_ score
    /\ (6 <= score <= 8)%Z.
Proof.
  eexists. eexists. eexists. eexists. split; [vm_compute; reflexivity|].
  refine (proj2 (proj2 (proj2 (proj2 (proj2 (proj2 (proj2 (proj2 (proj2
            (X16_backup_emitted_signal_shape StrategyBackup.default_params
               qualifying_frame StrategyBackup.initial_memory
               BUY 150 _ _ _ _ _)))))))))).
  vm_compute. reflexivity.
Defined.

(** A call of strategy_backup.py that returns BUY or SELL, or the HOLD of
    the size check, leaves the memory on its last bar. *)
Lemma backup_memory_written (cfg : StrategyBackup.Params)
    (df : StrategyBackup.Frame) (m : StrategyBackup.Memory) :
  StrategyBackup.action_of (fst (StrategyBackup.generate_signal cfg df m))
    <> HOLD
  \/ fst (StrategyBackup.generate_signal cfg df m)
     = StrategyBackup.Hold StrategyBackup.PositionSizeTooSmall ->
  snd (StrategyBackup.generate_signal cfg df m)
  = StrategyBackup.mkMemory (StrategyBackup.len_df df - 1)
                            (Some (StrategyBackup.date_ df)).
Proof.
  unfold StrategyBackup.generate_signal.
  repeat match goal with
  | |- context [if ?c then _ else _] => destruct c
  end; cbn; intros [H | H]; try reflexivity; try discriminate;
    exfalso; apply H; reflexivity.
Qed.

(** Without the cooldowns the call of strategy_backup.py holds and leaves
    the memory alone. *)
Lemma backup_holds_in_cooldown (cfg : StrategyBackup.Params)
    (df : StrategyBackup.Frame) (m : StrategyBackup.Memory) :
  StrategyBackup.can_trade cfg (StrategyBackup.len_df df - 1)
    (StrategyBackup.date_ df) m = false ->
  StrategyBackup.action_of (fst (StrategyBackup.generate_signal cfg df m))
  = HOLD
  /\ snd (StrategyBackup.generate_signal cfg df m) = m.
Proof.
  intro Hcan. unfold StrategyBackup.generate_signal.
  destruct (StrategyBackup.len_df df <? 400)%Z; [split; reflexivity|].
  destruct (negb _); [split; reflexivity|].
  destruct (Py.ltb _ _); [split; reflexivity|].
  cbv zeta. rewrite Hcan. cbn [andb]. split; reflexivity.
Qed.

(** X17.  After a call of strategy_backup.py that returned BUY or SELL, or
    the HOLD of the size check, a call on a frame that is fewer than
    [cooldown_bars] bars longer, or whose last bar is less than
    [min_hours_between_trades] hours later, returns HOLD and leaves the
    memory as the first call wrote it. *)
Theorem X17_backup_cooldown_after_write
    (cfg : StrategyBackup.Params) (df df' : StrategyBackup.Frame)
    (m : StrategyBackup.Memory) :
  StrategyBackup.action_of (fst (StrategyBackup.generate_signal cfg df m))
    <> HOLD
  \/ fst (StrategyBackup.generate_signal cfg df m)
     = StrategyBackup.Hold StrategyBackup.PositionSizeTooSmall ->
  (StrategyBackup.len_df df' - StrategyBackup.len_df df
   < StrategyBackup.cooldown_bars cfg)%Z
  \/ inject_Z (StrategyBackup.date_ df' - StrategyBackup.date_ df) / 3600
     < StrategyBackup.min_hours_between_trades cfg ->
  StrategyBackup.action_of
    (fst (StrategyBackup.generate_signal cfg df'
            (snd (StrategyBackup.generate_signal cfg df m)))) = HOLD
  /\ snd (StrategyBackup.generate_signal cfg df'
            (snd (StrategyBackup.generate_signal cfg df m)))
     = snd (StrategyBackup.generate_signal cfg df m).
Proof.
  intros Hw Hsoon. rewrite (backup_memory_written cfg df m Hw).
  apply backup_holds_in_cooldown.
  unfold StrategyBackup.can_trade.
  cbn [StrategyBackup.last_signal_idx StrategyBackup.last_signal_time].
  destruct Hsoon as [Hbars | Hhours].
  - replace (StrategyBackup.cooldown_bars cfg <=?
             StrategyBackup.len_df df' - 1 - (StrategyBackup.len_df df - 1))%Z
      with false; [reflexivity|].
    symmetry. apply Z.leb_gt. lia.
  - apply leb_false in Hhours. rewrite Hhours. apply andb_false_r.
Qed.

Lemma X17_backup_cooldown_after_write_witness :
  StrategyBackup.action_of
    (fst (StrategyBackup.generate_signal small_risk_params qualifying_frame
            (snd (StrategyBackup.generate_signal small_risk_params
                    qualifying_frame StrategyBackup.initial_memory)))) = HOLD.
Proof.
  refine (proj1 (X17_backup_cooldown_after_write small_risk_params
                   qualifying_frame qualifying_frame
                   StrategyBackup.initial_memory _ _)).
  - right. vm_compute. reflexivity.
  - left. vm_compute. reflexivity.
Defined.

(** The quotient of a zero numerator never reaches a positive R-multiple. *)
Lemma zero_never_reaches (kind : TimeStop.Operands) (min_rr x y : Q) :
  0 < min_rr -> x == 0 ->
  match TimeStop.divide kind x y with
  | Some rr => TimeStop.reaches min_rr rr = false
  | None => True
  end.
Proof.
  intros Hm Hx. unfold TimeStop.divide. destruct kind.
  - destruct (Py.eqb y 0) eqn:Ez; [exact I|]. cbn.
    apply leb_false. apply eqb_false in Ez.
    assert (E : x / y == 0) by (rewrite Hx; field; exact Ez).
    rewrite E. exact Hm.
  - cbn. destruct (Py.eqb y 0) eqn:Ez.
    + assert (E1 : Py.ltb 0 x = false) by (apply ltb_false; lra).
      assert (E2 : Py.ltb x 0 = false) by (apply ltb_false; lra).
      rewrite E1, E2. reflexivity.
    + cbn. apply leb_false. apply eqb_false in Ez.
      assert (E : x / y == 0) by (rewrite Hx; field; exact Ez).
      rewrite E. exact Hm.
Qed.

(** The quotient raises exactly for Python floats with a zero divisor. *)
Lemma divide_raises (kind : TimeStop.Operands) (x y : Q) :
  TimeStop.divide kind x y = None
  <-> kind = TimeStop.PythonFloat /\ y == 0.
Proof.
  unfold TimeStop.divide. destruct kind.
  - destruct (Py.eqb y 0) eqn:Ez.
    + apply eqb_true in Ez. split; [intros _; split; [reflexivity | exact Ez]|].
      reflexivity.
    + apply eqb_false in Ez. split; [discriminate|]. intros [_ E].
      contradiction.
  - split; [discriminate | intros [E _]; discriminate].
Qed.

(** On numpy operands a zero divisor gives plus infinity under a positive
    numerator, which reaches every R-multiple, and minus infinity or NaN
    otherwise, which reach none. *)
Lemma numpy_zero_divisor (min_rr x y : Q) :
  y == 0 ->
  match TimeStop.divide TimeStop.NumpyFloat64 x y with
  | Some rr => TimeStop.reaches min_rr rr = Py.ltb 0 x
  | None => False
  end.
Proof.
  intro Hy. cbn. apply eqb_true in Hy. rewrite Hy.
  destruct (Py.ltb 0 x) eqn:E1; [reflexivity|].
  destruct (Py.ltb x 0); reflexivity.
Qed.

(** X18.  [check_time_stop] answers True only when the time stop is enabled
    and at least [time_stop_hours] hours have passed.  For a position
    without a ['current_price'] key, whose price defaults to the entry
    price, it never answers True under a positive [time_stop_min_rr].  It
    raises exactly when it is enabled, the hours have passed, the stop sits
    on the entry price and the prices are Python floats; with numpy.float64
    prices and the stop on the entry it raises nothing and answers True
    exactly when the price is on the profit side of the entry, whatever
    [time_stop_min_rr]. *)
Theorem X18_time_stop_edges
    (kind : TimeStop.Operands) (ts : TimeStop.Config)
    (position : StrategyBackup.Position)
    (current_price : option Q) (entry_time current_time : Z)
    (entry_price : Q) :
  (TimeStop.check_time_stop kind ts position current_price entry_time
     current_time entry_price = Some true ->
   TimeStop.time_stop_enabled ts = true
   /\ TimeStop.time_stop_hours ts
      <= inject_Z (current_time - entry_time) / 3600)
  /\ (0 < TimeStop.time_stop_min_rr ts ->
      TimeStop.check_time_stop kind ts position None entry_time current_time
        entry_price <> Some true)
  /\ (TimeStop.check_time_stop kind ts position current_price entry_time
        current_time entry_price = None <->
      kind = TimeStop.PythonFloat
      /\ TimeStop.time_stop_enabled ts = true
      /\ TimeStop.time_stop_hours ts
         <= inject_Z (current_time - entry_time) / 3600
      /\ StrategyBackup.sl position == entry_price)
  /\ (TimeStop.time_stop_enabled ts = true ->
      TimeStop.time_stop_hours ts
      <= inject_Z (current_time - entry_time) / 3600 ->
      StrategyBackup.sl position == entry_price ->
      forall price : Q,
        TimeStop.check_time_stop TimeStop.NumpyFloat64 ts position
          (Some price) entry_time current_time entry_price
        = Some (if is_buy (StrategyBackup.action position)
                then Py.ltb entry_price price
                else Py.ltb price entry_price)).
Proof.
  unfold TimeStop.check_time_stop.
  destruct (TimeStop.time_stop_enabled ts); cbn [negb].
  2:{ split; [discriminate|]. split; [discriminate|].
      split; [split; [discriminate | intros (_ & ? & _); discriminate]|].
      discriminate. }
  destruct (Py.leb (TimeStop.time_stop_hours ts) _) eqn:Hh.
  2:{ apply leb_false in Hh. split; [discriminate|]. split; [discriminate|].
      split; [split; [discriminate | intros (_ & _ & ? & _); lra]|].
      intros _ ?. lra. }
  apply leb_true in Hh. cbv zeta. cbn [default].
  split; [intros _; split; [reflexivity | exact Hh]|].
  split; [|split].
  - intro Hm.
    destruct (is_buy (StrategyBackup.action position)).
    + pose proof (zero_never_reaches kind (TimeStop.time_stop_min_rr ts)
                    (entry_price - entry_price)
                    (entry_price - StrategyBackup.sl position) Hm
                    ltac:(ring)) as Hz.
      destruct (TimeStop.divide kind _ _); [rewrite Hz|]; discriminate.
    + pose proof (zero_never_reaches kind (TimeStop.time_stop_min_rr ts)
                    (entry_price - entry_price)
                    (StrategyBackup.sl position - entry_price) Hm
                    ltac:(ring)) as Hz.
      destruct (TimeStop.divide kind _ _); [rewrite Hz|]; discriminate.
  - destruct (is_buy (StrategyBackup.action position)).
    + pose proof (divide_raises kind
                    (default entry_price current_price - entry_price)
                    (entry_price - StrategyBackup.sl position)) as Hr.
      destruct (TimeStop.divide kind _ _) as [rr|].
      * split; [destruct (TimeStop.reaches _ rr); discriminate|].
        intros (Ek & _ & _ & E).
        assert (Hn : Some rr = None)
          by (apply (proj2 Hr); split; [exact Ek | lra]).
        discriminate.
      * split; [intros _ | reflexivity].
        destruct (proj1 Hr eq_refl) as [Ek E].
        split; [exact Ek|]. split; [reflexivity|]. split; [exact Hh | lra].
    + pose proof (divide_raises kind
                    (entry_price - default entry_price current_price)
                    (StrategyBackup.sl position - entry_price)) as Hr.
      destruct (TimeStop.divide kind _ _) as [rr|].
      * split; [destruct (TimeStop.reaches _ rr); discriminate|].
        intros (Ek & _ & _ & E).
        assert (Hn : Some rr = None)
          by (apply (proj2 Hr); split; [exact Ek | lra]).
        discriminate.
      * split; [intros _ | reflexivity].
        destruct (proj1 Hr eq_refl) as [Ek E].
        split; [exact Ek|]. split; [reflexivity|]. split; [exact Hh | lra].
  - intros _ _ Hsl price.
    destruct (is_buy (StrategyBackup.action position)).
    + pose proof (numpy_zero_divisor (TimeStop.time_stop_min_rr ts)
                    (price - entry_price)
                    (entry_price - StrategyBackup.sl position)
                    ltac:(lra)) as Hz.
      destruct (TimeStop.divide TimeStop.NumpyFloat64 _ _);
        [|contradiction].
      rewrite Hz.
      assert (E : Py.ltb 0 (price - entry_price) = Py.ltb entry_price price).
      { destruct (Py.ltb entry_price price) eqn:E1.
        - apply ltb_true in E1. apply ltb_true. lra.
        - apply ltb_false in E1. apply ltb_false. lra. }
      rewrite E. destruct (Py.ltb entry_price price); reflexivity.
    + pose proof (numpy_zero_divisor (TimeStop.time_stop_min_rr ts)
                    (entry_price - price)
                    (StrategyBackup.sl position - entry_price)
                    ltac:(lra)) as Hz.
      destruct (TimeStop.divide TimeStop.NumpyFloat64 _ _);
        [|contradiction].
      rewrite Hz.
      assert (E : Py.ltb 0 (entry_price - price) = Py.ltb price entry_price).
      { destruct (Py.ltb price entry_price) eqn:E1.
        - apply ltb_true in E1. apply ltb_true. lra.
        - apply ltb_false in E1. apply ltb_false. lra. }
      rewrite E. destruct (Py.ltb price entry_price); reflexivity.
Qed.

Lemma X18_time_stop_edges_witness :
  TimeStop.check_time_stop TimeStop.NumpyFloat64 TimeStop.default_config
    (StrategyBackup.mkPosition BUY 150) None 0 36000 150 <> Some true
  /\ TimeStop.check_time_stop TimeStop.NumpyFloat64 TimeStop.default_config
       (StrategyBackup.mkPosition BUY 150) (Some 151) 0 36000 150 = Some true.
Proof.
  destruct (X18_time_stop_edges TimeStop.NumpyFloat64 TimeStop.default_config
              (StrategyBackup.mkPosition BUY 150) None 0 36000 150)
    as (_ & H2 & _ & H4).
  split.
  - apply H2. vm_compute. reflexivity.
  - refine (H4 _ _ _ 151).
    + reflexivity.
    + vm_compute. discriminate.
    + reflexivity.
Defined.

(** ** The indicator columns *)

(** X19.  Once its window is full the RSI is a finite number, at least 0 and
    below 100, whatever the closes. *)
Theorem X19_rsi_between_0_and_100 (w : nat) (rows : list Row) (t : nat) :
  (0 < w)%nat -> (w <= S t)%nat -> (S t <= length rows)%nat ->
  exists q, Indicators.rsi w rows t = Indicators.Fin q /\ 0 <= q /\ q < 100.
Proof.
  intros H0 H1 H2. unfold Indicators.rsi, Indicators.rolling. cbv zeta.
  set (closes := map close rows).
  assert (Hlen : length closes = length rows) by apply length_map.
  destruct (window_full (fun x => 0 <= x) w (Indicators.gains closes) t H1)
    as (gw & Eg & Hg); [| apply gains_nonneg |].
  { unfold Indicators.gains. rewrite length_map, length_diff. lia. }
  destruct (window_full (fun x => 0 <= x) w (Indicators.losses closes) t H1)
    as (lw & El & Hl); [| apply losses_nonneg |].
  { unfold Indicators.losses. rewrite length_map, length_diff. lia. }
  rewrite Eg, El. cbn [Indicators.of_opt Indicators.fadd].
  pose proof (mean_nonneg w gw Hg) as Hgain.
  pose proof (mean_nonneg w lw Hl) as Hloss.
  set (gain := Indicators.mean w gw) in *.
  set (loss := Indicators.mean w lw) in *.
  cbn [Indicators.fdiv]. rewrite (guarded_nonzero loss Hloss).
  cbn [Indicators.fadd Indicators.fdiv].
  assert (Hrs : 0 <= gain / (loss + Indicators.eps)).
  { unfold Qdiv. apply Qmult_le_0_compat; [exact Hgain|].
    apply Qinv_le_0_compat. unfold Indicators.eps. lra. }
  set (rs := gain / (loss + Indicators.eps)) in *.
  assert (Hone : Py.eqb (1 + rs) 0 = false) by (apply eqb_false; lra).
  rewrite Hone. cbn [Indicators.fsub Indicators.fneg Indicators.fadd].
  eexists. split; [reflexivity|].
  assert (Hpos : 0 < 100 / (1 + rs)).
  { unfold Qdiv. apply Qmult_lt_0_compat; [lra|].
    apply Qinv_lt_0_compat. lra. }
  assert (Hle : 100 / (1 + rs) <= 100).
  { apply Qle_shift_div_r; [lra|]. nra. }
  split; lra.
Qed.

Lemma X19_rsi_between_0_and_100_witness :
  exists q, Indicators.rsi 14 rising_bars 15 = Indicators.Fin q
            /\ 0 <= q /\ q < 100.
Proof.
  apply (X19_rsi_between_0_and_100 14 rising_bars 15).
  - lia.
  - lia.
  - vm_compute. lia.
Defined.

(** The shifted column of a frame is the column of the previous rows. *)
Lemma shift_map_prevs (f : Row -> Q) (rows : list Row) :
  Indicators.shift (map f rows) = map (option_map f) (prevs None rows).
Proof.
  destruct rows as [|x rest]; [reflexivity|].
  unfold Indicators.shift. cbn [map prevs option_map]. f_equal.
  change (f x :: map f rest) with (map f (x :: rest)).
  revert x. induction rest as [|y rest IH]; intro x; [reflexivity|].
  cbn [map prevs option_map] in *.
  change (removelast (f x :: f y :: map f rest))
    with (f x :: removelast (f y :: map f rest)).
  cbn [map]. f_equal. apply IH.
Qed.

Lemma sum_mono (xs ys : list Q) :
  Forall2 Qle xs ys -> Indicators.sum xs <= Indicators.sum ys.
Proof.
  induction 1 as [|x y xs ys Hxy _ IH]; cbn; [lra|].
  unfold Indicators.sum in IH. lra.
Qed.

Ltac dm_case :=
  match goal with
  | |- context [if Py.ltb ?a ?b && Py.ltb ?c ?d then _ else _] =>
      let E1 := fresh "E" in
      let E2 := fresh "E" in
      destruct (Py.ltb a b) eqn:E1; destruct (Py.ltb c d) eqn:E2;
      cbn [andb];
      try apply ltb_true in E1; try apply ltb_false in E1;
      try apply ltb_true in E2; try apply ltb_false in E2
  end.

(** Bar by bar, on bars with the close between the low and the high, each
    directional movement is between 0 and the true range, and one of the
    two is the literal 0. *)
Lemma dm_below_true_range_from (rows : list Row) :
  Forall ohlc_ordered rows ->
  forall p : option Row,
  match p with Some r => ohlc_ordered r | None => True end ->
  let hs := map (option_map high) (prevs p rows) in
  let ls := map (option_map low) (prevs p rows) in
  let cs := map (option_map close) (prevs p rows) in
  let tr :=
    map (fun p : Row * option Q =>
           let r := fst p in
           let high_low := high r - low r in
           match snd p with
           | Some prev_close =>
               Py.max (Py.max high_low (Py.abs (high r - prev_close)))
                      (Py.abs (low r - prev_close))
           | None => high_low
           end) (combine rows cs) in
  let pdm :=
    map (fun p : Row * option Q * option Q =>
           let r := fst (fst p) in
           match snd (fst p), snd p with
           | Some prev_high, Some prev_low =>
               if Py.ltb (prev_low - low r) (high r - prev_high)
                  && Py.ltb 0 (high r - prev_high)
               then high r - prev_high else 0
           | _, _ => 0
           end) (combine (combine rows hs) ls) in
  let mdm :=
    map (fun p : Row * option Q * option Q =>
           let r := fst (fst p) in
           match snd (fst p), snd p with
           | Some prev_high, Some prev_low =>
               if Py.ltb (high r - prev_high) (prev_low - low r)
                  && Py.ltb 0 (prev_low - low r)
               then prev_low - low r else 0
           | _, _ => 0
           end) (combine (combine rows hs) ls) in
  Forall (fun x => 0 <= x) pdm /\ Forall (fun x => 0 <= x) mdm
  /\ Forall2 Qle pdm tr /\ Forall2 Qle mdm tr
  /\ Forall2 (fun a b => a = 0 \/ b = 0) pdm mdm.
Proof.
  induction 1 as [|r rest Hr Hrest IH]; intros p Hp; cbv zeta.
  - cbn. repeat split; constructor.
  - specialize (IH (Some r) Hr). cbv zeta in IH.
    destruct IH as (I1 & I2 & I3 & I4 & I5).
    cbn [prevs map combine fst snd].
    assert (Htr : 0 <= high r - low r) by (destruct Hr; lra).
    split; [|split; [|split; [|split]]]; constructor; try assumption.
    + destruct p as [q|]; cbn [option_map fst snd]; [|lra]. dm_case; lra.
    + destruct p as [q|]; cbn [option_map fst snd]; [|lra]. dm_case; lra.
    + destruct p as [q|]; cbn [option_map fst snd]; [|lra].
      destruct Hp as [Hp1 Hp2].
      pose proof (max_ge_l (Py.max (high r - low r) (Py.abs (high r - close q)))
                    (Py.abs (low r - close q))) as M1.
      pose proof (max_ge_l (high r - low r) (Py.abs (high r - close q))) as M2.
      pose proof (max_ge_r (high r - low r) (Py.abs (high r - close q))) as M3.
      destruct (abs_cases (high r - close q)) as [[S1 A1] | [S1 A1]];
        rewrite A1 in *; dm_case; lra.
    + destruct p as [q|]; cbn [option_map fst snd]; [|lra].
      destruct Hp as [Hp1 Hp2].
      pose proof (max_ge_r (Py.max (high r - low r) (Py.abs (high r - close q)))
                    (Py.abs (low r - close q))) as M1.
      pose proof (max_ge_l (Py.max (high r - low r) (Py.abs (high r - close q)))
                    (Py.abs (low r - close q))) as M0.
      pose proof (max_ge_l (high r - low r) (Py.abs (high r - close q))) as M2.
      destruct (abs_cases (low r - close q)) as [[S1 A1] | [S1 A1]];
        rewrite A1 in *; dm_case; lra.
    + destruct p as [q|]; cbn [option_map fst snd]; [|left; reflexivity].
      destruct (Py.ltb (low q - low r) (high r - high q)) eqn:E1;
        destruct (Py.ltb (high r - high q) (low q - low r)) eqn:E2;
        cbn [andb]; auto.
      apply ltb_true in E1. apply ltb_true in E2. lra.
Qed.

Lemma dm_below_true_range (rows : list Row) :
  Forall ohlc_ordered rows ->
  Forall (fun x => 0 <= x) (Indicators.plus_dm rows)
  /\ Forall (fun x => 0 <= x) (Indicators.minus_dm rows)
  /\ Forall2 Qle (Indicators.plus_dm rows) (Indicators.true_range rows)
  /\ Forall2 Qle (Indicators.minus_dm rows) (Indicators.true_range rows)
  /\ Forall2 (fun a b => a = 0 \/ b = 0)
       (Indicators.plus_dm rows) (Indicators.minus_dm rows).
Proof.
  intro Hwf.
  unfold Indicators.plus_dm, Indicators.minus_dm, Indicators.true_range.
  rewrite !shift_map_prevs.
  exact (dm_below_true_range_from rows Hwf None I).
Qed.

Lemma ohlc_ordered_range (rows : list Row) :
  Forall ohlc_ordered rows -> Forall (fun r => low r <= high r) rows.
Proof.
  intro H. eapply Forall_impl; [exact H|].
  intros r [H1 H2]. cbn. lra.
Qed.

(** A directional indicator built from a movement that is bar by bar
    between 0 and the true range lies in [0, 100). *)
Lemma di_bounds (dm : list Row -> list Q) (rows : list Row) (t : nat) :
  Forall (fun x => 0 <= x) (dm rows) ->
  Forall2 Qle (dm rows) (Indicators.true_range rows) ->
  Forall (fun r => low r <= high r) rows ->
  (Indicators.adx_len <= S t)%nat -> (S t <= length rows)%nat ->
  exists q, Indicators.di dm rows t = Indicators.Fin q /\ 0 <= q /\ q < 100.
Proof.
  intros Hd Hle Hwf H1 H2.
  pose proof (Forall2_length _ _ _ Hle) as Hlen.
  rewrite length_true_range in Hlen.
  unfold Indicators.di, Indicators.rolling, Indicators.window.
  rewrite Hlen, length_true_range.
  rewrite (proj2 (Nat.leb_le _ _) H1), (proj2 (Nat.leb_le _ _) H2).
  cbn [andb Indicators.of_opt Indicators.fadd].
  set (k := (S t - Indicators.adx_len)%nat).
  set (tw := firstn Indicators.adx_len (skipn k (Indicators.true_range rows))).
  set (dw := firstn Indicators.adx_len (skipn k (dm rows))).
  assert (Hdw : 0 <= Indicators.sum dw).
  { apply sum_nonneg. apply Forall_take, Forall_drop. exact Hd. }
  assert (Hdt : Indicators.sum dw <= Indicators.sum tw).
  { apply sum_mono. apply Forall2_take, Forall2_drop. exact Hle. }
  assert (Htw : 0 <= Indicators.sum tw) by lra.
  cbn [Indicators.fdiv]. rewrite (guarded_nonzero _ Htw).
  cbn [Indicators.fmul]. eexists. split; [reflexivity|].
  assert (Hden : 0 < Indicators.sum tw + Indicators.eps)
    by (unfold Indicators.eps; lra).
  assert (R0 : 0 <= Indicators.sum dw / (Indicators.sum tw + Indicators.eps)).
  { unfold Qdiv. apply Qmult_le_0_compat; [exact Hdw|].
    apply Qinv_le_0_compat. lra. }
  assert (R1 : Indicators.sum dw / (Indicators.sum tw + Indicators.eps) < 1).
  { apply Qlt_shift_div_r; [exact Hden|]. unfold Indicators.eps in *. lra. }
  split; lra.
Qed.

(** X20.  On bars whose close lies between the low and the high, once the
    window of [adx_len] bars is full, +DI, -DI and DX are finite numbers, at
    least 0 and below 100. *)
Theorem X20_directional_indicators_bounded (rows : list Row) (t : nat) :
  Forall ohlc_ordered rows ->
  (Indicators.adx_len <= S t)%nat -> (S t <= length rows)%nat ->
  exists p m d,
    Indicators.plus_di rows t = Indicators.Fin p
    /\ Indicators.minus_di rows t = Indicators.Fin m
    /\ Indicators.dx rows t = Indicators.Fin d
    /\ (0 <= p /\ p < 100) /\ (0 <= m /\ m < 100) /\ (0 <= d /\ d < 100).
Proof.
  intros Hwf H1 H2.
  destruct (dm_below_true_range rows Hwf) as (P0 & M0 & PT & MT & _).
  pose proof (ohlc_ordered_range rows Hwf) as Hr.
  destruct (di_bounds Indicators.plus_dm rows t P0 PT Hr H1 H2)
    as (p & Ep & Hp0 & Hp1).
  destruct (di_bounds Indicators.minus_dm rows t M0 MT Hr H1 H2)
    as (m & Em & Hm0 & Hm1).
  unfold Indicators.dx, Indicators.plus_di, Indicators.minus_di.
  rewrite Ep, Em.
  cbn [Indicators.fsub Indicators.fneg Indicators.fadd Indicators.fabs
       Indicators.fdiv].
  assert (Hz : Py.eqb (p + m + Indicators.eps) 0 = false).
  { apply eqb_false. unfold Indicators.eps. lra. }
  rewrite Hz. cbn [Indicators.fmul].
  exists p, m. eexists. split; [reflexivity|]. split; [reflexivity|].
  split; [reflexivity|]. split; [split; assumption|].
  split; [split; assumption|].
  assert (Hden : 0 < p + m + Indicators.eps) by (unfold Indicators.eps; lra).
  pose proof (abs_nonneg (p + - m)) as Ha.
  assert (Hab : Py.abs (p + - m) <= p + m).
  { destruct (abs_cases (p + - m)) as [[_ ->] | [_ ->]]; lra. }
  assert (R0 : 0 <= Py.abs (p + - m) / (p + m + Indicators.eps)).
  { unfold Qdiv. apply Qmult_le_0_compat; [exact Ha|].
    apply Qinv_le_0_compat. lra. }
  assert (R1 : Py.abs (p + - m) / (p + m + Indicators.eps) < 1).
  { apply Qlt_shift_div_r; [exact Hden|]. unfold Indicators.eps in *. lra. }
  split; lra.
Qed.

Lemma rising_bars_ordered : Forall ohlc_ordered rising_bars.
Proof.
  unfold rising_bars. cbn [map seq].
  repeat (constructor; [split; vm_compute; discriminate|]). constructor.
Qed.

Lemma X20_directional_indicators_bounded_witness :
  exists p m d,
    Indicators.plus_di rising_bars 15 = Indicators.Fin p
    /\ Indicators.minus_di rising_bars 15 = Indicators.Fin m
    /\ Indicators.dx rising_bars 15 = Indicators.Fin d
    /\ (0 <= p /\ p < 100) /\ (0 <= m /\ m < 100) /\ (0 <= d /\ d < 100).
Proof.
  apply (X20_directional_indicators_bounded rising_bars 15).
  - exact rising_bars_ordered.
  - unfold Indicators.adx_len. lia.
  - vm_compute. lia.
Defined.

(** X21.  On every bar both directional movements are at least 0 and at
    most the true range of the bar, and at most one of them is not the
    literal 0. *)
Theorem X21_directional_movement_exclusive (rows : list Row) :
  Forall ohlc_ordered rows ->
  Forall2 (fun plus tr => 0 <= plus /\ plus <= tr)
    (Indicators.plus_dm rows) (Indicators.true_range rows)
  /\ Forall2 (fun minus tr => 0 <= minus /\ minus <= tr)
       (Indicators.minus_dm rows) (Indicators.true_range rows)
  /\ Forall2 (fun plus minus => plus = 0 \/ minus = 0)
       (Indicators.plus_dm rows) (Indicators.minus_dm rows).
Proof.
  intro Hwf.
  destruct (dm_below_true_range rows Hwf) as (P0 & M0 & PT & MT & Hx).
  assert (Hboth : forall xs ys, Forall (fun x => 0 <= x) xs ->
            Forall2 Qle xs ys ->
            Forall2 (fun x y => 0 <= x /\ x <= y) xs ys).
  { intros xs ys H0 H. induction H as [|x y xs ys Hxy _ IH];
      constructor.
    - split; [|exact Hxy]. apply (Forall_inv H0).
    - apply IH. apply (Forall_inv_tail H0). }
  split; [apply Hboth; assumption|]. split; [apply Hboth; assumption|].
  exact Hx.
Qed.

Lemma X21_directional_movement_exclusive_witness :
  Forall2 (fun plus minus => plus = 0 \/ minus = 0)
    (Indicators.plus_dm rising_bars) (Indicators.minus_dm rising_bars).
Proof.
  exact (proj2 (proj2 (X21_directional_movement_exclusive rising_bars
                         rising_bars_ordered))).
Defined.

(** X22.  At an index of the frame the ATR is NaN until [atr_len] bars
    exist, and from then on a finite number that is not negative. *)
Theorem X22_atr_not_negative (rows : list Row) (t : nat) :
  Forall (fun r => low r <= high r) rows ->
  (S t <= length rows)%nat ->
  ((S t < Indicators.atr_len)%nat ->
   Indicators.atr14 rows t = Indicators.NaN)
  /\ ((Indicators.atr_len <= S t)%nat ->
      exists q, Indicators.atr14 rows t = Indicators.Fin q /\ 0 <= q).
Proof.
  intros Hwf H2. unfold Indicators.atr14, Indicators.rolling. split.
  - intro H1. unfold Indicators.window.
    replace (Indicators.atr_len <=? S t)%nat with false; [reflexivity|].
    symmetry. apply Nat.leb_gt. exact H1.
  - intro H1.
    destruct (window_full (fun x => 0 <= x) Indicators.atr_len
                (Indicators.true_range rows) t H1) as (tw & Et & Ht);
      [rewrite length_true_range; exact H2
      | apply true_range_nonneg; exact Hwf |].
    rewrite Et. cbn [Indicators.of_opt]. eexists. split; [reflexivity|].
    apply mean_nonneg. exact Ht.
Qed.

Lemma X22_atr_not_negative_witness :
  exists q, Indicators.atr14 rising_bars 15 = Indicators.Fin q /\ 0 <= q.
Proof.
  refine (proj2 (X22_atr_not_negative rising_bars 15 _ _) _).
  - apply ohlc_ordered_range. exact rising_bars_ordered.
  - vm_compute. lia.
  - unfold Indicators.atr_len. lia.
Defined.

(** X23.  With the window full on bars whose low does not exceed the high,
    the choppiness index is finite exactly when the true ranges of the
    window do not all vanish. *)
Theorem X23_chop_finite_iff_range (log10 : Q -> Q) (rows : list Row)
    (t : nat) (s : Q) :
  ~ log10 14 == 0 ->
  Forall (fun r => low r <= high r) rows ->
  (Indicators.chop_len <= S t)%nat -> (S t <= length rows)%nat ->
  Indicators.rolling Indicators.chop_len Indicators.sum
    (Indicators.true_range rows) t = Some s ->
  (Indicators.is_finite (Indicators.chop14 log10 rows t) = true <-> 0 < s).
Proof.
  intros Hlog Hwf H1 H2 Hs. split.
  2:{ intro Hpos. exact (chop14_finite log10 rows t s Hlog Hwf H1 H2 Hs Hpos). }
  intro Hfin.
  destruct (Qlt_le_dec 0 s) as [Hpos | Hneg]; [exact Hpos | exfalso].
  assert (Hs0 : 0 <= s).
  { destruct (window_full (fun x => 0 <= x) Indicators.chop_len
                (Indicators.true_range rows) t H1) as (tw & Et & Ht);
      [rewrite length_true_range; exact H2
      | apply true_range_nonneg; exact Hwf |].
    unfold Indicators.rolling in Hs. rewrite Et in Hs.
    injection Hs as <-. apply sum_nonneg. exact Ht. }
  revert Hfin.
  unfold Indicators.chop14. cbv zeta. rewrite Hs.
  unfold Indicators.rolling, Indicators.window.
  rewrite !length_map.
  rewrite (proj2 (Nat.leb_le _ _) H1), (proj2 (Nat.leb_le _ _) H2).
  cbn [andb Indicators.of_opt Indicators.fsub Indicators.fneg
       Indicators.fadd].
  set (k := (S t - Indicators.chop_len)%nat).
  rewrite !skipn_map, !firstn_map.
  set (win := firstn Indicators.chop_len (skipn k rows)).
  assert (Hwin : Forall (fun r => low r <= high r) win).
  { apply Forall_take, Forall_drop. exact Hwf. }
  pose proof (range_nonneg win Hwin) as Hrange.
  set (hi := Indicators.maximum (map high win)) in *.
  set (lo := Indicators.minimum (map low win)) in *.
  assert (Hden : 0 < hi + - lo + Indicators.eps) by (unfold Indicators.eps; lra).
  assert (Ez : Py.eqb (hi + - lo + Indicators.eps) 0 = false).
  { apply eqb_false. lra. }
  cbn [Indicators.fdiv]. rewrite Ez.
  assert (Hq : s / (hi + - lo + Indicators.eps) == 0).
  { assert (E : s == 0) by lra. rewrite E. field. lra. }
  unfold Indicators.np_log10.
  replace (Py.ltb 0 (s / (hi + - lo + Indicators.eps))) with false
    by (symmetry; apply ltb_false; lra).
  replace (Py.eqb (s / (hi + - lo + Indicators.eps)) 0) with true
    by (symmetry; apply eqb_true; exact Hq).
  change (Py.ltb 0 (inject_Z (Z.of_nat Indicators.chop_len))) with true.
  cbv iota. cbn. change (Py.ltb 0 100) with true. cbn.
  repeat match goal with
  | |- context [if ?c then _ else _] => destruct c
  end; cbn; discriminate.
Qed.

Lemma X23_chop_finite_iff_range_witness :
  exists s,
    Indicators.rolling Indicators.chop_len Indicators.sum
      (Indicators.true_range rising_bars) 15 = Some s
    /\ (Indicators.is_finite (Indicators.chop14 (fun _ => 1) rising_bars 15)
        = true <-> 0 < s).
Proof.
  eexists. split; [vm_compute; reflexivity|].
  apply (X23_chop_finite_iff_range (fun _ => 1) rising_bars 15).
  - vm_compute. discriminate.
  - apply ohlc_ordered_range. exact rising_bars_ordered.
  - unfold Indicators.chop_len. lia.
  - vm_compute. lia.
  - vm_compute. reflexivity.
Defined.

(** ** The adaptive risk manager of main.py *)

(** Only [update_performance] touches the performance fields. *)
Lemma exec_keeps_performance (s : RiskManager.State) (op : RiskManager.Op) :
  (forall r p b now, op <> RiskManager.UpdatePerformance r p b now) ->
  performance (RiskManager.exec s op) = performance s.
Proof.
  destruct op as [r p b now | d | d b now | d now]; intro Hop; cbn.
  - exfalso. exact (Hop r p b now eq_refl).
  - reflexivity.
  - unfold RiskManager.is_locked_out, RiskManager.streak_then_cooldown.
    destruct (RiskManager.emergency s b); [reflexivity|].
    destruct (_ <=? _)%nat; [reflexivity|].
    destruct (RiskManager.last_trade_time s !! d); [|reflexivity].
    cbn. destruct (Py.ltb _ _); reflexivity.
  - reflexivity.
Qed.

Lemma length_last_n {A : Type} (n : nat) (xs : list A) :
  length (RiskManager.last_n n xs) = Nat.min n (length xs).
Proof. unfold RiskManager.last_n. rewrite length_skipn. lia. Qed.

Lemma update_performance_keeps_inv (s : RiskManager.State) (r : string)
    (p b now : Q) :
  risk_inv s ->
  risk_inv (RiskManager.after (RiskManager.update_performance s r p b now))
  /\ RiskManager.account_peak s
     <= RiskManager.account_peak
          (RiskManager.after (RiskManager.update_performance s r p b now))
  /\ RiskManager.max_drawdown s
     <= RiskManager.max_drawdown
          (RiskManager.after (RiskManager.update_performance s r p b now)).
Proof.
  intros (Hlen & Hx & Hpk & Hdd).
  unfold RiskManager.update_performance. cbv zeta.
  set (appended := RiskManager.recent_trades s ++ _).
  set (recent := if (20 <? length appended)%nat then _ else appended).
  set (peak := if Py.ltb (RiskManager.account_peak s) b then b
               else RiskManager.account_peak s).
  assert (Hrecent : (length recent <= 20)%nat).
  { unfold recent. destruct (20 <? length appended)%nat eqn:E.
    - rewrite length_last_n. lia.
    - apply Nat.ltb_ge in E. exact E. }
  assert (Hcount :
    (if String.eqb r "LOSS" then S (RiskManager.consecutive_losses s)
     else if String.eqb r "WIN" then 0%nat
          else RiskManager.consecutive_losses s) = 0%nat
    \/ (if String.eqb r "LOSS" then 0%nat
        else if String.eqb r "WIN" then S (RiskManager.consecutive_wins s)
             else RiskManager.consecutive_wins s) = 0%nat).
  { destruct (String.eqb r "LOSS"); [right; reflexivity|].
    destruct (String.eqb r "WIN"); [left; reflexivity | exact Hx]. }
  assert (Hpeak : RiskManager.account_peak s <= peak /\ b <= peak).
  { unfold peak. py_case; lra. }
  destruct Hpeak as [Hp1 Hp2]. clearbody peak recent.
  destruct (Py.eqb peak 0) eqn:Ez; unfold risk_inv;
    cbn [RiskManager.after RiskManager.recent_trades
         RiskManager.consecutive_losses RiskManager.consecutive_wins
         RiskManager.account_peak RiskManager.max_drawdown].
  - split; [|split; lra].
    split; [exact Hrecent|]. split; [exact Hcount|]. split; lra.
  - pose proof (max_ge_l (RiskManager.max_drawdown s)
                  ((peak - b) / peak)) as Hm.
    split; [|split; lra].
    split; [exact Hrecent|]. split; [exact Hcount|]. split; lra.
Qed.

Lemma exec_keeps_risk_inv (s : RiskManager.State) (op : RiskManager.Op) :
  risk_inv s ->
  risk_inv (RiskManager.exec s op)
  /\ RiskManager.account_peak s
     <= RiskManager.account_peak (RiskManager.exec s op)
  /\ RiskManager.max_drawdown s
     <= RiskManager.max_drawdown (RiskManager.exec s op).
Proof.
  intro Hs.
  assert (Hother : performance (RiskManager.exec s op) = performance s ->
            risk_inv (RiskManager.exec s op)
            /\ RiskManager.account_peak s
               <= RiskManager.account_peak (RiskManager.exec s op)
            /\ RiskManager.max_drawdown s
               <= RiskManager.max_drawdown (RiskManager.exec s op)).
  { unfold performance, risk_inv in *. intros [= E1 E2 E3 _ E5 E6].
    rewrite E1, E2, E3, E5, E6. split; [exact Hs | split; lra]. }
  destruct op as [r p b now | d | d b now | d now].
  - apply update_performance_keeps_inv. exact Hs.
  - apply Hother, exec_keeps_performance. discriminate.
  - apply Hother, exec_keeps_performance. discriminate.
  - apply Hother, exec_keeps_performance. discriminate.
Qed.

Lemma fold_exec_keeps_risk_inv (ops : list RiskManager.Op) :
  forall s : RiskManager.State,
    risk_inv s ->
    risk_inv (fold_left RiskManager.exec ops s)
    /\ RiskManager.account_peak s
       <= RiskManager.account_peak (fold_left RiskManager.exec ops s)
    /\ RiskManager.max_drawdown s
       <= RiskManager.max_drawdown (fold_left RiskManager.exec ops s).
Proof.
  induction ops as [|op rest IH]; intros s Hs; cbn [fold_left].
  - split; [exact Hs | split; lra].
  - destruct (exec_keeps_risk_inv s op Hs) as (H1 & H2 & H3).
    destruct (IH _ H1) as (H4 & H5 & H6).
    split; [exact H4 | split; lra].
Qed.

Lemma init_risk_inv : risk_inv RiskManager.init.
Proof.
  unfold risk_inv. cbn. split; [lia|]. split; [left; reflexivity|].
  split; lra.
Qed.

(** X24.  Whatever calls are made on a fresh risk manager, it holds at most
    twenty recent trades, never has a losing and a winning streak at once,
    and its account peak and maximum drawdown are not negative; and further
    calls never lower the peak nor the maximum drawdown. *)
Theorem X24_risk_record_invariants (ops more : list RiskManager.Op) :
  let s := RiskManager.run ops in
  let s' := RiskManager.run (ops ++ more) in
  (length (RiskManager.recent_trades s) <= 20)%nat
  /\ (RiskManager.consecutive_losses s = 0%nat
      \/ RiskManager.consecutive_wins s = 0%nat)
  /\ 0 <= RiskManager.account_peak s
  /\ 0 <= RiskManager.max_drawdown s
  /\ RiskManager.account_peak s <= RiskManager.account_peak s'
  /\ RiskManager.max_drawdown s <= RiskManager.max_drawdown s'.
Proof.
  intros s s'.
  destruct (fold_exec_keeps_risk_inv ops RiskManager.init init_risk_inv)
    as (Hs & _ & _).
  fold (RiskManager.run ops) in Hs. fold s in Hs.
  destruct (fold_exec_keeps_risk_inv more s Hs) as (_ & H1 & H2).
  assert (E : s' = fold_left RiskManager.exec more s).
  { unfold s', s, RiskManager.run. apply fold_left_app. }
  rewrite E. destruct Hs as (A & B & C & D).
  split; [exact A|]. split; [exact B|]. split; [exact C|].
  split; [exact D|]. split; [exact H1 | exact H2].
Qed.

(** X25.  On a manager whose peak is not negative, [update_performance]
    raises exactly when the peak is zero and the balance is not positive.
    Raising or not, the call has by then stored the trade as the last of
    the recent trades and added its PnL to the daily PnL; when it raises,
    the maximum drawdown is left as it was. *)
Theorem X25_update_performance_raise (s : RiskManager.State) (r : string)
    (p b now : Q) :
  0 <= RiskManager.account_peak s ->
  let c := RiskManager.update_performance s r p b now in
  (RiskManager.value c = None
   <-> RiskManager.account_peak s == 0 /\ b <= 0)
  /\ (exists before,
        RiskManager.recent_trades (RiskManager.after c)
        = before ++ [RiskManager.mkTradeResult r p now b])
  /\ RiskManager.daily_pnl (RiskManager.after c)
     = RiskManager.daily_pnl s + p
  /\ (RiskManager.value c = None ->
      RiskManager.max_drawdown (RiskManager.after c)
      = RiskManager.max_drawdown s).
Proof.
  intros Hpk c. unfold c, RiskManager.update_performance. cbv zeta.
  set (x := RiskManager.mkTradeResult r p now b).
  set (appended := RiskManager.recent_trades s ++ [x]).
  set (recent := if (20 <? length appended)%nat
                 then RiskManager.last_n 20 appended else appended).
  assert (Hrecent : exists before, recent = before ++ [x]).
  { unfold recent. destruct (20 <? length appended)%nat.
    - unfold RiskManager.last_n, appended.
      rewrite length_app. cbn [length].
      rewrite skipn_app.
      replace (length (RiskManager.recent_trades s) + 1 - 20
               - length (RiskManager.recent_trades s))%nat with 0%nat by lia.
      cbn [skipn]. eexists. reflexivity.
    - eexists. reflexivity. }
  set (peak := if Py.ltb (RiskManager.account_peak s) b then b
               else RiskManager.account_peak s).
  assert (Hz : Py.eqb peak 0 = true
               <-> RiskManager.account_peak s == 0 /\ b <= 0).
  { rewrite eqb_true. unfold peak. py_case; split; intros; lra. }
  destruct (Py.eqb peak 0) eqn:Ez; cbn.
  - split; [split; [intros _; apply Hz; reflexivity | reflexivity]|].
    split; [exact Hrecent|]. split; reflexivity.
  - split; [split; [discriminate | intro H; apply Hz in H; discriminate]|].
    split; [exact Hrecent|]. split; [reflexivity | discriminate].
Qed.

Lemma X25_update_performance_raise_witness :
  RiskManager.value
    (RiskManager.update_performance RiskManager.init "LOSS" (- (5)) 0 60)
  = None
  <-> RiskManager.account_peak RiskManager.init == 0 /\ 0 <= 0.
Proof.
  refine (proj1 (X25_update_performance_raise RiskManager.init "LOSS"
                   (- (5)) 0 60 _)).
  vm_compute. discriminate.
Defined.

(** X26.  [calculate_win_rate] is always between 0 and 1, for every state
    and every window. *)
Theorem X26_win_rate_within_unit (s : RiskManager.State) (window : nat) :
  0 <= RiskManager.calculate_win_rate s window
  /\ RiskManager.calculate_win_rate s window <= 1.
Proof.
  unfold RiskManager.calculate_win_rate. cbv zeta.
  set (w := if (length (RiskManager.recent_trades s) <? window)%nat
            then length (RiskManager.recent_trades s) else window).
  assert (Hw : (w <= length (RiskManager.recent_trades s))%nat).
  { unfold w. destruct (_ <? _)%nat eqn:E; [lia|].
    apply Nat.ltb_ge in E. exact E. }
  destruct (w =? 0)%nat eqn:E0; [split; lra|].
  apply Nat.eqb_neq in E0.
  set (recent := RiskManager.last_n w (RiskManager.recent_trades s)).
  assert (Hwins : (length (filter RiskManager.is_win recent) <= w)%nat).
  { etransitivity; [apply length_filter|].
    unfold recent. rewrite length_last_n. lia. }
  set (wins := length (filter RiskManager.is_win recent)) in *.
  assert (Hwq : 0 < inject_Z (Z.of_nat w)).
  { unfold Qlt. cbn. lia. }
  assert (H0 : 0 <= inject_Z (Z.of_nat wins)).
  { unfold Qle. cbn. lia. }
  assert (H1 : inject_Z (Z.of_nat wins) <= inject_Z (Z.of_nat w)).
  { unfold Qle. cbn. lia. }
  split.
  - apply Qle_shift_div_l; [exact Hwq | lra].
  - apply Qle_shift_div_r; [exact Hwq | lra].
Qed.

Lemma run_cooldowns_bounded (ops : list RiskManager.Op) :
  cooldowns_bounded (RiskManager.run ops)
  /\ RiskManager.base_cooldown (RiskManager.run ops) = 5
  /\ RiskManager.max_cooldown (RiskManager.run ops) = 60.
Proof.
  assert (Hinit : cooldowns_bounded RiskManager.init).
  { unfold cooldowns_bounded. cbn.
    split; [lra|]. split; [lra|]. apply map_Forall_empty. }
  exact (fold_exec_keeps ops RiskManager.init Hinit).
Qed.

(** X27.  After [register_trade] on a manager reached by any calls, the
    direction is locked by every [is_locked_out] made less than five
    minutes later; and one made sixty minutes later or more does not lock
    it unless the emergency check or the losing streak does. *)
Theorem X27_cooldown_window (ops : list RiskManager.Op) (direction : string)
    (balance : option Q) (t0 t1 : Q) :
  let s := RiskManager.register_trade (RiskManager.run ops) direction t0 in
  ((t1 - t0) / 60 < 5 ->
   fst (snd (RiskManager.is_locked_out s direction balance t1)) = true)
  /\ (60 <= (t1 - t0) / 60 ->
      RiskManager.emergency s balance = None ->
      (RiskManager.consecutive_losses s
       < RiskManager.consecutive_loss_limit s)%nat ->
      fst (snd (RiskManager.is_locked_out s direction balance t1)) = false).
Proof.
  intro s.
  destruct (run_cooldowns_bounded ops) as (Hb & Hbase & Hmax).
  assert (Hs : cooldowns_bounded s)
    by exact (exec_keeps_bounds _ (RiskManager.RegisterTrade direction t0) Hb).
  assert (Hbs : RiskManager.base_cooldown s = 5) by exact Hbase.
  assert (Hms : RiskManager.max_cooldown s = 60) by exact Hmax.
  assert (Hlast : RiskManager.last_trade_time s !! direction = Some t0).
  { unfold s. cbn. apply lookup_insert_eq. }
  destruct (should_adapt_cooldown_bounded s direction Hs) as (_ & Hlo & Hhi).
  rewrite Hbs in Hlo. rewrite Hms in Hhi.
  unfold RiskManager.is_locked_out, RiskManager.streak_then_cooldown.
  rewrite Hlast.
  destruct (RiskManager.should_adapt_cooldown s direction) as [s' c].
  cbn [snd] in Hlo, Hhi. split.
  - intro Hsoon.
    destruct (RiskManager.emergency s balance); [reflexivity|].
    destruct (_ <=? _)%nat; [reflexivity|].
    replace (Py.ltb ((t1 - t0) / 60) c) with true; [reflexivity|].
    symmetry. apply ltb_true. lra.
  - intros Hlate -> Hstreak.
    apply Nat.leb_gt in Hstreak. rewrite Hstreak.
    replace (Py.ltb ((t1 - t0) / 60) c) with false; [reflexivity|].
    symmetry. apply ltb_false. lra.
Qed.

Lemma X27_cooldown_window_witness :
  fst (snd (RiskManager.is_locked_out
              (RiskManager.register_trade (RiskManager.run two_losses)
                 "BUY" 1000)
              "BUY" (Some 1003) 1120)) = true.
Proof.
  refine (proj1 (X27_cooldown_window two_losses "BUY" (Some 1003) 1000 1120)
            _).
  vm_compute. reflexivity.
Defined.

(** X28.  [should_adapt_cooldown] starts from the cooldown the previous
    call stored, not from the base: a second call returns the adaptation of
    what the first returned.  So with fewer than three wins in a row and a
    win rate of at most 60 %, repeated calls never shorten the cooldown, and
    lengthen it as long as a factor applies and the maximum is not
    reached. *)
Theorem X28_cooldown_compounds (ops : list RiskManager.Op)
    (direction : string) :
  let s := RiskManager.run ops in
  let first := RiskManager.should_adapt_cooldown s direction in
  let second := RiskManager.should_adapt_cooldown (fst first) direction in
  snd second = RiskManager.adapted_cooldown s (snd first)
  /\ ((RiskManager.consecutive_wins s < 3)%nat ->
      RiskManager.calculate_win_rate s 10 <= 6 # 10 ->
      snd second
      = Py.min (snd first * RiskManager.multiplier (RiskManager.factors s)) 60
      /\ snd first <= snd second
      /\ (1 < RiskManager.multiplier (RiskManager.factors s) ->
          snd first < 60 -> snd first < snd second)).
Proof.
  intros s first second.
  destruct (run_cooldowns_bounded ops) as (Hb & Hbase & Hmax).
  fold s in Hb, Hbase, Hmax.
  destruct (should_adapt_cooldown_bounded s direction Hb) as (_ & Hlo & Hhi).
  fold first in Hlo, Hhi. rewrite Hbase in Hlo. rewrite Hmax in Hhi.
  assert (E : snd second = RiskManager.adapted_cooldown s (snd first)).
  { unfold second, first, RiskManager.should_adapt_cooldown.
    cbn [fst snd RiskManager.set_cooldown RiskManager.adaptive_cooldowns
         RiskManager.base_cooldown].
    rewrite lookup_insert_eq. reflexivity. }
  split; [exact E|]. intros Hwins Hrate. rewrite E.
  pose proof (multiplier_at_least_one _ (factors_at_least_one s)) as Hm.
  unfold RiskManager.adapted_cooldown. cbv zeta.
  apply Nat.leb_gt in Hwins. rewrite Hwins.
  replace (Py.ltb (6 # 10) (RiskManager.calculate_win_rate s 10)) with false
    by (symmetry; apply ltb_false; exact Hrate).
  cbn [andb]. rewrite Hmax.
  set (k := RiskManager.multiplier (RiskManager.factors s)) in *.
  set (c := snd first) in *.
  split; [reflexivity|].
  destruct (min_cases (c * k) 60) as [-> | ->].
  - split; [nra|]. intros Hk _. nra.
  - split; [lra|]. intros _ Hc. lra.
Qed.

Lemma X28_cooldown_compounds_witness :
  snd (RiskManager.should_adapt_cooldown (RiskManager.run two_losses) "BUY")
  <= snd (RiskManager.should_adapt_cooldown
            (fst (RiskManager.should_adapt_cooldown
                    (RiskManager.run two_losses) "BUY")) "BUY").
Proof.
  refine (proj1 (proj2 (proj2 (X28_cooldown_compounds two_losses "BUY") _ _))).
  - vm_compute. lia.
  - vm_compute. discriminate.
Defined.

(** ** main.py: live sizing and the streak tracker *)

(** X29.  The live [calc_units_usdjpy] returns 0 exactly when the stop sits
    on the entry price.  Otherwise it returns between 1 and 50000 units,
    positive for BUY and negative for any other action, whatever the
    balance: with a risk amount that is not positive it still returns one
    unit. *)
Theorem X29_live_units_bounds (balance risk_pct entry_ stop : Q)
    (action : string) :
  let units := Main.calc_units_usdjpy balance risk_pct entry_ stop action in
  (entry_ == stop -> units = 0%Z)
  /\ (~ entry_ == stop ->
      (1 <= Z.abs units <= 50000)%Z
      /\ (action = "BUY" -> (0 < units)%Z)
      /\ (action <> "BUY" -> (units < 0)%Z)
      /\ (balance * risk_pct <= 0 -> Z.abs units = 1%Z)).
Proof.
  intro units. unfold units, Main.calc_units_usdjpy. cbv zeta.
  pose proof (abs_nonneg (entry_ - stop)) as Ha.
  destruct (Py.leb (Py.abs (entry_ - stop)) 0) eqn:Ez.
  - apply leb_true in Ez. split; [reflexivity|]. intro Hne. exfalso.
    apply Hne. destruct (abs_cases (entry_ - stop)) as [[S1 E] | [S1 E]];
      rewrite E in Ez; lra.
  - apply leb_false in Ez. split.
    + intro E. exfalso.
      destruct (abs_cases (entry_ - stop)) as [[S1 E'] | [S1 E']];
        rewrite E' in Ez; lra.
    + intros _.
      set (mb := Z.min 100000 (Py.int (balance * 20))).
      set (ri := Py.int (balance * risk_pct * 1000)).
      set (rr := Main.round (balance * risk_pct * entry_
                             / Py.abs (entry_ - stop))).
      destruct (String.eqb action "BUY") eqn:Eb.
      * apply String.eqb_eq in Eb.
        split; [lia|]. split; [intros _; lia|].
        split; [intro H; contradiction|].
        intro Hr. assert (ri <= 0)%Z by (apply int_nonpos; lra). lia.
      * apply String.eqb_neq in Eb.
        split; [lia|]. split; [intro H; contradiction|].
        split; [intros _; lia|].
        intro Hr. assert (ri <= 0)%Z by (apply int_nonpos; lra). lia.
Qed.

Lemma X29_live_units_bounds_witness :
  (1 <= Z.abs (Main.calc_units_usdjpy 1000 (1 # 100) 150 149 "SELL")
   <= 50000)%Z.
Proof.
  refine (proj1 (proj2 (X29_live_units_bounds 1000 (1 # 100) 150 149 "SELL")
                   _)).
  vm_compute. discriminate.
Defined.

(** With a positive balance [update_performance] returns, and leaves a
    peak that is not negative. *)
Lemma update_performance_returns (s : RiskManager.State) (r : string)
    (p b now : Q) :
  0 < b -> 0 <= RiskManager.account_peak s ->
  RiskManager.value (RiskManager.update_performance s r p b now) = Some tt
  /\ 0 <= RiskManager.account_peak
            (RiskManager.after (RiskManager.update_performance s r p b now)).
Proof.
  intros Hb Hpk. unfold RiskManager.update_performance. cbv zeta.
  set (peak := if Py.ltb (RiskManager.account_peak s) b then b
               else RiskManager.account_peak s).
  assert (Hpeak : 0 < peak) by (unfold peak; py_case; lra).
  assert (Ez : Py.eqb peak 0 = false) by (apply eqb_false; lra).
  rewrite Ez. cbn. split; [reflexivity | lra].
Qed.

(** The loop of [update_streak] over losing fills counts every one of them
    and hands every one of them to the risk manager. *)
Lemma scan_losing_fills (b : Q) (today : Z) (txs : list Main.Tx) :
  Forall losing_fill txs -> 0 < b ->
  forall (s : RiskManager.State) (l d : nat),
    0 <= RiskManager.account_peak s ->
    exists s' d',
      Main.scan (Some s) b today txs l d
      = (Some s', Some ((l + length txs)%nat, d'))
      /\ RiskManager.consecutive_losses s'
         = (RiskManager.consecutive_losses s + length txs)%nat
      /\ 0 <= RiskManager.account_peak s'.
Proof.
  intros Hall Hb.
  induction Hall as [|tx rest [Hty Hpl] _ IH]; intros s l d Hpk.
  - exists s, d. cbn. rewrite !Nat.add_0_r. auto.
  - cbn [Main.scan]. rewrite Hty. cbn [String.eqb Ascii.eqb Bool.eqb].
    cbv zeta.
    assert (E0 : Py.eqb (Main.tx_pl tx) 0 = false) by (apply eqb_false; lra).
    assert (E1 : Py.ltb (Main.tx_pl tx) 0 = true) by (apply ltb_true; lra).
    rewrite E0, E1. cbn [negb fst snd].
    destruct (update_performance_returns s "LOSS" (Main.tx_pl tx) b
                (Main.seen_at tx) Hb Hpk) as [Hv Hpk'].
    destruct (update_performance_loss s (Main.tx_pl tx) b (Main.seen_at tx))
      as [Hl _].
    rewrite Hv.
    destruct (IH (RiskManager.after
                    (RiskManager.update_performance s "LOSS" (Main.tx_pl tx)
                       b (Main.seen_at tx)))
                 (S l)
                 (if (Main.tx_date tx =? today)%Z then S d else d) Hpk')
      as (s' & d' & Es & Hc & Hp).
    exists s', d'. rewrite Es. cbn [length].
    split; [do 3 f_equal; lia|]. split; [rewrite Hc, Hl; lia | exact Hp].
Qed.

Lemma polls_losing_fills (b : Q) (today : Z) (txs : list Main.Tx)
    (s : RiskManager.State) (t : Main.Tracker) :
  Forall losing_fill txs -> 0 < b -> 0 <= RiskManager.account_peak s ->
  forall n : nat,
    exists t' s',
      polls n 200 txs (Some b) today (t, Some s) = (t', Some s')
      /\ RiskManager.consecutive_losses s'
         = (RiskManager.consecutive_losses s + n * length txs)%nat
      /\ 0 <= RiskManager.account_peak s'
      /\ (n <> 0%nat ->
          Main.consecutive_losses t' = length txs
          /\ Main.risk_reduction_active t' = (2 <=? length txs)%nat).
Proof.
  intros Hall Hb Hpk. induction n as [|n IH].
  - exists t, s. cbn. split; [reflexivity|]. split; [lia|].
    split; [exact Hpk | intro H; contradiction].
  - destruct IH as (t1 & s1 & E & Hc & Hp & _).
    unfold polls in *. rewrite Nat.iter_succ, E. cbn [fst snd].
    unfold Main.update_streak.
    change (negb (200 =? 200)%Z) with false. cbv iota zeta.
    change (default 0 (Some b)) with b.
    destruct (scan_losing_fills b today txs Hall Hb s1 0 0 Hp)
      as (s2 & d2 & Es & Hc2 & Hp2).
    rewrite Es. cbn [Nat.add] in *.
    exists (Main.mkTracker (length txs) d2 (2 <=? length txs)%nat), s2.
    split; [reflexivity|]. split; [rewrite Hc2, Hc; lia|].
    split; [exact Hp2|]. intros _. split; reflexivity.
Qed.

(** X30.  [update_streak] hands the transactions it reads to the risk
    manager on every call.  Polled [n + 1] times with the same losing fills
    on a positive balance, the tracker reports their number as the losing
    streak, while the streak of the risk manager has grown by that number
    once per poll. *)
Theorem X30_streak_fed_on_every_poll (n : nat) (txs : list Main.Tx) (b : Q)
    (today : Z) (t : Main.Tracker) (s : RiskManager.State) :
  Forall losing_fill txs -> 0 < b -> 0 <= RiskManager.account_peak s ->
  let r := polls (S n) 200 txs (Some b) today (t, Some s) in
  Main.consecutive_losses (fst r) = length txs
  /\ Main.risk_reduction_active (fst r) = (2 <=? length txs)%nat
  /\ exists s',
       snd r = Some s'
       /\ RiskManager.consecutive_losses s'
          = (RiskManager.consecutive_losses s + S n * length txs)%nat.
Proof.
  intros Hall Hb Hpk r.
  destruct (polls_losing_fills b today txs s t Hall Hb Hpk (S n))
    as (t' & s' & E & Hc & _ & Ht).
  unfold r. rewrite E. cbn [fst snd].
  destruct (Ht ltac:(discriminate)) as [H1 H2].
  split; [exact H1|]. split; [exact H2|].
  exists s'. split; [reflexivity | exact Hc].
Qed.

Lemma X30_streak_fed_on_every_poll_witness :
  Main.consecutive_losses
    (fst (polls 3 200 one_losing_fill (Some 1000) 4
            (Main.init, Some RiskManager.init))) = 1%nat
  /\ exists s',
       snd (polls 3 200 one_losing_fill (Some 1000) 4
              (Main.init, Some RiskManager.init)) = Some s'
       /\ RiskManager.consecutive_losses s' = 3%nat.
Proof.
  destruct (X30_streak_fed_on_every_poll 2 one_losing_fill 1000 4 Main.init
              RiskManager.init) as (H1 & _ & H3).
  - repeat constructor.
  - lra.
  - vm_compute. discriminate.
  - split; [exact H1 | exact H3].
Defined.
